(** * Bonzah insurance decision engine: the criminal-check risk core

    A shallow embedding of [engine_core/CriminalCheck.py] (class
    [CriminalCheckProcessor]) and of the overall-risk rule of
    [engine_core/RuleCore.py] (class [CriminalBackgroundRuleEngine]),
    followed by the properties of the scoring pipeline.

    Modelling conventions.
    - Python [str] is [string]; text is taken to be ASCII, so [str.lower]
      maps [A-Z] to [a-z] and leaves every other character alone, and the
      [\d] of [strptime]'s regular expressions is [0-9].
    - Python [int] is [Z].  Python [float] is an exact rational [Q]: the
      scoring constants 1.5, 1.2, 1.0, 0.8 and 0.5 are 3/2, 6/5, 1, 4/5 and
      1/2, and [round(x, 2)] is rounding to the nearest hundredth, ties to
      even.  Overflow and binary representation error are not modelled.
    - A naive [datetime] is the number of microseconds since
      0001-01-01T00:00:00; a [timedelta] is a number of microseconds.
    - A JSON object read with [dict.get(key, default)] is a record of
      [option] fields; [None] is an absent key.
    - [datetime.now()] reads a clock: the n-th reading of a run is
      [clk n], and the number of readings made so far is threaded as state.
    - An exception is a value [Raise e]; raising keeps the state reached. *)

From Stdlib Require Import ZArith QArith Qround Bool List String Ascii Lia.
From Stdlib Require Import DecimalString Permutation Lqa.
Import ListNotations.

Local Open Scope string_scope.
Local Open Scope list_scope.
Local Open Scope Z_scope.

(** ** Exceptions, results and the run monad *)

Inductive exn : Type :=
| IndexError
| KeyError
| ValueError
| OverflowError.

Inductive result (A : Type) : Type :=
| Ok (a : A)
| Raise (e : exn).

Arguments Ok {A} a.
Arguments Raise {A} e.

Definition datetime : Type := Z.
Definition timedelta : Type := Z.

Definition Clock : Type := nat -> datetime.

(** A computation reads the clock, counts its readings and may raise. *)
Definition M (A : Type) : Type := Clock -> nat -> result A * nat.

Definition ret {A} (a : A) : M A := fun _ t => (Ok a, t).

Definition bind {A B} (m : M A) (k : A -> M B) : M B :=
  fun clk t =>
    match m clk t with
    | (Ok a, t') => k a clk t'
    | (Raise e, t') => (Raise e, t')
    end.

Definition lift {A} (r : result A) : M A := fun _ t => (r, t).

(** [datetime.now()] *)
Definition now : M datetime := fun clk t => (Ok (clk t), S t).

(** [try: m  except ValueError: h] *)
Definition try_except_ValueError {A} (m : M A) (h : M A) : M A :=
  fun clk t =>
    match m clk t with
    | (Raise ValueError, t') => h clk t'
    | r => r
    end.

Notation "x <- m ;; k" := (bind m (fun x => k))
  (at level 61, m at next level, right associativity).
Notation "' p <- m ;; k" := (bind m (fun x => match x with p => k end))
  (at level 61, p pattern, m at next level, right associativity).

(** [for a in l: s = body a s], the loop state passed explicitly. *)
Fixpoint for_each {A S} (l : list A) (body : A -> S -> M S) (s : S) : M S :=
  match l with
  | [] => ret s
  | a :: l' => s' <- body a s ;; for_each l' body s'
  end.

(** [d.get(key, default)] on an optional field. *)
Definition get {A} (field : option A) (default : A) : A :=
  match field with
  | Some v => v
  | None => default
  end.

(** ** Strings *)

Definition lower_ascii (a : ascii) : ascii :=
  let n := nat_of_ascii a in
  if ((65 <=? n) && (n <=? 90))%nat then ascii_of_nat (n + 32) else a.

(** [str.lower] *)
Fixpoint lower (s : string) : string :=
  match s with
  | EmptyString => EmptyString
  | String a r => String (lower_ascii a) (lower r)
  end.

(** [str(n)] for an [int]. *)
Definition str_of_int (n : Z) : string := NilZero.string_of_int (Z.to_int n).

(** ** Dates: [datetime.strptime(s, "%Y%m%d")]

    [_strptime] compiles the format to the regular expression
    [(\d\d\d\d)(1[0-2]|0[1-9]|[1-9])(3[0-1]|[1-2]\d|0[1-9]|[1-9]| [1-9])],
    takes the first match at the start of the string in the order of the
    alternatives, refuses text left over, and builds the date, which refuses
    year 0 and a day beyond the month's length. *)

Definition digit (a : ascii) : option Z :=
  let n := nat_of_ascii a in
  if ((48 <=? n) && (n <=? 57))%nat then Some (Z.of_nat (n - 48)) else None.

Definition digit_in (lo hi : Z) (a : ascii) : option Z :=
  match digit a with
  | Some d => if (lo <=? d) && (d <=? hi) then Some d else None
  | None => None
  end.

(** [\d\d\d\d] *)
Definition re_year (s : string) : option (Z * string) :=
  match s with
  | String a (String b (String c (String d rest))) =>
      match digit a, digit b, digit c, digit d with
      | Some a, Some b, Some c, Some d => Some (1000 * a + 100 * b + 10 * c + d, rest)
      | _, _, _, _ => None
      end
  | _ => None
  end.

(** One alternative made of a first character in [lo1..hi1] worth ten times
    its value and a second in [lo2..hi2]. *)
Definition two_digits (lo1 hi1 lo2 hi2 : Z) (s : string) : list (Z * string) :=
  match s with
  | String a (String b rest) =>
      match digit_in lo1 hi1 a, digit_in lo2 hi2 b with
      | Some x, Some y => [(10 * x + y, rest)]
      | _, _ => []
      end
  | _ => []
  end.

Definition one_digit (lo hi : Z) (s : string) : list (Z * string) :=
  match s with
  | String a rest =>
      match digit_in lo hi a with
      | Some x => [(x, rest)]
      | None => []
      end
  | _ => []
  end.

Definition space_digit (s : string) : list (Z * string) :=
  match s with
  | String " " rest => one_digit 1 9 rest
  | _ => []
  end.

(** [1[0-2]|0[1-9]|[1-9]]: every way to match, best first. *)
Definition re_month (s : string) : list (Z * string) :=
  two_digits 1 1 0 2 s ++ two_digits 0 0 1 9 s ++ one_digit 1 9 s.

(** [3[0-1]|[1-2]\d|0[1-9]|[1-9]| [1-9]] *)
Definition re_day (s : string) : list (Z * string) :=
  two_digits 3 3 0 1 s ++ two_digits 1 2 0 9 s ++ two_digits 0 0 1 9 s
    ++ one_digit 1 9 s ++ space_digit s.

(** The first match of the whole expression: year, month, day, text left. *)
Definition re_match_Ymd (s : string) : option (Z * Z * Z * string) :=
  match re_year s with
  | Some (y, s1) =>
      hd_error
        (flat_map (fun '(m, s2) => map (fun '(d, s3) => (y, m, d, s3)) (re_day s2))
                  (re_month s1))
  | None => None
  end.

Definition is_leap (y : Z) : bool :=
  (y mod 4 =? 0) && (negb (y mod 100 =? 0) || (y mod 400 =? 0)).

Definition days_in_month (y m : Z) : Z :=
  if (m =? 2) && is_leap y then 29
  else nth (Z.to_nat m) [-1; 31; 28; 31; 30; 31; 30; 31; 31; 30; 31; 30; 31] 0.

Definition days_before_year (y : Z) : Z :=
  let y' := y - 1 in y' * 365 + y' / 4 - y' / 100 + y' / 400.

Definition days_before_month (y m : Z) : Z :=
  nth (Z.to_nat m) [-1; 0; 31; 59; 90; 120; 151; 181; 212; 243; 273; 304; 334] 0
  + (if (m >? 2) && is_leap y then 1 else 0).

(** [date(y, m, d).toordinal()]: 0001-01-01 is day 1. *)
Definition ymd2ord (y m d : Z) : Z :=
  days_before_year y + days_before_month y m + d.

Definition us_per_day : Z := 86400000000.

(** Midnight of a date as a [datetime]. *)
Definition datetime_of_ymd (y m d : Z) : datetime := (ymd2ord y m d - 1) * us_per_day.

Definition strptime_Ymd (s : string) : result datetime :=
  match re_match_Ymd s with
  | Some (y, m, d, EmptyString) =>
      if (1 <=? y) && (d <=? days_in_month y m)
      then Ok (datetime_of_ymd y m d)
      else Raise ValueError
  | Some (_, _, _, String _ _) => Raise ValueError
  | None => Raise ValueError
  end.

(** [timedelta(days=n)]: [OverflowError] beyond 999999999 days. *)
Definition timedelta_days (n : Z) : result timedelta :=
  if (-999999999 <=? n) && (n <=? 999999999) then Ok (n * us_per_day)
  else Raise OverflowError.

(** [datetime.max] is 9999-12-31T23:59:59.999999. *)
Definition datetime_max : datetime := 3652059 * us_per_day - 1.

(** [dt - delta] on a [datetime]: [OverflowError] outside years 1..9999. *)
Definition datetime_sub (dt : datetime) (delta : timedelta) : result datetime :=
  let r := dt - delta in
  if (0 <=? r) && (r <=? datetime_max) then Ok r else Raise OverflowError.

(** [(a - b).days]: a [timedelta] keeps its days rounded down. *)
Definition days_between (a b : datetime) : Z := (a - b) / us_per_day.

(** ** Numbers: [round(x, 2)] *)

Definition round_half_even (q : Q) : Z :=
  let f := Qfloor q in
  match (q - inject_Z f ?= 1 # 2)%Q with
  | Lt => f
  | Gt => f + 1
  | Eq => if Z.even f then f else f + 1
  end.

Definition round2 (q : Q) : Q := Qred (Qmake (round_half_even (q * 100)) 100).


Definition Qlt_bool (x y : Q) : bool := negb (Qle_bool y x).

(** ** Data model *)

(** [class RiskLevel(Enum)] and its [.value]. *)
Inductive RiskLevel : Type :=
| IGNORED
| LOW
| MEDIUM
| HIGH
| CLEAN.

Definition value (l : RiskLevel) : string :=
  match l with
  | IGNORED => "Ignored"
  | LOW => "Low"
  | MEDIUM => "Medium"
  | HIGH => "High"
  | CLEAN => "Clean"
  end.

Definition RiskLevel_eqb (a b : RiskLevel) : bool :=
  match a, b with
  | IGNORED, IGNORED | LOW, LOW | MEDIUM, MEDIUM | HIGH, HIGH | CLEAN, CLEAN => true
  | _, _ => false
  end.

(** [@dataclass class ProcessedCase] *)
Record ProcessedCase : Type := {
  case_number : string;
  charge_description : string;
  offense_date : string;
  charge_type : string;
  disposition : string;
  category : string;
  subcategory : string;
  risk_level : RiskLevel;
  risk_score : Q;
  reason : string
}.

(** The entries of the configuration file, one module per kind of JSON
    object so that the fields keep the names of the keys. *)

Module RecordCategory.
Record t : Type := { category : string; enabled : bool }.
End RecordCategory.

Module ChargeType.
Record t : Type := { input_key : string; enabled : bool; severity_weight : Z }.
End ChargeType.

Module DispositionFilter.
Record t : Type := { input_key : string; enabled : bool; risk_impact : string }.
End DispositionFilter.

Module RiskCategory.
Record t : Type := { category : string; base_weight : Q }.
End RiskCategory.

(** [scoring_rules.thresholds]: the [min] of each band. *)
Module Thresholds.
Record t : Type := {
  critical_risk_min : Q;
  high_risk_min : Q;
  medium_risk_min : Q;
  low_risk_min : Q
}.
End Thresholds.

Module Config.
Record t : Type := {
  selected_period : Z;                           (* search_parameters.lookback_period *)
  record_categories : list RecordCategory.t;     (* record_categories.categories *)
  charge_types : list ChargeType.t;              (* charge_classification.types *)
  dispositions : list DispositionFilter.t;       (* disposition_filters.dispositions *)
  risk_categories : list RiskCategory.t;         (* risk_scoring.categories *)
  thresholds : Thresholds.t                      (* scoring_rules.thresholds *)
}.
End Config.

(** The input document, as the record service returns it. *)

Module Disposition.
Record t : Type := { disposition_type : option string }.
End Disposition.

Module Charge.
Record t : Type := {
  offense_date : option string;
  type : option string;
  category : option string;
  subcategory : option string;
  description : option string;
  dispositions : option (list Disposition.t)
}.
End Charge.

Module Case.
Record t : Type := { case_number : option string; charges : option (list Charge.t) }.
End Case.

Module ResultGroup.
Record t : Type := { category : option string; cases : option (list Case.t) }.
End ResultGroup.

Module Document.
Record t : Type := { results : option (list ResultGroup.t) }.
End Document.

(** ** [dict] as an association list in insertion order *)

Fixpoint dict_get {V} (k : string) (d : list (string * V)) : option V :=
  match d with
  | [] => None
  | (k', v) :: d' => if String.eqb k' k then Some v else dict_get k d'
  end.

(** [d[k]] *)
Definition getitem {V} (k : string) (d : list (string * V)) : result V :=
  match dict_get k d with
  | Some v => Ok v
  | None => Raise KeyError
  end.

Fixpoint dict_set {V} (k : string) (v : V) (d : list (string * V)) : list (string * V) :=
  match d with
  | [] => []
  | (k', v') :: d' => if String.eqb k' k then (k', v) :: d' else (k', v') :: dict_set k v d'
  end.

Definition keys {V} (d : list (string * V)) : list string := map fst d.

Definition Buckets : Type := list (string * list ProcessedCase).

(** [results[k].append(pc)] *)
Definition append_to (k : string) (pc : ProcessedCase) (results : Buckets) : result Buckets :=
  match getitem k results with
  | Ok l => Ok (dict_set k (l ++ [pc]) results)
  | Raise e => Raise e
  end.

(** Truth value of a list. *)
Definition truthy {A} (l : list A) : bool :=
  match l with
  | [] => false
  | _ :: _ => true
  end.

(** ** [class CriminalCheckProcessor] *)

Record CriminalCheckProcessor : Type := {
  config : Config.t;
  lookback_years : Z;
  cutoff_date : datetime
}.

(** [__init__], the configuration already read and decoded. *)
Definition __init__ (cfg : Config.t) : M CriminalCheckProcessor :=
  let years := Config.selected_period cfg in
  n <- now ;;
  delta <- lift (timedelta_days (years * 365)) ;;
  cutoff <- lift (datetime_sub n delta) ;;
  ret {| config := cfg; lookback_years := years; cutoff_date := cutoff |}.

(** The inner [ValueError] is caught and a [ValueError] raised in its place. *)
Definition _parse_date (date_str : string) : result datetime :=
  match strptime_Ymd date_str with
  | Ok dt => Ok dt
  | Raise ValueError => Raise ValueError
  | Raise e => Raise e
  end.

Definition _is_within_lookback (self : CriminalCheckProcessor) (offense_date : string)
  : result bool :=
  match _parse_date offense_date with
  | Ok offense_dt => Ok (cutoff_date self <=? offense_dt)
  | Raise ValueError => Ok false
  | Raise e => Raise e
  end.

Fixpoint _is_record_category_enabled_in (categories : list RecordCategory.t)
  (category : string) : bool :=
  match categories with
  | [] => false
  | cat :: rest =>
      if String.eqb (lower (RecordCategory.category cat)) (lower category)
      then RecordCategory.enabled cat
      else _is_record_category_enabled_in rest category
  end.

Definition _is_record_category_enabled (self : CriminalCheckProcessor) (category : string)
  : bool :=
  _is_record_category_enabled_in (Config.record_categories (config self)) category.

(** The first configured charge type whose key matches, if any: the loop
    shared by [_is_charge_type_enabled] and [_get_charge_type_weight]. *)
Fixpoint find_charge_type (charge_types : list ChargeType.t) (charge_type : string)
  : option ChargeType.t :=
  match charge_types with
  | [] => None
  | ct :: rest =>
      if String.eqb (lower (ChargeType.input_key ct)) (lower charge_type)
      then Some ct
      else find_charge_type rest charge_type
  end.

Definition _is_charge_type_enabled (self : CriminalCheckProcessor) (charge_type : string)
  : bool :=
  match find_charge_type (Config.charge_types (config self)) charge_type with
  | Some ct => ChargeType.enabled ct
  | None => false
  end.

Fixpoint find_disposition (dispositions : list DispositionFilter.t) (disposition : string)
  : option DispositionFilter.t :=
  match dispositions with
  | [] => None
  | disp :: rest =>
      if String.eqb (lower (DispositionFilter.input_key disp)) (lower disposition)
      then Some disp
      else find_disposition rest disposition
  end.

Definition _is_disposition_enabled (self : CriminalCheckProcessor) (disposition : string)
  : bool :=
  match find_disposition (Config.dispositions (config self)) disposition with
  | Some disp => DispositionFilter.enabled disp
  | None => false
  end.

Fixpoint _get_risk_category_weight_in (risk_categories : list RiskCategory.t)
  (category : string) : Q :=
  match risk_categories with
  | [] => 1
  | cat :: rest =>
      if String.eqb (lower (RiskCategory.category cat)) (lower category)
      then RiskCategory.base_weight cat
      else _get_risk_category_weight_in rest category
  end.

Definition _get_risk_category_weight (self : CriminalCheckProcessor) (category : string)
  : Q :=
  _get_risk_category_weight_in (Config.risk_categories (config self)) category.

Definition _get_charge_type_weight (self : CriminalCheckProcessor) (charge_type : string)
  : Z :=
  match find_charge_type (Config.charge_types (config self)) charge_type with
  | Some ct => ChargeType.severity_weight ct
  | None => 1
  end.

Definition _get_disposition_risk_impact (self : CriminalCheckProcessor)
  (disposition : string) : string :=
  match find_disposition (Config.dispositions (config self)) disposition with
  | Some disp => DispositionFilter.risk_impact disp
  | None => "low"
  end.

(** The [risk_mapping] dictionary of [_get_csv_risk_score], keyed by
    (category, subcategory). *)
Definition risk_mapping : list ((string * string) * string) :=
  [ (("vehicles & traffic", "license"), "High");
    (("vehicles & traffic", "license & registration"), "High");
    (("vehicles & traffic", "speeding"), "Low");
    (("vehicles & traffic", "traffic violations"), "Low");
    (("vehicles & traffic", "reckless driving"), "Med");
    (("criminal intent", "accessory"), "Low");
    (("criminal intent", "court orders"), "Med");
    (("violence", ""), "High");
    (("sexual", ""), "High");
    (("homicide", ""), "High");
    (("fraud & deception", ""), "Med");
    (("drugs & alcohol", ""), "Med");
    (("theft & property", ""), "Med");
    (("security", ""), "High");
    (("statutory", ""), "Low");
    (("unclassified", ""), "High") ].

Fixpoint pair_get {V} (k : string * string) (d : list ((string * string) * V)) : option V :=
  match d with
  | [] => None
  | ((c, s), v) :: d' =>
      if String.eqb c (fst k) && String.eqb s (snd k) then Some v else pair_get k d'
  end.

Definition high_risk_categories : list string :=
  ["violence"; "sexual"; "homicide"; "security"; "unclassified"].

(** [x in l] for a list of strings. *)
Definition str_in (x : string) (l : list string) : bool := existsb (String.eqb x) l.

Definition _get_csv_risk_score (category subcategory : string) : string :=
  match pair_get (lower category, lower subcategory) risk_mapping with
  | Some tier => tier
  | None =>
      match pair_get (lower category, "") risk_mapping with
      | Some tier => tier
      | None => if str_in (lower category) high_risk_categories then "High" else "Med"
      end
  end.

Definition risk_base_scores : list (string * Z) :=
  [("High", 30); ("Med", 15); ("Low", 5); ("Unscored", 10)].

Definition impact_multipliers : list (string * Q) :=
  [("high", 3 # 2); ("medium", 6 # 5); ("low", 1 # 1); ("none", 1 # 2)]%Q.

(** [charge.get("dispositions", [{}])[0].get("disposition_type", "unknown")]:
    indexing an empty list raises [IndexError]. *)
Definition first_disposition_type (charge : Charge.t) : result string :=
  match get (Charge.dispositions charge) [ {| Disposition.disposition_type := None |} ] with
  | [] => Raise IndexError
  | d :: _ => Ok (get (Disposition.disposition_type d) "unknown")
  end.

Definition recency_factor (years_ago : Q) : Q :=
  if Qle_bool years_ago 1 then 3 # 2
  else if Qle_bool years_ago 3 then 6 # 5
  else if Qle_bool years_ago 5 then 1
  else 4 # 5.

Definition _calculate_risk_score (self : CriminalCheckProcessor) (charge : Charge.t)
  (offense_date : string) : M Q :=
  let category := get (Charge.category charge) "Unclassified" in
  let subcategory := get (Charge.subcategory charge) "" in
  let csv_risk_level := _get_csv_risk_score category subcategory in
  let base_score := get (dict_get csv_risk_level risk_base_scores) 15 in
  let base_score := if String.eqb (lower category) "unclassified" then 35 else base_score in
  let charge_type := get (Charge.type charge) "unknown" in
  let charge_weight := _get_charge_type_weight self charge_type in
  disposition <- lift (first_disposition_type charge) ;;
  let disposition_impact := _get_disposition_risk_impact self disposition in
  let disposition_multiplier := get (dict_get disposition_impact impact_multipliers) 1%Q in
  let final_score :=
    (inject_Z base_score * (inject_Z charge_weight / 2) * disposition_multiplier)%Q in
  final_score <-
    try_except_ValueError
      (offense_dt <- lift (_parse_date offense_date) ;;
       n <- now ;;
       let years_ago := (inject_Z (days_between n offense_dt) / 365)%Q in
       ret (final_score * recency_factor years_ago)%Q)
      (ret final_score) ;;
  ret (round2 final_score).

Definition _determine_risk_level (self : CriminalCheckProcessor) (risk_score : Q)
  (category : string) : RiskLevel :=
  if String.eqb (lower category) "unclassified" && Qlt_bool 0 risk_score then HIGH
  else
    let thresholds := Config.thresholds (config self) in
    if Qle_bool (Thresholds.critical_risk_min thresholds) risk_score then HIGH
    else if Qle_bool (Thresholds.high_risk_min thresholds) risk_score then HIGH
    else if Qle_bool (Thresholds.medium_risk_min thresholds) risk_score then MEDIUM
    else if Qle_bool (Thresholds.low_risk_min thresholds) risk_score then LOW
    else LOW.

Definition _process_charge (self : CriminalCheckProcessor) (charge : Charge.t)
  (case_number : string) : M (ProcessedCase * bool) :=
  let offense_date := get (Charge.offense_date charge) "" in
  let charge_type := get (Charge.type charge) "unknown" in
  let category := get (Charge.category charge) "unclassified" in
  let subcategory := get (Charge.subcategory charge) "" in
  let description := get (Charge.description charge) "" in
  disposition <- lift (first_disposition_type charge) ;;
  let ignored (why : string) : ProcessedCase :=
    {| case_number := case_number;
       charge_description := description;
       offense_date := offense_date;
       charge_type := charge_type;
       disposition := disposition;
       category := category;
       subcategory := subcategory;
       risk_level := IGNORED;
       risk_score := 0;
       reason := why |} in
  within <- lift (_is_within_lookback self offense_date) ;;
  if negb within then
    ret (ignored ("Outside " ++ str_of_int (lookback_years self)
                    ++ "-year lookback period")%string, false)
  else if negb (_is_charge_type_enabled self charge_type) then
    ret (ignored ("Charge type '" ++ charge_type
                    ++ "' not enabled in configuration")%string, false)
  else if negb (_is_disposition_enabled self disposition) then
    ret (ignored ("Disposition '" ++ disposition
                    ++ "' not enabled in configuration")%string, false)
  else
    risk_score <- _calculate_risk_score self charge offense_date ;;
    let risk_level := _determine_risk_level self risk_score category in
    ret ({| case_number := case_number;
            charge_description := description;
            offense_date := offense_date;
            charge_type := charge_type;
            disposition := disposition;
            category := category;
            subcategory := subcategory;
            risk_level := risk_level;
            risk_score := risk_score;
            reason := "Processed successfully" |}, true).

(** The synthetic entry of a document without records. *)
Definition no_records_case : ProcessedCase :=
  {| case_number := "N/A";
     charge_description := "No criminal records found";
     offense_date := "N/A";
     charge_type := "N/A";
     disposition := "N/A";
     category := "N/A";
     subcategory := "N/A";
     risk_level := CLEAN;
     risk_score := 0;
     reason := "No criminal history found" |}.

(** The synthetic entry of a run that kept no record. *)
Definition no_qualifying_case : ProcessedCase :=
  {| case_number := "N/A";
     charge_description := "No qualifying criminal records found";
     offense_date := "N/A";
     charge_type := "N/A";
     disposition := "N/A";
     category := "N/A";
     subcategory := "N/A";
     risk_level := CLEAN;
     risk_score := 0;
     reason := "No records meet the configured criteria" |}.

Definition empty_results : Buckets :=
  [("Ignored", []); ("Low", []); ("Medium", []); ("High", []); ("Clean", [])].

(** The body of the innermost loop; the loop state is [results] and
    [processed_any]. *)
Definition charge_body (self : CriminalCheckProcessor) (case_number : string)
  (charge : Charge.t) (st : Buckets * bool) : M (Buckets * bool) :=
  let '(results, processed_any) := st in
  '(processed_case, should_include) <- _process_charge self charge case_number ;;
  if RiskLevel_eqb (risk_level processed_case) IGNORED then
    results <- lift (append_to "Ignored" processed_case results) ;;
    ret (results, processed_any)
  else
    results <- lift (append_to (value (risk_level processed_case)) processed_case results) ;;
    ret (results, if should_include then true else processed_any).

Definition case_body (self : CriminalCheckProcessor) (case : Case.t)
  (st : Buckets * bool) : M (Buckets * bool) :=
  let case_number := get (Case.case_number case) "unknown" in
  let charges := get (Case.charges case) [] in
  for_each charges (charge_body self case_number) st.

Definition result_body (self : CriminalCheckProcessor) (result : ResultGroup.t)
  (st : Buckets * bool) : M (Buckets * bool) :=
  let category := get (ResultGroup.category result) "" in
  if negb (_is_record_category_enabled self category) then ret st
  else
    let cases := get (ResultGroup.cases result) [] in
    for_each cases (case_body self) st.

(** [any(results[level] for level in levels)] *)
Fixpoint any_bucket (results : Buckets) (levels : list string) : result bool :=
  match levels with
  | [] => Ok false
  | level :: rest =>
      match getitem level results with
      | Ok l => if truthy l then Ok true else any_bucket results rest
      | Raise e => Raise e
      end
  end.

Definition process_criminal_check (self : CriminalCheckProcessor) (data : Document.t)
  : M Buckets :=
  let results := empty_results in
  if negb (truthy (get (Document.results data) [])) then
    results <- lift (append_to "Clean" no_records_case results) ;;
    ret results
  else
    '(results, processed_any) <-
      for_each (get (Document.results data) []) (result_body self) (results, false) ;;
    active <- (if processed_any then ret true
               else lift (any_bucket results ["Low"; "Medium"; "High"])) ;;
    if negb active then
      ignored <- lift (getitem "Ignored" results) ;;
      if negb (truthy ignored) then
        results <- lift (append_to "Clean" no_qualifying_case results) ;;
        ret results
      else ret results
    else ret results.

(** ** [class CriminalBackgroundRuleEngine]: the overall level *)

(** Truth value of [d.get(k)]: a missing key gives [None], which is false. *)
Definition get_truthy (k : string) (d : Buckets) : bool :=
  match dict_get k d with
  | Some l => truthy l
  | None => false
  end.

Definition _calculate_overall_risk (processed_cases : Buckets) : RiskLevel :=
  if get_truthy "High" processed_cases then HIGH
  else if get_truthy "Medium" processed_cases then MEDIUM
  else if get_truthy "Low" processed_cases then LOW
  else if get_truthy "Ignored" processed_cases
          && negb (existsb (fun level => get_truthy level processed_cases)
                           ["High"; "Medium"; "Low"]) then CLEAN
  else if get_truthy "Clean" processed_cases then CLEAN
  else CLEAN.

(** ** The rules in the specification's words

    These definitions follow the specification, not the code; the theorems
    below compare the code with them. *)

Inductive Tier : Type :=
| TierHigh
| TierMed
| TierLow
| TierUnscored.

(** Base score of a tier: High=30, Med=15, Low=5, Unscored=10. *)
Definition tier_base_score (t : Tier) : Z :=
  match t with
  | TierHigh => 30
  | TierMed => 15
  | TierLow => 5
  | TierUnscored => 10
  end.

(** The fixed category/subcategory table. *)
Definition tier_table : list ((string * string) * Tier) :=
  [ (("vehicles & traffic", "license"), TierHigh);
    (("vehicles & traffic", "license & registration"), TierHigh);
    (("vehicles & traffic", "speeding"), TierLow);
    (("vehicles & traffic", "traffic violations"), TierLow);
    (("vehicles & traffic", "reckless driving"), TierMed);
    (("criminal intent", "accessory"), TierLow);
    (("criminal intent", "court orders"), TierMed);
    (("violence", ""), TierHigh);
    (("sexual", ""), TierHigh);
    (("homicide", ""), TierHigh);
    (("fraud & deception", ""), TierMed);
    (("drugs & alcohol", ""), TierMed);
    (("theft & property", ""), TierMed);
    (("security", ""), TierHigh);
    (("statutory", ""), TierLow);
    (("unclassified", ""), TierHigh) ].

(** Case-insensitive lookup; an entry for the subcategory comes before the
    entry of the category alone; anything else is Med. *)
Definition spec_tier (category subcategory : string) : Tier :=
  match pair_get (lower category, lower subcategory) tier_table with
  | Some t => t
  | None =>
      match pair_get (lower category, "") tier_table with
      | Some t => t
      | None => TierMed
      end
  end.

(** 35 for category "unclassified", else the base score of the tier. *)
Definition spec_base_score (category subcategory : string) : Z :=
  if String.eqb (lower category) "unclassified" then 35
  else tier_base_score (spec_tier category subcategory).

(** The configured severity weight of the charge type, 1 if unmatched. *)
Definition spec_severity_weight (cfg : Config.t) (charge_type : string) : Z :=
  match find_charge_type (Config.charge_types cfg) charge_type with
  | Some ct => ChargeType.severity_weight ct
  | None => 1
  end.

(** The configured risk impact of the disposition; an unmatched
    disposition counts as "low". *)
Definition spec_risk_impact (cfg : Config.t) (disposition : string) : string :=
  match find_disposition (Config.dispositions cfg) disposition with
  | Some d => DispositionFilter.risk_impact d
  | None => "low"
  end.

(** high:1.5, medium:1.2, low:1.0, none:0.5, and 1.0 for any other value. *)
Definition spec_disposition_multiplier (risk_impact : string) : Q :=
  if String.eqb risk_impact "high" then 3 # 2
  else if String.eqb risk_impact "medium" then 6 # 5
  else if String.eqb risk_impact "low" then 1
  else if String.eqb risk_impact "none" then 1 # 2
  else 1.

(** 1.5 up to one year (365 days) of age, 1.2 up to three, 1.0 up to five,
    0.8 beyond; the age is counted in whole days. *)
Definition spec_recency_multiplier (age_days : Z) : Q :=
  if age_days <=? 365 then 3 # 2
  else if age_days <=? 3 * 365 then 6 # 5
  else if age_days <=? 5 * 365 then 1
  else 4 # 5.

(** The score of the specification; [recency] is [None] when the offense
    date does not parse, and the factor is then left out. *)
Definition spec_risk_score (base_score severity_weight : Z) (disposition_multiplier : Q)
  (recency : option Q) : Q :=
  let product :=
    (inject_Z base_score * (inject_Z severity_weight / 2) * disposition_multiplier)%Q in
  match recency with
  | Some recency_multiplier => round2 (product * recency_multiplier)
  | None => round2 product
  end.

(** The score of a charge by the specification. *)
Definition spec_charge_score (cfg : Config.t) (charge : Charge.t) (disposition : string)
  (recency : option Q) : Q :=
  spec_risk_score
    (spec_base_score (get (Charge.category charge) "unclassified")
                     (get (Charge.subcategory charge) ""))
    (spec_severity_weight cfg (get (Charge.type charge) "unknown"))
    (spec_disposition_multiplier (spec_risk_impact cfg disposition))
    recency.

(** A bucket of the mapping holds an entry. *)
Definition bucket_nonempty (k : string) (b : Buckets) : Prop :=
  exists pc l, dict_get k b = Some (pc :: l).

(** A bucket of the mapping is missing or empty. *)
Definition bucket_empty (k : string) (b : Buckets) : Prop :=
  dict_get k b = None \/ dict_get k b = Some [].

(** The charges a run looks at, each with the case number it is filed
    under: those of the result groups whose record category is enabled. *)
Definition charges_of_case (case : Case.t) : list (Charge.t * string) :=
  map (fun charge => (charge, get (Case.case_number case) "unknown"))
      (get (Case.charges case) []).

Definition charges_of_group (g : ResultGroup.t) : list (Charge.t * string) :=
  flat_map charges_of_case (get (ResultGroup.cases g) []).

Definition enabled_charges_of_group (self : CriminalCheckProcessor) (g : ResultGroup.t)
  : list (Charge.t * string) :=
  if _is_record_category_enabled self (get (ResultGroup.category g) "")
  then charges_of_group g else [].

Definition enabled_charges (self : CriminalCheckProcessor) (data : Document.t)
  : list (Charge.t * string) :=
  flat_map (enabled_charges_of_group self) (get (Document.results data) []).

(** Every charge of the document, enabled category or not. *)
Definition all_charges (data : Document.t) : list (Charge.t * string) :=
  flat_map charges_of_group (get (Document.results data) []).

(** The entries of a mapping under one key ([[]] for a missing key). *)
Definition bucket (k : string) (b : Buckets) : list ProcessedCase := get (dict_get k b) [].

(** The mapping that holds the cases [es], each under its level. *)
Definition has_level (l : RiskLevel) (pc : ProcessedCase) : bool :=
  RiskLevel_eqb (risk_level pc) l.

Definition buckets_of (es : list ProcessedCase) (clean : list ProcessedCase) : Buckets :=
  [("Ignored", filter (has_level IGNORED) es);
   ("Low", filter (has_level LOW) es);
   ("Medium", filter (has_level MEDIUM) es);
   ("High", filter (has_level HIGH) es);
   ("Clean", clean)].


(** The name of a tier in the code's table. *)
Definition tier_name (t : Tier) : string :=
  match t with
  | TierHigh => "High"
  | TierMed => "Med"
  | TierLow => "Low"
  | TierUnscored => "Unscored"
  end.

(** The eligibility filter: lookback, then charge type, then disposition;
    the first check that fails decides. *)
Inductive Verdict : Type :=
| OutsideLookback
| ChargeTypeNotEnabled
| DispositionNotEnabled
| Eligible.

(** Within the lookback window: the date parses and is not before the
    cutoff; a date that does not parse is outside. *)
Definition within_lookback (self : CriminalCheckProcessor) (offense_date : string) : bool :=
  match strptime_Ymd offense_date with
  | Ok dt => cutoff_date self <=? dt
  | Raise _ => false
  end.

Definition verdict (self : CriminalCheckProcessor) (charge : Charge.t)
  (disposition : string) : Verdict :=
  if negb (within_lookback self (get (Charge.offense_date charge) "")) then OutsideLookback
  else if negb (_is_charge_type_enabled self (get (Charge.type charge) "unknown"))
  then ChargeTypeNotEnabled
  else if negb (_is_disposition_enabled self disposition) then DispositionNotEnabled
  else Eligible.

Definition verdict_reason (self : CriminalCheckProcessor) (charge : Charge.t)
  (disposition : string) (v : Verdict) : string :=
  match v with
  | OutsideLookback =>
      "Outside " ++ str_of_int (lookback_years self) ++ "-year lookback period"
  | ChargeTypeNotEnabled =>
      "Charge type '" ++ get (Charge.type charge) "unknown"
        ++ "' not enabled in configuration"
  | DispositionNotEnabled =>
      "Disposition '" ++ disposition ++ "' not enabled in configuration"
  | Eligible => "Processed successfully"
  end%string.

(** The [ProcessedCase] of a charge, its fields read with their defaults. *)
Definition charge_case (charge : Charge.t) (case_number disposition : string)
  (level : RiskLevel) (score : Q) (why : string) : ProcessedCase :=
  {| case_number := case_number;
     charge_description := get (Charge.description charge) "";
     offense_date := get (Charge.offense_date charge) "";
     charge_type := get (Charge.type charge) "unknown";
     disposition := disposition;
     category := get (Charge.category charge) "unclassified";
     subcategory := get (Charge.subcategory charge) "";
     risk_level := level;
     risk_score := score;
     reason := why |}.

(** The offense date of a charge as a [datetime] (0 if it does not parse). *)
Definition offense_datetime (charge : Charge.t) : datetime :=
  match strptime_Ymd (get (Charge.offense_date charge) "") with
  | Ok dt => dt
  | Raise _ => 0
  end.

(** The score of an eligible charge when the clock reads [n]. *)
Definition eligible_score (self : CriminalCheckProcessor) (charge : Charge.t)
  (disposition : string) (n : datetime) : Q :=
  spec_charge_score (config self) charge disposition
    (Some (spec_recency_multiplier (days_between n (offense_datetime charge)))).

(** What a charge gives by the specification: an Ignored entry with the
    reason of the failed check, or the scored and classified entry. *)
Definition spec_process_charge (self : CriminalCheckProcessor) (charge : Charge.t)
  (case_number disposition : string) (n : datetime) : ProcessedCase * bool :=
  match verdict self charge disposition with
  | Eligible =>
      let score := eligible_score self charge disposition n in
      (charge_case charge case_number disposition
         (_determine_risk_level self score (get (Charge.category charge) "unclassified"))
         score "Processed successfully", true)
  | v =>
      (charge_case charge case_number disposition IGNORED 0
         (verdict_reason self charge disposition v), false)
  end.

(** ** Sample data

    The three charges of the sample document at the end of
    [CriminalCheck.py], and a configuration in the shape of [config.json]
    (seven years of lookback; the charge type "unknown" is switched off). *)

Definition sample_config : Config.t :=
  {| Config.selected_period := 7;
     Config.record_categories :=
       [ {| RecordCategory.category := "Criminal/traffic"; RecordCategory.enabled := true |};
         {| RecordCategory.category := "Civil"; RecordCategory.enabled := false |} ];
     Config.charge_types :=
       [ {| ChargeType.input_key := "felony"; ChargeType.enabled := true;
            ChargeType.severity_weight := 5 |};
         {| ChargeType.input_key := "misdemeanor"; ChargeType.enabled := true;
            ChargeType.severity_weight := 3 |};
         {| ChargeType.input_key := "petty_offense"; ChargeType.enabled := true;
            ChargeType.severity_weight := 1 |};
         {| ChargeType.input_key := "unknown"; ChargeType.enabled := false;
            ChargeType.severity_weight := 1 |} ];
     Config.dispositions :=
       [ {| DispositionFilter.input_key := "Conviction"; DispositionFilter.enabled := true;
            DispositionFilter.risk_impact := "high" |};
         {| DispositionFilter.input_key := "Pending"; DispositionFilter.enabled := true;
            DispositionFilter.risk_impact := "medium" |};
         {| DispositionFilter.input_key := "Dismissed"; DispositionFilter.enabled := false;
            DispositionFilter.risk_impact := "none" |} ];
     Config.risk_categories :=
       [ {| RiskCategory.category := "Vehicles & Traffic"; RiskCategory.base_weight := 1 # 2 |};
         {| RiskCategory.category := "Violence"; RiskCategory.base_weight := 3 |} ];
     Config.thresholds :=
       {| Thresholds.critical_risk_min := 80;
          Thresholds.high_risk_min := 60;
          Thresholds.medium_risk_min := 30;
          Thresholds.low_risk_min := 10 |} |}.

(** A clock started on 2023-06-01 at midnight, one second to a reading. *)
Definition sample_clock : Clock :=
  fun n => datetime_of_ymd 2023 6 1 + Z.of_nat n * 1000000.

(** The processor built from [sample_config] at the first reading. *)
Definition sample_processor : CriminalCheckProcessor :=
  {| config := sample_config;
     lookback_years := 7;
     cutoff_date := datetime_of_ymd 2023 6 1 - 7 * 365 * us_per_day |}.

Definition mk_charge (offense_date type category : string) (subcategory : option string)
  (description : option string) (dispositions : option (list Disposition.t)) : Charge.t :=
  {| Charge.offense_date := Some offense_date;
     Charge.type := Some type;
     Charge.category := Some category;
     Charge.subcategory := subcategory;
     Charge.description := description;
     Charge.dispositions := dispositions |}.

Definition disposed (disposition_type : string) : option (list Disposition.t) :=
  Some [ {| Disposition.disposition_type := Some disposition_type |} ].

Definition unclassified_charge : Charge.t :=
  mk_charge "20160623" "unknown" "unclassified" None None (disposed "Unclassified").

Definition speeding_charge : Charge.t :=
  mk_charge "20221201" "petty_offense" "Vehicles & Traffic" (Some "Speeding")
    (Some "SPEED/70 INTERSTTE (REQUIRES SPEED)") (disposed "Conviction").

Definition license_charge : Charge.t :=
  mk_charge "20160623" "misdemeanor" "Vehicles & Traffic" (Some "License & Registration")
    (Some "LICENSE; KNOWINGLY OPER VEH W- DL SUSP, CANCELLED, REVOKED")
    (disposed "Pending").

Definition mk_group (category case_number : string) (charges : list Charge.t)
  : ResultGroup.t :=
  {| ResultGroup.category := Some category;
     ResultGroup.cases :=
       Some [ {| Case.case_number := Some case_number; Case.charges := Some charges |} ] |}.

Definition sample_data : Document.t :=
  {| Document.results :=
       Some [ mk_group "Criminal/traffic" "16-2016-CT-009299-AXXX-MA" [unclassified_charge];
              mk_group "Criminal/traffic" "2022TR030504 A" [speeding_charge];
              mk_group "Criminal/traffic" "16-2016-CT-009298-AXXX-MA" [license_charge] ] |}.

(** The entry the speeding charge gives at the first clock reading. *)
Definition speeding_case : ProcessedCase :=
  charge_case speeding_charge "2022TR030504 A" "Conviction" LOW (281 # 50)
    "Processed successfully".

(** A charge from 1990 whose [dispositions] key is there with an empty list. *)
Definition old_charge_no_dispositions : Charge.t :=
  mk_charge "19900101" "misdemeanor" "Vehicles & Traffic" (Some "Speeding") None (Some []).

Definition data_no_dispositions : Document.t :=
  {| Document.results :=
       Some [ mk_group "Criminal/traffic" "1990-CR-1" [old_charge_no_dispositions] ] |}.

(** A document whose only group is of a record category that is off. *)
Definition data_disabled_category : Document.t :=
  {| Document.results := Some [ mk_group "Civil" "2022-CV-7" [speeding_charge] ] |}.

(** [sample_config] with a negative severity weight for misdemeanors. *)
Definition negative_weight_config : Config.t :=
  {| Config.selected_period := 7;
     Config.record_categories := Config.record_categories sample_config;
     Config.charge_types :=
       [ {| ChargeType.input_key := "misdemeanor"; ChargeType.enabled := true;
            ChargeType.severity_weight := -2 |} ];
     Config.dispositions := Config.dispositions sample_config;
     Config.risk_categories := Config.risk_categories sample_config;
     Config.thresholds := Config.thresholds sample_config |}.

Definition negative_weight_processor : CriminalCheckProcessor :=
  {| config := negative_weight_config;
     lookback_years := 7;
     cutoff_date := cutoff_date sample_processor |}.

Definition license_data : Document.t :=
  {| Document.results :=
       Some [ mk_group "Criminal/traffic" "16-2016-CT-009298-AXXX-MA" [license_charge] ] |}.

(** [sample_config] with other base weights. *)
Definition reweighted_config : Config.t :=
  {| Config.selected_period := Config.selected_period sample_config;
     Config.record_categories := Config.record_categories sample_config;
     Config.charge_types := Config.charge_types sample_config;
     Config.dispositions := Config.dispositions sample_config;
     Config.risk_categories :=
       [ {| RiskCategory.category := "Vehicles & Traffic"; RiskCategory.base_weight := 40 |};
         {| RiskCategory.category := "Violence"; RiskCategory.base_weight := 0 |} ];
     Config.thresholds := Config.thresholds sample_config |}.

(** ** The aggregation loop, seen from outside *)

(** [pc] is the entry [_process_charge] returned for the charge [c], at
    some point of the run under the clock [clk]. *)
Definition emitted_from (self : CriminalCheckProcessor) (clk : Clock)
  (c : Charge.t * string) (pc : ProcessedCase) : Prop :=
  exists t inc t', _process_charge self (fst c) (snd c) clk t = (Ok (pc, inc), t').

(** The loop state after the entries [es]: the buckets and [processed_any]. *)
Definition loop_state (es : list ProcessedCase) : Buckets * bool :=
  (buckets_of es [], existsb (fun pc => negb (has_level IGNORED pc)) es).

(** The state of the loop stands for the charges [cs] seen so far. *)
Definition loop_inv (self : CriminalCheckProcessor) (clk : Clock)
  (cs : list (Charge.t * string)) (st : Buckets * bool) : Prop :=
  exists es, Forall2 (emitted_from self clk) cs es /\ st = loop_state es.

(** The [dispositions] of the charge can be indexed at 0: the key is
    absent, or its list is not empty. *)
Definition readable (charge : Charge.t) : Prop := Charge.dispositions charge <> Some [].

(** ** Vocabulary of the statements *)

(** The document has no [results] key, or an empty list under it. *)
Definition no_results (data : Document.t) : Prop :=
  Document.results data = None \/ Document.results data = Some [].

(** The document has at least one result group. *)
Definition has_results (data : Document.t) : Prop :=
  exists g gs, Document.results data = Some (g :: gs).

(** The entries of a mapping that stand for charges. *)
Definition charge_entries (r : Buckets) : list ProcessedCase :=
  bucket "Ignored" r ++ bucket "Low" r ++ bucket "Medium" r ++ bucket "High" r.

(** Two configurations that differ at most in the base weights of
    [risk_scoring.categories]. *)
Definition same_except_base_weights (c1 c2 : Config.t) : Prop :=
  Config.selected_period c1 = Config.selected_period c2
  /\ Config.record_categories c1 = Config.record_categories c2
  /\ Config.charge_types c1 = Config.charge_types c2
  /\ Config.dispositions c1 = Config.dispositions c2
  /\ Config.thresholds c1 = Config.thresholds c2
  /\ map RiskCategory.category (Config.risk_categories c1)
     = map RiskCategory.category (Config.risk_categories c2).

(** No configured severity weight is negative. *)
Definition weights_nonnegative (cfg : Config.t) : Prop :=
  forall ct, In ct (Config.charge_types cfg) -> 0 <= ChargeType.severity_weight ct.

(** Two processors that agree on all that scoring reads. *)
Definition agree (p1 p2 : CriminalCheckProcessor) : Prop :=
  lookback_years p1 = lookback_years p2
  /\ cutoff_date p1 = cutoff_date p2
  /\ Config.record_categories (config p1) = Config.record_categories (config p2)
  /\ Config.charge_types (config p1) = Config.charge_types (config p2)
  /\ Config.dispositions (config p1) = Config.dispositions (config p2)
  /\ Config.thresholds (config p1) = Config.thresholds (config p2).

(** ** What the sample runs return *)

Definition unclassified_case : ProcessedCase :=
  charge_case unclassified_charge "16-2016-CT-009299-AXXX-MA" "Unclassified" IGNORED 0
    "Charge type 'unknown' not enabled in configuration".

Definition license_case : ProcessedCase :=
  charge_case license_charge "16-2016-CT-009298-AXXX-MA" "Pending" MEDIUM (216 # 5)
    "Processed successfully".

Definition sample_results : Buckets :=
  buckets_of [unclassified_case; speeding_case; license_case] [].

(** The license charge under [negative_weight_config]:
    30 * (-2 / 2) * 1.2 * 0.8 = -28.8. *)
Definition negative_case : ProcessedCase :=
  charge_case license_charge "16-2016-CT-009298-AXXX-MA" "Pending" LOW (-144 # 5)
    "Processed successfully".

(** A document without a [results] key. *)
Definition empty_data : Document.t := {| Document.results := None |}.

(** ** [CriminalCheckProcessor.get_summary] *)

(** [d[k] = v] on a dictionary: the value of an existing key is replaced
    where it stands, a new key goes to the end. *)
Definition dict_setitem {V} (k : string) (v : V) (d : list (string * V))
  : list (string * V) :=
  match dict_get k d with
  | Some _ => dict_set k v d
  | None => d ++ [(k, v)]
  end.

(** [len(l)] *)
Definition len {A} (l : list A) : Z := Z.of_nat (List.length l).

(** [max(a, b)]: the first argument unless the second is greater. *)
Definition max2 (a b : Q) : Q := if Qlt_bool a b then b else a.

(** [max(it)] over an iterable that starts with [x]. *)
Definition max_of (x : Q) (rest : list Q) : Q := fold_left max2 rest x.

(** The dictionary [get_summary] returns. *)
Record Summary : Type := {
  total_cases : Z;
  risk_distribution : list (string * Z);
  highest_risk_score : Q;
  recommendations : list string
}.

(** [sum(len(cases) for cases in processed_results.values())] *)
Definition sum_len (processed_results : Buckets) : Z :=
  fold_left (fun acc kv => acc + len (snd kv)) processed_results 0.

(** The body of the loop over [processed_results.items()]; the state is
    [risk_distribution] and [highest_risk_score]. *)
Definition summary_step (st : list (string * Z) * Q) (kv : string * list ProcessedCase)
  : list (string * Z) * Q :=
  let '(distribution, highest) := st in
  let '(risk_level, cases) := kv in
  let distribution := dict_setitem risk_level (len cases) distribution in
  match cases with
  | [] => (distribution, highest)
  | case :: rest =>
      let max_score := max_of (risk_score case) (map risk_score rest) in
      (distribution, max2 highest max_score)
  end.

Definition get_summary (processed_results : Buckets) : result Summary :=
  let total := sum_len processed_results in
  let '(distribution, highest) := fold_left summary_step processed_results ([], 0%Q) in
  let recommendations : list string := [] in
  match getitem "High" processed_results with
  | Raise e => Raise e
  | Ok high =>
      let recommendations :=
        if truthy high
        then recommendations ++ ["High-risk cases require immediate review"]
        else recommendations in
      match getitem "Medium" processed_results with
      | Raise e => Raise e
      | Ok medium =>
          let recommendations :=
            if truthy medium
            then recommendations ++ ["Medium-risk cases should be evaluated"]
            else recommendations in
          match getitem "Clean" processed_results with
          | Raise e => Raise e
          | Ok clean =>
              let recommendations :=
                if truthy clean
                then recommendations ++ ["No concerning criminal history found"]
                else recommendations in
              match getitem "Ignored" processed_results with
              | Raise e => Raise e
              | Ok ignored =>
                  let recommendations :=
                    if truthy ignored
                    then recommendations
                           ++ [(str_of_int (len ignored)
                                  ++ " cases ignored due to filters")%string]
                    else recommendations in
                  Ok {| total_cases := total;
                        risk_distribution := distribution;
                        highest_risk_score := highest;
                        recommendations := recommendations |}
              end
          end
      end
  end.

(** ** [CriminalBackgroundRuleEngine._generate_recommendation] *)

(** [len(d.get(k, []))] *)
Definition count_of (k : string) (d : Buckets) : Z := len (get (dict_get k d) []).

Definition _generate_recommendation (overall_risk : RiskLevel) (processed_cases : Buckets)
  : string :=
  let high_count := count_of "High" processed_cases in
  let medium_count := count_of "Medium" processed_cases in
  let low_count := count_of "Low" processed_cases in
  let ignored_count := count_of "Ignored" processed_cases in
  (if RiskLevel_eqb overall_risk HIGH then
     "REJECT - High risk profile identified. " ++ str_of_int high_count
       ++ " high-risk case(s) require immediate review and likely disqualification."
   else if RiskLevel_eqb overall_risk MEDIUM then
     "REVIEW REQUIRED - Medium risk profile. " ++ str_of_int medium_count
       ++ " case(s) need manual review before making a decision."
   else if RiskLevel_eqb overall_risk LOW then
     "CONDITIONAL APPROVAL - Low risk profile. " ++ str_of_int low_count
       ++ " minor case(s) identified but may be acceptable depending on role requirements."
   else if RiskLevel_eqb overall_risk CLEAN then
     if (0 <? ignored_count)%Z then
       "APPROVE - Clean background check. " ++ str_of_int ignored_count
         ++ " case(s) were outside assessment criteria."
     else "APPROVE - Clean background check with no concerning records found."
   else "MANUAL REVIEW - Unable to determine risk level automatically.")%string.

(** The four decisions a recommendation can open with, and the fallback. *)
Inductive Decision : Type :=
| Reject
| ReviewRequired
| ConditionalApproval
| Approve
| ManualReview.

Definition decision_word (d : Decision) : string :=
  match d with
  | Reject => "REJECT - "
  | ReviewRequired => "REVIEW REQUIRED - "
  | ConditionalApproval => "CONDITIONAL APPROVAL - "
  | Approve => "APPROVE - "
  | ManualReview => "MANUAL REVIEW - "
  end.

(** The recommendation opens with the words of the decision. *)
Definition opens_with (d : Decision) (recommendation : string) : Prop :=
  String.prefix (decision_word d) recommendation = true.

(** The decision a recommendation opens with is that of its level. *)
Definition decision_of (level : RiskLevel) : Decision :=
  match level with
  | HIGH => Reject
  | MEDIUM => ReviewRequired
  | LOW => ConditionalApproval
  | CLEAN => Approve
  | IGNORED => ManualReview
  end.

(** A petty offense of category "UNCLASSIFIED" from March 2022, and the
    entry it gives at the first clock reading: 35 * (1/2) * 1.2 * 1.2 = 25.2,
    under the Medium threshold of the sample and yet High. *)
Definition unclassified_petty_charge : Charge.t :=
  mk_charge "20220301" "petty_offense" "UNCLASSIFIED" None None (disposed "Pending").

Definition unclassified_petty_case : ProcessedCase :=
  charge_case unclassified_petty_charge "2022-CR-9" "Pending" HIGH (126 # 5)
    "Processed successfully".

(** ** [CheckrAPIClient._format_date]

    A date read by [strptime] is a [datetime] object with its year, month
    and day; [strftime] writes these back.  What [%Y] gives for a year
    under 1000 depends on the C library and the Python version (padded
    with zeros or not), so that rendering is a parameter of the model. *)

(** [str.isdigit] on ASCII text: at least one character, digits only. *)
Fixpoint all_digits (s : string) : bool :=
  match s with
  | EmptyString => true
  | String a r =>
      match digit a with
      | Some _ => all_digits r
      | None => false
      end
  end.

Definition isdigit (s : string) : bool :=
  match s with
  | EmptyString => false
  | String _ _ => all_digits s
  end.

(** Truth value of a string. *)
Definition str_truthy (s : string) : bool :=
  match s with
  | EmptyString => false
  | String _ _ => true
  end.

(** A literal [-] of the format. *)
Definition re_dash (s : string) : list string :=
  match s with
  | String "-" r => [r]
  | _ => []
  end.

(** The first match of
    [(\d\d\d\d)-(1[0-2]|0[1-9]|[1-9])-(3[0-1]|[1-2]\d|0[1-9]|[1-9]| [1-9])]:
    year, month, day, text left. *)
Definition re_match_Y_m_d (s : string) : option (Z * Z * Z * string) :=
  match re_year s with
  | Some (y, s1) =>
      hd_error
        (flat_map
           (fun s2 =>
              flat_map
                (fun '(m, s3) =>
                   flat_map
                     (fun s4 => map (fun '(d, s5) => (y, m, d, s5)) (re_day s4))
                     (re_dash s3))
                (re_month s2))
           (re_dash s1))
  | None => None
  end.

(** [datetime.strptime(s, "%Y-%m-%d")], the date as (year, month, day). *)
Definition strptime_Y_m_d (s : string) : result (Z * Z * Z) :=
  match re_match_Y_m_d s with
  | Some (y, m, d, EmptyString) =>
      if (1 <=? y) && (d <=? days_in_month y m)
      then Ok (y, m, d)
      else Raise ValueError
  | Some (_, _, _, String _ _) => Raise ValueError
  | None => Raise ValueError
  end.

Definition digit_char (d : Z) : ascii := ascii_of_nat (48 + Z.to_nat d).

(** [%m] and [%d]: two digits. *)
Definition two_digit_str (n : Z) : string :=
  String (digit_char (n / 10)) (String (digit_char (n mod 10)) EmptyString).

(** [%Y] of a year of four digits. *)
Definition four_digit_str (n : Z) : string :=
  String (digit_char (n / 1000))
    (String (digit_char (n / 100 mod 10))
       (String (digit_char (n / 10 mod 10))
          (String (digit_char (n mod 10)) EmptyString))).

Section FormatDate.

(** [%Y] of a year under 1000, as the platform writes it. *)
Variable strftime_small_year : Z -> string.

Definition strftime_Y (y : Z) : string :=
  if 1000 <=? y then four_digit_str y else strftime_small_year y.

(** [date_obj.strftime("%Y%m%d")] *)
Definition strftime_Ymd (date_obj : Z * Z * Z) : string :=
  let '(y, m, d) := date_obj in
  (strftime_Y y ++ two_digit_str m ++ two_digit_str d)%string.

Definition _format_date (date_str : string) : result string :=
  if negb (str_truthy date_str) then Ok ""
  else if (Nat.eqb (String.length date_str) 8) && isdigit date_str then Ok date_str
  else
    match strptime_Y_m_d date_str with
    | Ok date_obj => Ok (strftime_Ymd date_obj)
    | Raise ValueError => Raise ValueError
    | Raise e => Raise e
    end.

End FormatDate.

(** A date written [YYYY-MM-DD] and [YYYYMMDD]. *)
Definition iso_date (y m d : Z) : string :=
  (four_digit_str y ++ "-" ++ two_digit_str m ++ "-" ++ two_digit_str d)%string.

Definition compact_date (y m d : Z) : string :=
  (four_digit_str y ++ two_digit_str m ++ two_digit_str d)%string.

(** A calendar date of the years 1 to 9999. *)
Definition valid_date (y m d : Z) : Prop :=
  1 <= y <= 9999 /\ 1 <= m <= 12 /\ 1 <= d <= days_in_month y m.

(** ** [class CheckrConfig]: the age of the access token *)

(** [timedelta(seconds=n)]: the days of a [timedelta] stay within
    999999999 on either side, or [OverflowError]. *)
Definition timedelta_seconds (n : Z) : result timedelta :=
  if (-999999999 <=? n / 86400) && (n / 86400 <=? 999999999) then Ok (n * 1000000)
  else Raise OverflowError.

(** [dt + delta] on a [datetime]: [OverflowError] outside years 1..9999. *)
Definition datetime_add (dt : datetime) (delta : timedelta) : result datetime :=
  let r := dt + delta in
  if (0 <=? r) && (r <=? datetime_max) then Ok r else Raise OverflowError.

Module CheckrConfig.

Record t : Type := {
  access_token : string;
  expires_in : Z;
  token_type : string;
  base_url : string;
  token_endpoint : string;
  client_id : option string;
  client_secret : option string;
  token_issued_at : option datetime
}.

(** A token without a time of issue is issued now. *)
Definition __post_init__ (self : t) : M t :=
  match token_issued_at self with
  | None =>
      n <- now ;;
      ret {| access_token := access_token self;
             expires_in := expires_in self;
             token_type := token_type self;
             base_url := base_url self;
             token_endpoint := token_endpoint self;
             client_id := client_id self;
             client_secret := client_secret self;
             token_issued_at := Some n |}
  | Some _ => ret self
  end.

(** Expired, with five minutes in hand. *)
Definition is_token_expired (self : t) : M bool :=
  match token_issued_at self with
  | None => ret true
  | Some issued =>
      delta <- lift (timedelta_seconds (expires_in self - 300)) ;;
      expiry_time <- lift (datetime_add issued delta) ;;
      n <- now ;;
      ret (expiry_time <? n)
  end.

Definition get_token_url (self : t) : string :=
  (base_url self ++ token_endpoint self)%string.

End CheckrConfig.

(** A token of one hour, not yet issued. *)
Definition sample_token : CheckrConfig.t :=
  {| CheckrConfig.access_token := "token";
     CheckrConfig.expires_in := 3600;
     CheckrConfig.token_type := "Bearer";
     CheckrConfig.base_url := "https://api.checkrtrust.com";
     CheckrConfig.token_endpoint := "/v1/accounts/token";
     CheckrConfig.client_id := None;
     CheckrConfig.client_secret := None;
     CheckrConfig.token_issued_at := None |}.

(** A clock that ticks once a minute from 2023-06-01 at midnight. *)
Definition minute_clock : Clock :=
  fun n => datetime_of_ymd 2023 6 1 + Z.of_nat n * 60000000.
(** * Properties *)

(** ** Comparisons on rationals *)

Lemma Qlt_bool_iff (x y : Q) : Qlt_bool x y = true <-> (x < y)%Q.
Proof.
  unfold Qlt_bool. rewrite negb_true_iff. split.
  - intros H. apply Qnot_le_lt. intros Hle.
    apply Qle_bool_iff in Hle. congruence.
  - intros H. destruct (Qle_bool y x) eqn:E; [|reflexivity].
    apply Qle_bool_iff in E. exfalso. exact (Qlt_not_le _ _ H E).
Qed.

Lemma Qle_bool_false_iff (x y : Q) : Qle_bool x y = false <-> (y < x)%Q.
Proof.
  rewrite <- Qlt_bool_iff. unfold Qlt_bool. now rewrite negb_true_iff.
Qed.

(** ** The risk classifier *)

(** With thresholds in ascending order, a score under [low_risk.min] is
    under all of them: it is Low unless the "unclassified" rule applies. *)
Lemma determine_risk_level_floor (self : CriminalCheckProcessor) (score : Q)
  (category : string) :
  (Thresholds.low_risk_min (Config.thresholds (config self))
   <= Thresholds.medium_risk_min (Config.thresholds (config self)))%Q ->
  (Thresholds.medium_risk_min (Config.thresholds (config self))
   <= Thresholds.high_risk_min (Config.thresholds (config self)))%Q ->
  (Thresholds.high_risk_min (Config.thresholds (config self))
   <= Thresholds.critical_risk_min (Config.thresholds (config self)))%Q ->
  lower category <> "unclassified" ->
  (score < Thresholds.low_risk_min (Config.thresholds (config self)))%Q ->
  _determine_risk_level self score category = LOW.
Proof.
  intros H1 H2 H3 Hc Hs.
  assert (Hm : (score < Thresholds.medium_risk_min (Config.thresholds (config self)))%Q)
    by (eapply Qlt_le_trans; eauto).
  assert (Hh : (score < Thresholds.high_risk_min (Config.thresholds (config self)))%Q)
    by (eapply Qlt_le_trans; eauto).
  assert (Hk : (score < Thresholds.critical_risk_min (Config.thresholds (config self)))%Q)
    by (eapply Qlt_le_trans; eauto).
  apply Qle_bool_false_iff in Hs, Hm, Hh, Hk.
  unfold _determine_risk_level. rewrite Hs, Hm, Hh, Hk.
  destruct (String.eqb (lower category) "unclassified") eqn:E; [|reflexivity].
  apply String.eqb_eq in E. contradiction.
Qed.

(** C4. [_determine_risk_level] gives High to a positive score whose
    category is "unclassified" in any letter case, whatever the thresholds;
    in every other case it tries the thresholds from the highest down
    (critical and high give High, medium gives Medium, low gives Low) and
    a score that reaches none of critical, high and medium is Low, at or
    under [low_risk.min] alike; with thresholds in ascending order that is
    every score under [low_risk.min]. *)
Theorem c4_determine_risk_level (self : CriminalCheckProcessor) (score : Q)
  (category : string) :
  (lower category = "unclassified" /\ (0 < score)%Q ->
   _determine_risk_level self score category = HIGH)
  /\
  (~ (lower category = "unclassified" /\ (0 < score)%Q) ->
   ((Thresholds.critical_risk_min (Config.thresholds (config self)) <= score)%Q ->
    _determine_risk_level self score category = HIGH)
   /\
   ((score < Thresholds.critical_risk_min (Config.thresholds (config self)))%Q ->
    (Thresholds.high_risk_min (Config.thresholds (config self)) <= score)%Q ->
    _determine_risk_level self score category = HIGH)
   /\
   ((score < Thresholds.critical_risk_min (Config.thresholds (config self)))%Q ->
    (score < Thresholds.high_risk_min (Config.thresholds (config self)))%Q ->
    (Thresholds.medium_risk_min (Config.thresholds (config self)) <= score)%Q ->
    _determine_risk_level self score category = MEDIUM)
   /\
   ((score < Thresholds.critical_risk_min (Config.thresholds (config self)))%Q ->
    (score < Thresholds.high_risk_min (Config.thresholds (config self)))%Q ->
    (score < Thresholds.medium_risk_min (Config.thresholds (config self)))%Q ->
    _determine_risk_level self score category = LOW))
  /\
  ((Thresholds.low_risk_min (Config.thresholds (config self))
    <= Thresholds.medium_risk_min (Config.thresholds (config self)))%Q ->
   (Thresholds.medium_risk_min (Config.thresholds (config self))
    <= Thresholds.high_risk_min (Config.thresholds (config self)))%Q ->
   (Thresholds.high_risk_min (Config.thresholds (config self))
    <= Thresholds.critical_risk_min (Config.thresholds (config self)))%Q ->
   lower category <> "unclassified" ->
   (score < Thresholds.low_risk_min (Config.thresholds (config self)))%Q ->
   _determine_risk_level self score category = LOW).
Proof.
  split; [|split]; [| |apply determine_risk_level_floor];
    unfold _determine_risk_level.
  - intros [Hc Hs]. rewrite Hc. apply Qlt_bool_iff in Hs. now rewrite Hs.
  - intros Hn.
    assert (Hg : String.eqb (lower category) "unclassified" && Qlt_bool 0 score = false).
    { destruct (String.eqb (lower category) "unclassified") eqn:Ec; [|reflexivity].
      destruct (Qlt_bool 0 score) eqn:Es; [|reflexivity].
      exfalso. apply Hn. split.
      - now apply String.eqb_eq.
      - now apply Qlt_bool_iff. }
    rewrite Hg. repeat split.
    + intros H1. apply Qle_bool_iff in H1. now rewrite H1.
    + intros H1 H2. apply Qle_bool_false_iff in H1. apply Qle_bool_iff in H2.
      now rewrite H1, H2.
    + intros H1 H2 H3. apply Qle_bool_false_iff in H1, H2. apply Qle_bool_iff in H3.
      now rewrite H1, H2, H3.
    + intros H1 H2 H3. apply Qle_bool_false_iff in H1, H2, H3.
      rewrite H1, H2, H3.
      now destruct (Qle_bool (Thresholds.low_risk_min (Config.thresholds (config self))) score).
Qed.

Lemma c4_determine_risk_level_witness :
  _determine_risk_level sample_processor (1 # 100) "Unclassified" = HIGH
  /\ _determine_risk_level sample_processor 45 "Violence" = MEDIUM
  /\ _determine_risk_level sample_processor 2 "Violence" = LOW.
Proof.
  split; [|split].
  - apply (proj1 (c4_determine_risk_level sample_processor (1 # 100) "Unclassified")).
    split; reflexivity.
  - destruct (proj1 (proj2 (c4_determine_risk_level sample_processor 45 "Violence")))
      as (_ & _ & H & _).
    + intros [H _]. discriminate.
    + apply H; reflexivity || discriminate.
  - apply (proj2 (proj2 (c4_determine_risk_level sample_processor 2 "Violence")));
      reflexivity || discriminate.
Defined.

(** ** The overall level *)

Lemma get_truthy_nonempty (k : string) (b : Buckets) :
  get_truthy k b = true <-> bucket_nonempty k b.
Proof.
  unfold get_truthy, bucket_nonempty. split.
  - destruct (dict_get k b) as [[|pc l]|]; try discriminate. eauto.
  - intros (pc & l & H). now rewrite H.
Qed.

Lemma get_truthy_empty (k : string) (b : Buckets) :
  get_truthy k b = false <-> bucket_empty k b.
Proof.
  unfold get_truthy, bucket_empty. split.
  - destruct (dict_get k b) as [[|pc l]|]; try discriminate; auto.
  - intros [H|H]; now rewrite H.
Qed.

(** C5. [_calculate_overall_risk] is High when the High bucket holds an
    entry, else Medium when the Medium bucket does, else Low when the Low
    bucket does, else Clean, whatever the Ignored and Clean buckets hold;
    an empty High bucket with one Medium and one Low entry gives Medium. *)
Theorem c5_calculate_overall_risk (b : Buckets) :
  (bucket_nonempty "High" b -> _calculate_overall_risk b = HIGH)
  /\
  (bucket_empty "High" b -> bucket_nonempty "Medium" b ->
   _calculate_overall_risk b = MEDIUM)
  /\
  (bucket_empty "High" b -> bucket_empty "Medium" b -> bucket_nonempty "Low" b ->
   _calculate_overall_risk b = LOW)
  /\
  (bucket_empty "High" b -> bucket_empty "Medium" b -> bucket_empty "Low" b ->
   _calculate_overall_risk b = CLEAN)
  /\
  (forall pc1 pc2 : ProcessedCase,
     _calculate_overall_risk
       [("High", []); ("Medium", [pc1]); ("Low", [pc2]); ("Ignored", []); ("Clean", [])]
     = MEDIUM).
Proof.
  unfold _calculate_overall_risk. repeat split.
  - intros H. apply get_truthy_nonempty in H. now rewrite H.
  - intros H1 H2. apply get_truthy_empty in H1. apply get_truthy_nonempty in H2.
    now rewrite H1, H2.
  - intros H1 H2 H3. apply get_truthy_empty in H1, H2. apply get_truthy_nonempty in H3.
    now rewrite H1, H2, H3.
  - intros H1 H2 H3. apply get_truthy_empty in H1, H2, H3.
    rewrite H1, H2, H3.
    now destruct (get_truthy "Ignored" b && _), (get_truthy "Clean" b).
Qed.

Lemma c5_calculate_overall_risk_witness :
  _calculate_overall_risk sample_results = MEDIUM
  /\ _calculate_overall_risk (buckets_of [unclassified_case] []) = CLEAN.
Proof.
  split.
  - destruct (c5_calculate_overall_risk sample_results) as (_ & H & _).
    apply H.
    + right. reflexivity.
    + exists license_case, []. reflexivity.
  - destruct (c5_calculate_overall_risk (buckets_of [unclassified_case] []))
      as (_ & _ & _ & H & _).
    apply H; right; reflexivity.
Defined.

(** ** Dates *)

Lemma strptime_raises_ValueError (s : string) (e : exn) :
  strptime_Ymd s = Raise e -> e = ValueError.
Proof.
  unfold strptime_Ymd.
  destruct (re_match_Ymd s) as [[[[y m] d] [|a r]]|]; try congruence.
  destruct ((1 <=? y) && (d <=? days_in_month y m)); congruence.
Qed.

(** [strptime] on a few texts: eight digits; a one-digit day after a
    two-digit month; separators; a day the month does not have; year 0;
    text left over; the empty string. *)
Example strptime_examples :
  strptime_Ymd "20221201" = Ok (datetime_of_ymd 2022 12 1)
  /\ strptime_Ymd "2022121" = Ok (datetime_of_ymd 2022 12 1)
  /\ strptime_Ymd "2022-12-01" = Raise ValueError
  /\ strptime_Ymd "20230229" = Raise ValueError
  /\ strptime_Ymd "20240229" = Ok (datetime_of_ymd 2024 2 29)
  /\ strptime_Ymd "00000101" = Raise ValueError
  /\ strptime_Ymd "202212011" = Raise ValueError
  /\ strptime_Ymd "" = Raise ValueError.
Proof. repeat split. Qed.

(** [date(2022, 12, 1).toordinal()] is 738490 and [date.max.toordinal()]
    is 3652059. *)
Example ymd2ord_examples :
  ymd2ord 1 1 1 = 1 /\ ymd2ord 2022 12 1 = 738490 /\ ymd2ord 9999 12 31 = 3652059.
Proof. repeat split. Qed.

Lemma parse_date_eq (s : string) : _parse_date s = strptime_Ymd s.
Proof.
  unfold _parse_date. destruct (strptime_Ymd s) as [dt|e] eqn:E; [reflexivity|].
  now destruct e.
Qed.

Lemma is_within_lookback_eq (self : CriminalCheckProcessor) (s : string) :
  _is_within_lookback self s = Ok (within_lookback self s).
Proof.
  unfold _is_within_lookback, within_lookback. rewrite parse_date_eq.
  destruct (strptime_Ymd s) as [dt|e] eqn:E; [reflexivity|].
  apply strptime_raises_ValueError in E. now subst e.
Qed.

(** ** The risk scorer *)

Lemma pair_get_map {V W} (f : V -> W) (k : string * string)
  (d : list ((string * string) * V)) :
  pair_get k (map (fun '(k', v) => (k', f v)) d) = option_map f (pair_get k d).
Proof.
  induction d as [|[[c s] v] d IH]; [reflexivity|]. simpl.
  destruct (String.eqb c (fst k) && String.eqb s (snd k)); [reflexivity|exact IH].
Qed.

Lemma risk_mapping_tier_table :
  risk_mapping = map (fun '(k, t) => (k, tier_name t)) tier_table.
Proof. reflexivity. Qed.

(** A category of the code's high-risk list has an entry of its own in the
    table, so the list never decides. *)
Lemma high_risk_categories_in_table (c : string) :
  str_in c high_risk_categories = true ->
  pair_get (c, "") tier_table = Some TierHigh.
Proof.
  unfold str_in, high_risk_categories. intros H.
  apply existsb_exists in H. destruct H as (x & Hin & Heq).
  apply String.eqb_eq in Heq. subst x.
  simpl in Hin. intuition (subst; reflexivity).
Qed.

Lemma get_csv_risk_score_tier (category subcategory : string) :
  _get_csv_risk_score category subcategory = tier_name (spec_tier category subcategory).
Proof.
  unfold _get_csv_risk_score, spec_tier.
  rewrite risk_mapping_tier_table, !pair_get_map.
  destruct (pair_get (lower category, lower subcategory) tier_table) as [t|]; [reflexivity|].
  destruct (pair_get (lower category, "") tier_table) as [t|] eqn:E; [reflexivity|].
  cbn [option_map]. destruct (str_in (lower category) high_risk_categories) eqn:Hh; [|reflexivity].
  apply high_risk_categories_in_table in Hh. congruence.
Qed.

Lemma base_score_of_tier (t : Tier) :
  get (dict_get (tier_name t) risk_base_scores) 15 = tier_base_score t.
Proof. now destruct t. Qed.

Lemma base_score_spec (charge : Charge.t) :
  (if String.eqb (lower (get (Charge.category charge) "Unclassified")) "unclassified"
   then 35
   else get (dict_get (_get_csv_risk_score (get (Charge.category charge) "Unclassified")
                                           (get (Charge.subcategory charge) ""))
                      risk_base_scores) 15)
  = spec_base_score (get (Charge.category charge) "unclassified")
                    (get (Charge.subcategory charge) "").
Proof.
  unfold spec_base_score. destruct (Charge.category charge) as [c|]; [|reflexivity].
  cbn [get]. now rewrite get_csv_risk_score_tier, base_score_of_tier.
Qed.

Lemma disposition_multiplier_spec (impact : string) :
  get (dict_get impact impact_multipliers) 1%Q = spec_disposition_multiplier impact.
Proof.
  unfold spec_disposition_multiplier, impact_multipliers. cbn [dict_get].
  rewrite (String.eqb_sym "high"), (String.eqb_sym "medium"),
    (String.eqb_sym "low"), (String.eqb_sym "none").
  destruct (String.eqb impact "high"); [reflexivity|].
  destruct (String.eqb impact "medium"); [reflexivity|].
  destruct (String.eqb impact "low"); [reflexivity|].
  now destruct (String.eqb impact "none").
Qed.

Lemma years_le_bool (d k : Z) :
  Qle_bool (inject_Z d / 365) (k # 1) = (d <=? k * 365).
Proof.
  unfold Qle_bool, Qdiv, Qmult, Qinv, inject_Z. cbn.
  apply eq_true_iff_eq. rewrite !Z.leb_le. lia.
Qed.

Lemma recency_factor_spec (d : Z) :
  recency_factor (inject_Z d / 365) = spec_recency_multiplier d.
Proof.
  unfold recency_factor, spec_recency_multiplier.
  rewrite (years_le_bool d 1), (years_le_bool d 3), (years_le_bool d 5).
  reflexivity.
Qed.

(** The score of any charge whose disposition can be read, at any text
    given as the offense date. *)
Lemma calculate_risk_score_spec (self : CriminalCheckProcessor) (charge : Charge.t)
  (od disp : string) (clk : Clock) (t : nat) :
  first_disposition_type charge = Ok disp ->
  _calculate_risk_score self charge od clk t =
  match strptime_Ymd od with
  | Ok dt =>
      (Ok (spec_charge_score (config self) charge disp
             (Some (spec_recency_multiplier (days_between (clk t) dt)))), S t)
  | Raise _ => (Ok (spec_charge_score (config self) charge disp None), t)
  end.
Proof.
  intros Hd.
  unfold _calculate_risk_score, bind, lift, ret, try_except_ValueError, now.
  rewrite Hd, base_score_spec, disposition_multiplier_spec, parse_date_eq.
  unfold spec_charge_score, spec_risk_score, spec_severity_weight, spec_risk_impact,
    _get_charge_type_weight, _get_disposition_risk_impact.
  destruct (strptime_Ymd od) as [dt|e] eqn:E.
  - now rewrite recency_factor_spec.
  - apply strptime_raises_ValueError in E. now subst e.
Qed.

(** ** One charge *)

Lemma process_charge_eq (self : CriminalCheckProcessor) (charge : Charge.t)
  (cn : string) (clk : Clock) (t : nat) :
  _process_charge self charge cn clk t =
  match first_disposition_type charge with
  | Raise e => (Raise e, t)
  | Ok disp =>
      (Ok (spec_process_charge self charge cn disp (clk t)),
       match verdict self charge disp with Eligible => S t | _ => t end)
  end.
Proof.
  unfold _process_charge, bind, lift, ret.
  destruct (first_disposition_type charge) as [disp|e] eqn:Hd; [|reflexivity].
  rewrite is_within_lookback_eq.
  unfold spec_process_charge, verdict.
  destruct (within_lookback self (get (Charge.offense_date charge) "")) eqn:Hw;
    [|reflexivity]. cbn [negb].
  destruct (_is_charge_type_enabled self (get (Charge.type charge) "unknown"));
    [|reflexivity]. cbn [negb].
  destruct (_is_disposition_enabled self disp); [|reflexivity]. cbn [negb].
  rewrite (calculate_risk_score_spec _ _ _ disp _ _ Hd).
  unfold eligible_score, offense_datetime. unfold within_lookback in Hw.
  destruct (strptime_Ymd (get (Charge.offense_date charge) "")) as [dt|e];
    [reflexivity|discriminate].
Qed.

Lemma sample_processor_init :
  __init__ sample_config sample_clock 0%nat = (Ok sample_processor, 1%nat).
Proof. reflexivity. Qed.

(** C1. For a charge that passes the eligibility filter, the score of
    [_calculate_risk_score], which is the score of the emitted entry, is
    [round(base * (weight / 2) * dispositionMultiplier * recencyMultiplier, 2)]
    with the base score, weight and multipliers of the specification; given
    a date that does not parse, the same function leaves the recency
    multiplier out and does not fail. *)
Theorem c1_risk_score_formula (self : CriminalCheckProcessor) (charge : Charge.t)
  (cn : string) (clk : Clock) (t : nat) (pc : ProcessedCase) (t' : nat) :
  _process_charge self charge cn clk t = (Ok (pc, true), t') ->
  exists disp dt,
    first_disposition_type charge = Ok disp
    /\ strptime_Ymd (get (Charge.offense_date charge) "") = Ok dt
    /\ risk_score pc =
       spec_risk_score
         (spec_base_score (get (Charge.category charge) "unclassified")
                          (get (Charge.subcategory charge) ""))
         (spec_severity_weight (config self) (get (Charge.type charge) "unknown"))
         (spec_disposition_multiplier (spec_risk_impact (config self) disp))
         (Some (spec_recency_multiplier (days_between (clk t) dt)))
    /\ _calculate_risk_score self charge (get (Charge.offense_date charge) "") clk t
       = (Ok (risk_score pc), t')
    /\ (forall bad : string,
          strptime_Ymd bad = Raise ValueError ->
          _calculate_risk_score self charge bad clk t
          = (Ok (spec_risk_score
                   (spec_base_score (get (Charge.category charge) "unclassified")
                                    (get (Charge.subcategory charge) ""))
                   (spec_severity_weight (config self) (get (Charge.type charge) "unknown"))
                   (spec_disposition_multiplier (spec_risk_impact (config self) disp))
                   None), t)).
Proof.
  intros H. rewrite process_charge_eq in H.
  destruct (first_disposition_type charge) as [disp|e] eqn:Hd; [|discriminate].
  unfold spec_process_charge in H.
  destruct (verdict self charge disp) eqn:Hv; try discriminate.
  injection H as Hpc Ht. subst pc t'. cbn [charge_case risk_score].
  unfold verdict in Hv.
  destruct (within_lookback self (get (Charge.offense_date charge) "")) eqn:Hw;
    [|discriminate].
  unfold within_lookback in Hw. unfold eligible_score, offense_datetime.
  destruct (strptime_Ymd (get (Charge.offense_date charge) "")) as [dt|e] eqn:Hp;
    [|discriminate].
  exists disp, dt. repeat split.
  - rewrite (calculate_risk_score_spec _ _ _ disp _ _ Hd), Hp. reflexivity.
  - intros bad Hbad.
    rewrite (calculate_risk_score_spec _ _ _ disp _ _ Hd), Hbad. reflexivity.
Qed.

Lemma c1_risk_score_formula_witness :
  exists disp dt,
    first_disposition_type speeding_charge = Ok disp
    /\ strptime_Ymd (get (Charge.offense_date speeding_charge) "") = Ok dt
    /\ risk_score speeding_case =
       spec_risk_score
         (spec_base_score (get (Charge.category speeding_charge) "unclassified")
                          (get (Charge.subcategory speeding_charge) ""))
         (spec_severity_weight (config sample_processor)
            (get (Charge.type speeding_charge) "unknown"))
         (spec_disposition_multiplier (spec_risk_impact (config sample_processor) disp))
         (Some (spec_recency_multiplier (days_between (sample_clock 0%nat) dt)))
    /\ _calculate_risk_score sample_processor speeding_charge
         (get (Charge.offense_date speeding_charge) "") sample_clock 0%nat
       = (Ok (risk_score speeding_case), 1%nat)
    /\ (forall bad : string,
          strptime_Ymd bad = Raise ValueError ->
          _calculate_risk_score sample_processor speeding_charge bad sample_clock 0%nat
          = (Ok (spec_risk_score
                   (spec_base_score (get (Charge.category speeding_charge) "unclassified")
                                    (get (Charge.subcategory speeding_charge) ""))
                   (spec_severity_weight (config sample_processor)
                      (get (Charge.type speeding_charge) "unknown"))
                   (spec_disposition_multiplier
                      (spec_risk_impact (config sample_processor) disp))
                   None), 0%nat)).
Proof.
  apply (c1_risk_score_formula sample_processor speeding_charge "2022TR030504 A"
           sample_clock 0%nat speeding_case 1%nat).
  vm_compute. reflexivity.
Defined.

(** The speeding charge of the sample: 5 * (1/2) * 1.5 * 1.5 = 5.625,
    rounded to 5.62. *)
Example speeding_score :
  _calculate_risk_score sample_processor speeding_charge "20221201" sample_clock 0%nat
  = (Ok (281 # 50)%Q, 1%nat).
Proof. reflexivity. Qed.

Lemma determine_risk_level_range (self : CriminalCheckProcessor) (s : Q) (c : string) :
  _determine_risk_level self s c = HIGH
  \/ _determine_risk_level self s c = MEDIUM
  \/ _determine_risk_level self s c = LOW.
Proof.
  unfold _determine_risk_level.
  repeat match goal with
         | |- context [if ?b then _ else _] => destruct b
         end; auto.
Qed.

(** An emitted entry is Ignored with score 0 and not to be included, or
    it is Low, Medium or High and to be included. *)
Lemma process_charge_level (self : CriminalCheckProcessor) (charge : Charge.t)
  (cn : string) (clk : Clock) (t : nat) (pc : ProcessedCase) (inc : bool) (t' : nat) :
  _process_charge self charge cn clk t = (Ok (pc, inc), t') ->
  (risk_level pc = IGNORED /\ inc = false /\ risk_score pc = 0%Q)
  \/ ((risk_level pc = LOW \/ risk_level pc = MEDIUM \/ risk_level pc = HIGH)
      /\ inc = true).
Proof.
  rewrite process_charge_eq.
  destruct (first_disposition_type charge) as [disp|e]; [|discriminate].
  unfold spec_process_charge.
  destruct (verdict self charge disp); intros H; injection H as Hpc Hinc _;
    subst pc inc; try (left; repeat split; reflexivity).
  right. split; [|reflexivity]. cbn [charge_case risk_level].
  destruct (determine_risk_level_range self
              (eligible_score self charge disp (clk t))
              (get (Charge.category charge) "unclassified")) as [E|[E|E]];
    rewrite E; auto.
Qed.

Lemma first_disposition_readable (charge : Charge.t) :
  readable charge <-> exists disp, first_disposition_type charge = Ok disp.
Proof.
  unfold readable, first_disposition_type.
  destruct (Charge.dispositions charge) as [[|d l]|]; cbn [get].
  - split; [intros H; now exfalso|intros [disp H]; discriminate].
  - split; [intros _; eexists; reflexivity|intros _ H; discriminate].
  - split; [intros _; eexists; reflexivity|intros _ H; discriminate].
Qed.

(** [_process_charge] raises exactly on a charge that is not readable, and
    what it raises is [IndexError]. *)
Lemma process_charge_raises (self : CriminalCheckProcessor) (charge : Charge.t)
  (cn : string) (clk : Clock) (t : nat) :
  (readable charge ->
   exists pc inc t', _process_charge self charge cn clk t = (Ok (pc, inc), t'))
  /\ (Charge.dispositions charge = Some [] ->
      _process_charge self charge cn clk t = (Raise IndexError, t)).
Proof.
  rewrite process_charge_eq. split.
  - intros H. apply first_disposition_readable in H. destruct H as [disp H].
    rewrite H. destruct (spec_process_charge self charge cn disp (clk t)) as [pc inc].
    eauto.
  - intros H. unfold first_disposition_type. now rewrite H.
Qed.

(** ** The aggregation loop *)

Lemma for_each_inv {A S C} (Inv : list C -> S -> Prop) (f : A -> list C)
  (body : A -> S -> M S) (clk : Clock) :
  (forall a cs s t s' t',
     Inv cs s -> body a s clk t = (Ok s', t') -> Inv (cs ++ f a) s') ->
  forall l cs s t s' t',
    Inv cs s -> for_each l body s clk t = (Ok s', t') -> Inv (cs ++ flat_map f l) s'.
Proof.
  intros Hstep. induction l as [|a l IH]; intros cs s t s' t' Hinv Hrun.
  - cbn in Hrun. injection Hrun as <- _. now rewrite app_nil_r.
  - cbn [for_each] in Hrun. unfold bind in Hrun.
    destruct (body a s clk t) as [[s1|e] t1] eqn:Hb; [|discriminate].
    cbn [flat_map]. rewrite app_assoc.
    eapply IH; [|exact Hrun]. eapply Hstep; eauto.
Qed.

Lemma for_each_ok {A S C} (Inv : list C -> S -> Prop) (f : A -> list C)
  (P : A -> Prop) (body : A -> S -> M S) (clk : Clock) :
  (forall a cs s t,
     P a -> Inv cs s -> exists s' t', body a s clk t = (Ok s', t')) ->
  (forall a cs s t s' t',
     Inv cs s -> body a s clk t = (Ok s', t') -> Inv (cs ++ f a) s') ->
  forall l cs s t,
    Forall P l -> Inv cs s -> exists s' t', for_each l body s clk t = (Ok s', t').
Proof.
  intros Hok Hstep. induction l as [|a l IH]; intros cs s t HP Hinv.
  - cbn. unfold ret. eauto.
  - inversion HP as [|? ? Ha Hl]; subst.
    destruct (Hok a cs s t Ha Hinv) as (s1 & t1 & Hb).
    cbn [for_each]. unfold bind. rewrite Hb.
    eapply IH; [exact Hl|]. eapply Hstep; eauto.
Qed.

Lemma loop_state_snoc_ignored (es : list ProcessedCase) (pc : ProcessedCase) :
  risk_level pc = IGNORED ->
  append_to "Ignored" pc (buckets_of es []) = Ok (buckets_of (es ++ [pc]) [])
  /\ existsb (fun pc => negb (has_level IGNORED pc)) (es ++ [pc])
     = existsb (fun pc => negb (has_level IGNORED pc)) es.
Proof.
  intros H. unfold buckets_of. rewrite !filter_app, existsb_app. cbn [filter existsb].
  unfold has_level. rewrite H. cbn [RiskLevel_eqb negb orb].
  rewrite !app_nil_r, orb_false_r. split; reflexivity.
Qed.

Lemma loop_state_snoc_scored (es : list ProcessedCase) (pc : ProcessedCase) :
  risk_level pc = LOW \/ risk_level pc = MEDIUM \/ risk_level pc = HIGH ->
  append_to (value (risk_level pc)) pc (buckets_of es [])
  = Ok (buckets_of (es ++ [pc]) [])
  /\ existsb (fun pc => negb (has_level IGNORED pc)) (es ++ [pc]) = true
  /\ RiskLevel_eqb (risk_level pc) IGNORED = false.
Proof.
  intros H. unfold buckets_of. rewrite !filter_app, existsb_app. cbn [filter existsb].
  unfold has_level.
  destruct H as [H|[H|H]]; rewrite H; cbn [RiskLevel_eqb negb orb value];
    rewrite !app_nil_r, orb_true_r; repeat split; reflexivity.
Qed.

Lemma charge_body_step (self : CriminalCheckProcessor) (clk : Clock) (cn : string)
  (charge : Charge.t) (cs : list (Charge.t * string)) (st : Buckets * bool) (t : nat)
  (st' : Buckets * bool) (t' : nat) :
  loop_inv self clk cs st ->
  charge_body self cn charge st clk t = (Ok st', t') ->
  loop_inv self clk (cs ++ [(charge, cn)]) st'.
Proof.
  intros (es & HF & ->). unfold charge_body, loop_state, bind, lift, ret.
  destruct (_process_charge self charge cn clk t) as [[[pc inc]|e] t1] eqn:Hp;
    [|discriminate].
  assert (Hem : emitted_from self clk (charge, cn) pc) by (exists t, inc, t1; exact Hp).
  destruct (process_charge_level _ _ _ _ _ _ _ _ Hp) as [(Hl & Hi & _)|(Hl & Hi)].
  - destruct (loop_state_snoc_ignored es pc Hl) as [Ha Hb].
    rewrite Hl. cbn [RiskLevel_eqb]. rewrite Ha. intros H. injection H as <- _.
    exists (es ++ [pc]). split.
    + apply Forall2_app; [exact HF|]. constructor; [exact Hem|constructor].
    + unfold loop_state. now rewrite Hb.
  - destruct (loop_state_snoc_scored es pc Hl) as (Ha & Hb & Hc).
    rewrite Hc, Ha, Hi. intros H. injection H as <- _.
    exists (es ++ [pc]). split.
    + apply Forall2_app; [exact HF|]. constructor; [exact Hem|constructor].
    + unfold loop_state. now rewrite Hb.
Qed.

Lemma charge_body_ok (self : CriminalCheckProcessor) (clk : Clock) (cn : string)
  (charge : Charge.t) (cs : list (Charge.t * string)) (st : Buckets * bool) (t : nat) :
  readable charge ->
  loop_inv self clk cs st ->
  exists st' t', charge_body self cn charge st clk t = (Ok st', t').
Proof.
  intros Hr (es & HF & ->).
  destruct (proj1 (process_charge_raises self charge cn clk t) Hr) as (pc & inc & t1 & Hp).
  unfold charge_body, loop_state, bind, lift, ret. rewrite Hp.
  destruct (process_charge_level _ _ _ _ _ _ _ _ Hp) as [(Hl & Hi & _)|(Hl & Hi)].
  - destruct (loop_state_snoc_ignored es pc Hl) as [Ha Hb].
    rewrite Hl. cbn [RiskLevel_eqb]. rewrite Ha. eauto.
  - destruct (loop_state_snoc_scored es pc Hl) as (Ha & Hb & Hc).
    rewrite Hc, Ha. eauto.
Qed.

Lemma flat_map_singleton {A B} (g : A -> B) (l : list A) :
  flat_map (fun a => [g a]) l = map g l.
Proof. induction l as [|a l IH]; [reflexivity|]. cbn. now rewrite IH. Qed.

Lemma case_body_step (self : CriminalCheckProcessor) (clk : Clock) (case : Case.t)
  (cs : list (Charge.t * string)) (st : Buckets * bool) (t : nat)
  (st' : Buckets * bool) (t' : nat) :
  loop_inv self clk cs st ->
  case_body self case st clk t = (Ok st', t') ->
  loop_inv self clk (cs ++ charges_of_case case) st'.
Proof.
  intros Hinv Hrun. unfold case_body in Hrun. unfold charges_of_case.
  rewrite <- flat_map_singleton.
  eapply (for_each_inv (loop_inv self clk)
            (fun charge => [(charge, get (Case.case_number case) "unknown")]));
    [|exact Hinv|exact Hrun].
  intros a cs0 s t0 s' t0' Hi Hb. eapply charge_body_step; eauto.
Qed.

Lemma case_body_ok (self : CriminalCheckProcessor) (clk : Clock) (case : Case.t)
  (cs : list (Charge.t * string)) (st : Buckets * bool) (t : nat) :
  Forall (fun c => readable (fst c)) (charges_of_case case) ->
  loop_inv self clk cs st ->
  exists st' t', case_body self case st clk t = (Ok st', t').
Proof.
  intros Hr Hinv. unfold case_body. unfold charges_of_case in Hr.
  rewrite Forall_map in Hr. cbn [fst] in Hr.
  eapply (for_each_ok (loop_inv self clk)
            (fun charge => [(charge, get (Case.case_number case) "unknown")])
            readable); [| |exact Hr|exact Hinv].
  - intros a cs0 s t0 Ha Hi. eapply charge_body_ok; eauto.
  - intros a cs0 s t0 s' t0' Hi Hb. eapply charge_body_step; eauto.
Qed.

Lemma result_body_step (self : CriminalCheckProcessor) (clk : Clock) (g : ResultGroup.t)
  (cs : list (Charge.t * string)) (st : Buckets * bool) (t : nat)
  (st' : Buckets * bool) (t' : nat) :
  loop_inv self clk cs st ->
  result_body self g st clk t = (Ok st', t') ->
  loop_inv self clk (cs ++ enabled_charges_of_group self g) st'.
Proof.
  intros Hinv Hrun. unfold result_body in Hrun. unfold enabled_charges_of_group.
  destruct (_is_record_category_enabled self (get (ResultGroup.category g) "")).
  - cbn [negb] in Hrun. unfold charges_of_group.
    eapply (for_each_inv (loop_inv self clk) charges_of_case);
      [|exact Hinv|exact Hrun].
    intros a cs0 s t0 s' t0' Hi Hb. eapply case_body_step; eauto.
  - cbn in Hrun. injection Hrun as <- _. now rewrite app_nil_r.
Qed.

Lemma result_body_ok (self : CriminalCheckProcessor) (clk : Clock) (g : ResultGroup.t)
  (cs : list (Charge.t * string)) (st : Buckets * bool) (t : nat) :
  Forall (fun c => readable (fst c)) (enabled_charges_of_group self g) ->
  loop_inv self clk cs st ->
  exists st' t', result_body self g st clk t = (Ok st', t').
Proof.
  intros Hr Hinv. unfold result_body. unfold enabled_charges_of_group in Hr.
  destruct (_is_record_category_enabled self (get (ResultGroup.category g) "")).
  - cbn [negb]. unfold charges_of_group in Hr. apply Forall_flat_map in Hr.
    eapply (for_each_ok (loop_inv self clk) charges_of_case
              (fun case => Forall (fun c => readable (fst c)) (charges_of_case case)));
      [| |exact Hr|exact Hinv].
    + intros a cs0 s t0 Ha Hi. eapply case_body_ok; eauto.
    + intros a cs0 s t0 s' t0' Hi Hb. eapply case_body_step; eauto.
  - cbn. unfold ret. eauto.
Qed.

Lemma results_loop_step (self : CriminalCheckProcessor) (clk : Clock) (data : Document.t)
  (t : nat) (st' : Buckets * bool) (t' : nat) :
  for_each (get (Document.results data) []) (result_body self) (empty_results, false) clk t
  = (Ok st', t') ->
  loop_inv self clk (enabled_charges self data) st'.
Proof.
  intros Hrun. unfold enabled_charges.
  change (flat_map (enabled_charges_of_group self) (get (Document.results data) []))
    with ([] ++ flat_map (enabled_charges_of_group self) (get (Document.results data) [])).
  eapply (for_each_inv (loop_inv self clk) (enabled_charges_of_group self));
    [| |exact Hrun].
  - intros a cs0 s t0 s' t0' Hi Hb. eapply result_body_step; eauto.
  - exists []. split; [constructor|reflexivity].
Qed.

Lemma results_loop_ok (self : CriminalCheckProcessor) (clk : Clock) (data : Document.t)
  (t : nat) :
  Forall (fun c => readable (fst c)) (enabled_charges self data) ->
  exists st' t',
    for_each (get (Document.results data) []) (result_body self) (empty_results, false) clk t
    = (Ok st', t').
Proof.
  intros Hr. unfold enabled_charges in Hr. apply Forall_flat_map in Hr.
  eapply (for_each_ok (loop_inv self clk) (enabled_charges_of_group self)
            (fun g => Forall (fun c => readable (fst c)) (enabled_charges_of_group self g)));
    [| |exact Hr|].
  - intros a cs0 s t0 Ha Hi. eapply result_body_ok; eauto.
  - intros a cs0 s t0 s' t0' Hi Hb. eapply result_body_step; eauto.
  - exists []. split; [constructor|reflexivity].
Qed.

Lemma filter_all {A} (p : A -> bool) (l : list A) :
  existsb (fun a => negb (p a)) l = false -> filter p l = l.
Proof.
  induction l as [|a l IH]; [reflexivity|]. cbn.
  destruct (p a); cbn; [|discriminate]. intros H. now rewrite IH.
Qed.

Lemma any_bucket_buckets_of (es clean : list ProcessedCase) :
  any_bucket (buckets_of es clean) ["Low"; "Medium"; "High"]
  = Ok (truthy (filter (has_level LOW) es)
        || truthy (filter (has_level MEDIUM) es)
        || truthy (filter (has_level HIGH) es)).
Proof.
  unfold buckets_of, any_bucket, getitem. cbn [dict_get String.eqb Ascii.eqb Bool.eqb].
  destruct (filter (has_level LOW) es); [|reflexivity].
  destruct (filter (has_level MEDIUM) es); [|reflexivity].
  destruct (filter (has_level HIGH) es); reflexivity.
Qed.

(** What a run that returns has built: without results, the mapping with
    the one synthetic entry; with results, the entries emitted for the
    charges of the enabled groups, in order, each under its level, and the
    other synthetic entry when there is none. *)
Lemma process_criminal_check_repr (self : CriminalCheckProcessor) (data : Document.t)
  (clk : Clock) (t : nat) (r : Buckets) (t' : nat) :
  process_criminal_check self data clk t = (Ok r, t') ->
  (truthy (get (Document.results data) []) = false
   /\ r = buckets_of [] [no_records_case] /\ t' = t)
  \/
  (truthy (get (Document.results data) []) = true
   /\ exists es,
        Forall2 (emitted_from self clk) (enabled_charges self data) es
        /\ r = buckets_of es (match es with [] => [no_qualifying_case] | _ :: _ => [] end)).
Proof.
  unfold process_criminal_check.
  destruct (truthy (get (Document.results data) [])) eqn:Hres; cbn [negb].
  - intros Hrun. right. split; [reflexivity|]. unfold bind in Hrun.
    destruct (for_each (get (Document.results data) []) (result_body self)
                (empty_results, false) clk t) as [[[results any]|e] t1] eqn:Hloop;
      [|discriminate].
    apply results_loop_step in Hloop. destruct Hloop as (es & HF & Hst).
    unfold loop_state in Hst. injection Hst as -> ->.
    exists es. split; [exact HF|].
    destruct (existsb (fun pc => negb (has_level IGNORED pc)) es) eqn:Hany.
    + cbn in Hrun. injection Hrun as <- _.
      destruct es; [discriminate|reflexivity].
    + unfold lift in Hrun. rewrite any_bucket_buckets_of in Hrun.
      destruct (truthy (filter (has_level LOW) es)
                || truthy (filter (has_level MEDIUM) es)
                || truthy (filter (has_level HIGH) es)) eqn:Hact; cbn [negb] in Hrun.
      * unfold ret in Hrun. injection Hrun as <- _.
        destruct es; [discriminate|reflexivity].
      * unfold buckets_of, getitem in Hrun.
        cbn [dict_get String.eqb Ascii.eqb Bool.eqb] in Hrun.
        pose proof (filter_all _ _ Hany) as Hig.
        destruct es as [|pc es].
        -- cbn in Hrun. injection Hrun as <- _. reflexivity.
        -- destruct (filter (has_level IGNORED) (pc :: es)) as [|pc' l] eqn:Hf;
             [discriminate|].
           cbn [truthy negb] in Hrun. unfold ret in Hrun. injection Hrun as <- _.
           unfold buckets_of. now rewrite Hf.
  - intros Hrun. left. split; [reflexivity|]. cbn in Hrun. injection Hrun as <- <-.
    split; reflexivity.
Qed.

(** A run over readable charges returns. *)
Lemma process_criminal_check_ok (self : CriminalCheckProcessor) (data : Document.t)
  (clk : Clock) (t : nat) :
  Forall (fun c => readable (fst c)) (enabled_charges self data) ->
  exists r t', process_criminal_check self data clk t = (Ok r, t').
Proof.
  intros Hr. unfold process_criminal_check.
  destruct (truthy (get (Document.results data) [])) eqn:Hres; cbn [negb].
  - destruct (results_loop_ok self clk data t Hr) as ([results any] & t1 & Hloop).
    pose proof (results_loop_step _ _ _ _ _ _ Hloop) as (es & HF & Hst).
    unfold loop_state in Hst. injection Hst as -> ->.
    unfold bind. rewrite Hloop.
    destruct (existsb (fun pc => negb (has_level IGNORED pc)) es) eqn:Hany.
    + cbn. unfold ret. eauto.
    + unfold lift. rewrite any_bucket_buckets_of.
      destruct (truthy (filter (has_level LOW) es)
                || truthy (filter (has_level MEDIUM) es)
                || truthy (filter (has_level HIGH) es)); cbn [negb].
      * unfold ret. eauto.
      * unfold buckets_of, getitem. cbn [dict_get String.eqb Ascii.eqb Bool.eqb].
        destruct (filter (has_level IGNORED) es); cbn; unfold ret; eauto.
  - cbn. unfold ret. eauto.
Qed.

(** ** Rounding *)

Lemma round_half_even_Z (n : Z) (q : Q) : (q == inject_Z n)%Q -> round_half_even q = n.
Proof.
  intros H. unfold round_half_even.
  assert (Hf : Qfloor q = n) by (rewrite H; apply Qfloor_Z).
  rewrite Hf.
  assert (Hlt : (q - inject_Z n ?= 1 # 2)%Q = Lt).
  { apply (proj1 (Qlt_alt _ _)). rewrite H. ring_simplify. reflexivity. }
  now rewrite Hlt.
Qed.

Lemma round_half_even_nonneg (q : Q) : (0 <= q)%Q -> 0 <= round_half_even q.
Proof.
  intros H. unfold round_half_even.
  assert (Hf : 0 <= Qfloor q).
  { change 0 with (Qfloor 0). now apply Qfloor_resp_le. }
  destruct (q - inject_Z (Qfloor q) ?= 1 # 2)%Q; [destruct (Z.even (Qfloor q))| |]; lia.
Qed.

(** A rounded number is its own rounding. *)
Lemma round2_idem (q : Q) : round2 (round2 q) = round2 q.
Proof.
  unfold round2. set (n := round_half_even (q * 100)).
  rewrite (round_half_even_Z n); [reflexivity|].
  rewrite Qred_correct. unfold Qeq. cbn. lia.
Qed.

Lemma round2_nonneg (q : Q) : (0 <= q)%Q -> (0 <= round2 q)%Q.
Proof.
  intros H. unfold round2. rewrite Qred_correct.
  assert (Hq : (0 <= q * 100)%Q) by (apply Qmult_le_0_compat; [exact H|discriminate]).
  apply round_half_even_nonneg in Hq. unfold Qle. cbn. lia.
Qed.

Lemma round2_zero : round2 0 = 0%Q.
Proof. reflexivity. Qed.

(** ** Signs of the factors of a score *)

Lemma spec_base_score_nonneg (category subcategory : string) :
  0 <= spec_base_score category subcategory.
Proof.
  unfold spec_base_score. destruct (String.eqb (lower category) "unclassified"); [lia|].
  destruct (spec_tier category subcategory); cbn; lia.
Qed.

Lemma find_charge_type_In (l : list ChargeType.t) (k : string) (ct : ChargeType.t) :
  find_charge_type l k = Some ct -> In ct l.
Proof.
  induction l as [|c l IH]; [discriminate|]. cbn.
  destruct (String.eqb (lower (ChargeType.input_key c)) (lower k)).
  - intros H. injection H as ->. now left.
  - intros H. right. now apply IH.
Qed.

Lemma spec_severity_weight_nonneg (cfg : Config.t) (charge_type : string) :
  (forall ct, In ct (Config.charge_types cfg) -> 0 <= ChargeType.severity_weight ct) ->
  0 <= spec_severity_weight cfg charge_type.
Proof.
  intros H. unfold spec_severity_weight.
  destruct (find_charge_type (Config.charge_types cfg) charge_type) as [ct|] eqn:E; [|lia].
  apply H. eapply find_charge_type_In; eauto.
Qed.

Lemma spec_disposition_multiplier_pos (impact : string) :
  (0 <= spec_disposition_multiplier impact)%Q.
Proof.
  unfold spec_disposition_multiplier.
  repeat match goal with
         | |- context [if ?b then _ else _] => destruct b
         end; discriminate.
Qed.

Lemma spec_recency_multiplier_pos (d : Z) : (0 <= spec_recency_multiplier d)%Q.
Proof.
  unfold spec_recency_multiplier.
  repeat match goal with
         | |- context [if ?b then _ else _] => destruct b
         end; discriminate.
Qed.

Lemma spec_risk_score_nonneg (base w : Z) (dm : Q) (rm : option Q) :
  0 <= base -> 0 <= w -> (0 <= dm)%Q ->
  (forall x, rm = Some x -> (0 <= x)%Q) ->
  (0 <= spec_risk_score base w dm rm)%Q.
Proof.
  intros Hb Hw Hd Hr. unfold spec_risk_score.
  assert (Hp : (0 <= inject_Z base * (inject_Z w / 2) * dm)%Q).
  { apply Qmult_le_0_compat; [|exact Hd]. apply Qmult_le_0_compat.
    - change 0%Q with (inject_Z 0). now rewrite <- Zle_Qle.
    - apply Qmult_le_0_compat; [|discriminate].
      change 0%Q with (inject_Z 0). now rewrite <- Zle_Qle. }
  destruct rm as [x|]; apply round2_nonneg; [|exact Hp].
  apply Qmult_le_0_compat; [exact Hp|]. now apply Hr.
Qed.

Lemma spec_risk_score_rounded (base w : Z) (dm : Q) (rm : option Q) :
  round2 (spec_risk_score base w dm rm) = spec_risk_score base w dm rm.
Proof. unfold spec_risk_score. destruct rm; apply round2_idem. Qed.

(** The score of an emitted entry: rounded, 0 when Ignored, and not
    negative when no configured severity weight is. *)
Lemma emitted_score (self : CriminalCheckProcessor) (clk : Clock)
  (c : Charge.t * string) (pc : ProcessedCase) :
  emitted_from self clk c pc ->
  round2 (risk_score pc) = risk_score pc
  /\ (risk_level pc = IGNORED -> risk_score pc = 0%Q)
  /\ ((forall ct, In ct (Config.charge_types (config self)) ->
                  0 <= ChargeType.severity_weight ct) ->
      (0 <= risk_score pc)%Q).
Proof.
  intros (t & inc & t' & H). rewrite process_charge_eq in H.
  destruct (first_disposition_type (fst c)) as [disp|e]; [|discriminate].
  unfold spec_process_charge in H.
  destruct (verdict self (fst c) disp); injection H as Hpc _ _; subst pc;
    cbn [charge_case risk_score risk_level] in *;
    try (repeat split; [intros _; discriminate]).
  repeat split.
  - unfold eligible_score, spec_charge_score. apply spec_risk_score_rounded.
  - intros Hi.
    destruct (determine_risk_level_range self (eligible_score self (fst c) disp (clk t))
                (get (Charge.category (fst c)) "unclassified")) as [E|[E|E]];
      rewrite E in Hi; discriminate.
  - intros Hw. unfold eligible_score, spec_charge_score.
    apply spec_risk_score_nonneg.
    + apply spec_base_score_nonneg.
    + now apply spec_severity_weight_nonneg.
    + apply spec_disposition_multiplier_pos.
    + intros x Hx. injection Hx as <-. apply spec_recency_multiplier_pos.
Qed.

(** ** The returned mapping *)

Lemma RiskLevel_eqb_eq (a b : RiskLevel) : RiskLevel_eqb a b = true -> a = b.
Proof. destruct a, b; (reflexivity || discriminate). Qed.

Lemma truthy_false {A} (l : list A) : truthy l = false <-> l = [].
Proof. destruct l; split; (reflexivity || discriminate). Qed.

Lemma no_results_truthy (data : Document.t) :
  no_results data <-> truthy (get (Document.results data) []) = false.
Proof.
  unfold no_results. destruct (Document.results data) as [[|g gs]|]; cbn; split;
    intros H; auto; try discriminate; destruct H; discriminate.
Qed.

Lemma has_results_truthy (data : Document.t) :
  has_results data <-> truthy (get (Document.results data) []) = true.
Proof.
  unfold has_results. destruct (Document.results data) as [[|g gs]|]; cbn; split;
    intros H; eauto; try discriminate; destruct H as (g' & gs' & H); discriminate.
Qed.

Lemma Forall2_In_r {A B} (R : A -> B -> Prop) (l1 : list A) (l2 : list B) (y : B) :
  Forall2 R l1 l2 -> In y l2 -> exists x, In x l1 /\ R x y.
Proof.
  induction 1 as [|a b l1 l2 Hab HF IH]; intros Hin; [contradiction|].
  destruct Hin as [<-|Hin].
  - exists a. split; [now left|exact Hab].
  - destruct (IH Hin) as (x & Hx & HR). exists x. split; [now right|exact HR].
Qed.

(** The mapping of a run that returns, in one shape for both ways out. *)
Lemma process_criminal_check_buckets (self : CriminalCheckProcessor) (data : Document.t)
  (clk : Clock) (t : nat) (r : Buckets) (t' : nat) :
  process_criminal_check self data clk t = (Ok r, t') ->
  exists es clean,
    Forall2 (emitted_from self clk) (enabled_charges self data) es
    /\ r = buckets_of es clean
    /\ ((clean = [] /\ es <> [])
        \/ (es = [] /\ (clean = [no_records_case] \/ clean = [no_qualifying_case]))).
Proof.
  intros H. apply process_criminal_check_repr in H.
  destruct H as [(Hres & -> & _)|(Hres & es & HF & ->)].
  - exists [], [no_records_case]. split; [|split; [reflexivity|right; auto]].
    apply truthy_false in Hres. unfold enabled_charges. rewrite Hres. constructor.
  - exists es. destruct es as [|pc es].
    + exists [no_qualifying_case]. split; [exact HF|]. split; [reflexivity|right; auto].
    + exists []. split; [exact HF|]. split; [reflexivity|left]. split; [reflexivity|discriminate].
Qed.

Lemma emitted_level (self : CriminalCheckProcessor) (clk : Clock)
  (c : Charge.t * string) (pc : ProcessedCase) :
  emitted_from self clk c pc ->
  risk_level pc = IGNORED \/ risk_level pc = LOW
  \/ risk_level pc = MEDIUM \/ risk_level pc = HIGH.
Proof.
  intros (t & inc & t' & H).
  destruct (process_charge_level _ _ _ _ _ _ _ _ H) as [(Hl & _)|([Hl|[Hl|Hl]] & _)];
    auto.
Qed.

(** The four level buckets split the emitted entries. *)
Lemma level_partition (es : list ProcessedCase) :
  Forall (fun pc => risk_level pc = IGNORED \/ risk_level pc = LOW
                    \/ risk_level pc = MEDIUM \/ risk_level pc = HIGH) es ->
  Permutation
    (filter (has_level IGNORED) es ++ filter (has_level LOW) es
       ++ filter (has_level MEDIUM) es ++ filter (has_level HIGH) es)
    es.
Proof.
  induction 1 as [|pc es Hpc _ IH]; [constructor|].
  cbn [filter]. unfold has_level in *.
  destruct Hpc as [E|[E|[E|E]]]; rewrite E; cbn [RiskLevel_eqb app].
  - now constructor.
  - apply Permutation_sym, Permutation_cons_app, Permutation_sym. exact IH.
  - rewrite app_assoc. apply Permutation_sym, Permutation_cons_app.
    rewrite <- app_assoc. apply Permutation_sym. exact IH.
  - rewrite !app_assoc. apply Permutation_sym, Permutation_cons_app.
    rewrite <- !app_assoc. apply Permutation_sym. exact IH.
Qed.

Lemma emitted_levels (self : CriminalCheckProcessor) (clk : Clock)
  (cs : list (Charge.t * string)) (es : list ProcessedCase) :
  Forall2 (emitted_from self clk) cs es ->
  Forall (fun pc => risk_level pc = IGNORED \/ risk_level pc = LOW
                    \/ risk_level pc = MEDIUM \/ risk_level pc = HIGH) es.
Proof.
  induction 1 as [|c pc cs es Hc _ IH]; constructor; [|exact IH].
  eapply emitted_level; eauto.
Qed.

(** What is found under a key of a returned mapping. *)
Lemma dict_get_buckets_of (k : string) (es clean l : list ProcessedCase) :
  dict_get k (buckets_of es clean) = Some l ->
  (k = "Ignored" /\ l = filter (has_level IGNORED) es)
  \/ (k = "Low" /\ l = filter (has_level LOW) es)
  \/ (k = "Medium" /\ l = filter (has_level MEDIUM) es)
  \/ (k = "High" /\ l = filter (has_level HIGH) es)
  \/ (k = "Clean" /\ l = clean).
Proof.
  unfold buckets_of. cbn [dict_get].
  destruct (String.eqb "Ignored" k) eqn:E1;
    [apply String.eqb_eq in E1; intros H; injection H as <-; auto|].
  destruct (String.eqb "Low" k) eqn:E2;
    [apply String.eqb_eq in E2; intros H; injection H as <-; auto|].
  destruct (String.eqb "Medium" k) eqn:E3;
    [apply String.eqb_eq in E3; intros H; injection H as <-; auto|].
  destruct (String.eqb "High" k) eqn:E4;
    [apply String.eqb_eq in E4; intros H; injection H as <-; auto 6|].
  destruct (String.eqb "Clean" k) eqn:E5;
    [apply String.eqb_eq in E5; intros H; injection H as <-; auto 6|].
  discriminate.
Qed.

Lemma sample_run :
  process_criminal_check sample_processor sample_data sample_clock 0%nat
  = (Ok sample_results, 2%nat).
Proof. vm_compute. reflexivity. Qed.

Lemma charge_entries_buckets_of (es clean : list ProcessedCase) :
  charge_entries (buckets_of es clean)
  = filter (has_level IGNORED) es ++ filter (has_level LOW) es
      ++ filter (has_level MEDIUM) es ++ filter (has_level HIGH) es.
Proof. reflexivity. Qed.

Lemma charge_entries_perm (self : CriminalCheckProcessor) (clk : Clock)
  (cs : list (Charge.t * string)) (es clean : list ProcessedCase) :
  Forall2 (emitted_from self clk) cs es ->
  Permutation (charge_entries (buckets_of es clean)) es.
Proof.
  intros HF. rewrite charge_entries_buckets_of.
  apply level_partition. eapply emitted_levels; eauto.
Qed.

(** C3. [process_criminal_check] adds a synthetic Clean entry in two cases
    and no other: the document has no [results] key or an empty list there,
    and then the mapping is that one entry and four empty buckets; or there
    are results and nothing went into Ignored, Low, Medium or High.  When
    some charge was Ignored and none reached Low, Medium or High, there is
    no Clean entry and every bucket but Ignored is empty. *)
Theorem c3_synthetic_clean (self : CriminalCheckProcessor) (data : Document.t)
  (clk : Clock) (t : nat) :
  (no_results data ->
   process_criminal_check self data clk t
   = (Ok [("Ignored", []); ("Low", []); ("Medium", []); ("High", []);
          ("Clean", [no_records_case])], t))
  /\
  (forall (r : Buckets) (t' : nat),
     has_results data ->
     process_criminal_check self data clk t = (Ok r, t') ->
     (charge_entries r = [] -> bucket "Clean" r = [no_qualifying_case])
     /\ (charge_entries r <> [] -> bucket "Clean" r = [])
     /\ (bucket "Ignored" r <> [] ->
         bucket "Low" r = [] -> bucket "Medium" r = [] -> bucket "High" r = [] ->
         bucket "Clean" r = [] /\ forall k, k <> "Ignored" -> bucket k r = [])).
Proof.
  split.
  - intros H. apply no_results_truthy in H. unfold process_criminal_check.
    rewrite H. reflexivity.
  - intros r t' Hres Hrun. apply has_results_truthy in Hres.
    apply process_criminal_check_repr in Hrun.
    destruct Hrun as [(Hno & _)|(_ & es & HF & ->)]; [congruence|].
    pose proof (charge_entries_perm _ _ _ _
                  (match es with [] => [no_qualifying_case] | _ :: _ => [] end) HF) as HP.
    repeat split.
    + intros He. rewrite He in HP. apply Permutation_nil in HP. now subst es.
    + intros He. destruct es as [|pc es]; [|reflexivity].
      exfalso. apply He. reflexivity.
    + destruct es as [|pc es]; [|reflexivity]. exfalso. now apply H.
    + intros k Hk. unfold bucket.
      destruct (dict_get k (buckets_of es _)) as [l|] eqn:Hg; [|reflexivity].
      apply dict_get_buckets_of in Hg. cbn [get].
      destruct Hg as [(-> & _)|[(-> & ->)|[(-> & ->)|[(-> & ->)|(-> & ->)]]]];
        try assumption; [contradiction|].
      destruct es as [|pc es]; [|reflexivity]. exfalso. now apply H.
Qed.

Lemma c3_synthetic_clean_witness :
  process_criminal_check sample_processor empty_data sample_clock 0%nat
  = (Ok [("Ignored", []); ("Low", []); ("Medium", []); ("High", []);
         ("Clean", [no_records_case])], 0%nat)
  /\ bucket "Clean" sample_results = [].
Proof.
  split.
  - apply (proj1 (c3_synthetic_clean sample_processor empty_data sample_clock 0%nat)).
    left. reflexivity.
  - assert (Hres : has_results sample_data).
    { exists (mk_group "Criminal/traffic" "16-2016-CT-009299-AXXX-MA" [unclassified_charge]).
      eexists. reflexivity. }
    assert (Hrun : process_criminal_check sample_processor sample_data sample_clock 0%nat
                   = (Ok sample_results, 2%nat)) by (vm_compute; reflexivity).
    destruct (proj2 (c3_synthetic_clean sample_processor sample_data sample_clock 0%nat)
                sample_results 2%nat Hres Hrun) as (_ & H & _).
    apply H. discriminate.
Defined.

(** C7, as amended: in a run that returns, every charge of a result group
    whose record category is enabled gives exactly one entry, found in the
    Ignored, Low, Medium or High bucket; these four buckets hold nothing
    else, so a charge of a group whose category is not enabled gives none,
    and the Clean bucket holds synthetic entries only. *)
Theorem c7_one_case_per_enabled_charge (self : CriminalCheckProcessor)
  (data : Document.t) (clk : Clock) (t : nat) (r : Buckets) (t' : nat) :
  process_criminal_check self data clk t = (Ok r, t') ->
  exists es,
    Forall2 (emitted_from self clk) (enabled_charges self data) es
    /\ Permutation (charge_entries r) es
    /\ List.length (charge_entries r) = List.length (enabled_charges self data)
    /\ (forall pc, In pc (bucket "Clean" r) ->
                   pc = no_records_case \/ pc = no_qualifying_case).
Proof.
  intros H. apply process_criminal_check_buckets in H.
  destruct H as (es & clean & HF & -> & Hclean).
  pose proof (charge_entries_perm _ _ _ _ clean HF) as HP.
  exists es. repeat split; [exact HF|exact HP| |].
  - rewrite (Permutation_length HP). symmetry. eapply Forall2_length; eauto.
  - change (bucket "Clean" (buckets_of es clean)) with clean.
    destruct Hclean as [(-> & _)|(_ & [ -> | -> ])]; intros pc Hin;
      [contradiction| |]; destruct Hin as [<-|[]]; auto.
Qed.

Lemma c7_one_case_per_enabled_charge_witness :
  exists es,
    Forall2 (emitted_from sample_processor sample_clock)
            (enabled_charges sample_processor sample_data) es
    /\ Permutation (charge_entries sample_results) es
    /\ List.length (charge_entries sample_results)
       = List.length (enabled_charges sample_processor sample_data)
    /\ (forall pc, In pc (bucket "Clean" sample_results) ->
                   pc = no_records_case \/ pc = no_qualifying_case).
Proof.
  apply (c7_one_case_per_enabled_charge sample_processor sample_data sample_clock
           0%nat sample_results 2%nat).
  vm_compute. reflexivity.
Defined.

(** C7, as stated, fails: the document has one charge, filed under a
    record category that is switched off, and the returned mapping holds
    no entry for it. *)
Lemma c7_disabled_category_drops_charge :
  all_charges data_disabled_category = [(speeding_charge, "2022-CV-7")]
  /\ process_criminal_check sample_processor data_disabled_category sample_clock 0%nat
     = (Ok (buckets_of [] [no_qualifying_case]), 0%nat)
  /\ charge_entries (buckets_of [] [no_qualifying_case]) = []
  /\ bucket "Clean" (buckets_of [] [no_qualifying_case]) = [no_qualifying_case].
Proof. repeat split. Qed.

Lemma bucket_In (k : string) (es clean : list ProcessedCase) (pc : ProcessedCase) :
  In pc (bucket k (buckets_of es clean)) -> In pc es \/ In pc clean.
Proof.
  unfold bucket. destruct (dict_get k (buckets_of es clean)) as [l|] eqn:Hg;
    [|contradiction].
  apply dict_get_buckets_of in Hg. cbn [get].
  destruct Hg as [(_ & ->)|[(_ & ->)|[(_ & ->)|[(_ & ->)|(_ & ->)]]]]; intros Hin;
    try (apply filter_In in Hin; left; tauto).
  now right.
Qed.

(** A run returns exactly when every charge it looks at is readable. *)
Lemma process_criminal_check_returns_iff (self : CriminalCheckProcessor)
  (data : Document.t) (clk : Clock) (t : nat) :
  (exists r t', process_criminal_check self data clk t = (Ok r, t'))
  <-> Forall (fun c => readable (fst c)) (enabled_charges self data).
Proof.
  split; [|apply process_criminal_check_ok].
  intros (r & t' & H). apply process_criminal_check_buckets in H.
  destruct H as (es & clean & HF & _).
  induction HF as [|c pc cs es Hc _ IH]; constructor; [|exact IH].
  destruct Hc as (t0 & inc & t1 & Hp).
  intros Hbad.
  rewrite (proj2 (process_charge_raises self (fst c) (snd c) clk t0) Hbad) in Hp.
  discriminate.
Qed.

(** C9, as amended: in every mapping returned, under every configuration,
    the score of every entry is its own rounding to two decimals and the
    score of an Ignored entry is 0; the score is not negative when no
    configured severity weight is negative. *)
Theorem c9_scores_rounded (self : CriminalCheckProcessor) (data : Document.t)
  (clk : Clock) (t : nat) (r : Buckets) (t' : nat) (k : string) (pc : ProcessedCase) :
  process_criminal_check self data clk t = (Ok r, t') ->
  In pc (bucket k r) ->
  round2 (risk_score pc) = risk_score pc
  /\ (risk_level pc = IGNORED -> risk_score pc = 0%Q)
  /\ (weights_nonnegative (config self) -> (0 <= risk_score pc)%Q).
Proof.
  intros H Hin. apply process_criminal_check_buckets in H.
  destruct H as (es & clean & HF & -> & Hclean).
  apply bucket_In in Hin. destruct Hin as [Hin|Hin].
  - destruct (Forall2_In_r _ _ _ _ HF Hin) as (c & _ & Hc).
    exact (emitted_score self clk c pc Hc).
  - assert (Hs : pc = no_records_case \/ pc = no_qualifying_case).
    { destruct Hclean as [(-> & _)|(_ & [ -> | -> ])];
        [contradiction| |]; destruct Hin as [<-|[]]; auto. }
    destruct Hs as [->| ->]; repeat split; discriminate.
Qed.

Lemma c9_scores_rounded_witness :
  round2 (risk_score license_case) = risk_score license_case
  /\ (risk_level license_case = IGNORED -> risk_score license_case = 0%Q)
  /\ (weights_nonnegative (config sample_processor) -> (0 <= risk_score license_case)%Q).
Proof.
  apply (c9_scores_rounded sample_processor sample_data sample_clock 0%nat
           sample_results 2%nat "Medium" license_case).
  - vm_compute. reflexivity.
  - left. reflexivity.
Defined.

(** C9, as stated, fails: with a severity weight of -2 the license charge
    of the sample is scored 30 * (-2 / 2) * 1.2 * 0.8 = -28.8 and lands in
    the Low bucket. *)
Lemma c9_negative_weight_negative_score :
  process_criminal_check negative_weight_processor license_data sample_clock 0%nat
  = (Ok (buckets_of [negative_case] []), 1%nat)
  /\ In negative_case (bucket "Low" (buckets_of [negative_case] []))
  /\ (risk_score negative_case < 0)%Q.
Proof.
  split; [vm_compute; reflexivity|]. split; [left; reflexivity|reflexivity].
Qed.

(** C10. The keys of a returned mapping are "Ignored", "Low", "Medium",
    "High" and "Clean", and the level of every entry, as a string, is the
    key the entry is stored under. *)
Theorem c10_bucket_keys_and_levels (self : CriminalCheckProcessor) (data : Document.t)
  (clk : Clock) (t : nat) (r : Buckets) (t' : nat) :
  process_criminal_check self data clk t = (Ok r, t') ->
  keys r = ["Ignored"; "Low"; "Medium"; "High"; "Clean"]
  /\ (forall (k : string) (l : list ProcessedCase) (pc : ProcessedCase),
        dict_get k r = Some l -> In pc l -> value (risk_level pc) = k).
Proof.
  intros H. apply process_criminal_check_buckets in H.
  destruct H as (es & clean & HF & -> & Hclean). split; [reflexivity|].
  intros k l pc Hg Hin. apply dict_get_buckets_of in Hg.
  destruct Hg as [(-> & ->)|[(-> & ->)|[(-> & ->)|[(-> & ->)|(-> & ->)]]]];
    try (apply filter_In in Hin; destruct Hin as [_ Hl];
         apply RiskLevel_eqb_eq in Hl; now rewrite Hl).
  destruct Hclean as [(-> & _)|(_ & [ -> | -> ])];
    [contradiction| |]; destruct Hin as [<-|[]]; reflexivity.
Qed.

Lemma c10_bucket_keys_and_levels_witness :
  keys sample_results = ["Ignored"; "Low"; "Medium"; "High"; "Clean"]
  /\ (forall (k : string) (l : list ProcessedCase) (pc : ProcessedCase),
        dict_get k sample_results = Some l -> In pc l -> value (risk_level pc) = k).
Proof.
  apply (c10_bucket_keys_and_levels sample_processor sample_data sample_clock 0%nat
           sample_results 2%nat).
  vm_compute. reflexivity.
Defined.

(** ** What a run reads of the configuration *)

Lemma for_each_ext {A S} (body1 body2 : A -> S -> M S) :
  (forall a s clk t, body1 a s clk t = body2 a s clk t) ->
  forall l s clk t, for_each l body1 s clk t = for_each l body2 s clk t.
Proof.
  intros H. induction l as [|a l IH]; intros s clk t; [reflexivity|].
  cbn [for_each]. unfold bind. rewrite H.
  destruct (body2 a s clk t) as [[s'|e] t']; [apply IH|reflexivity].
Qed.

Lemma process_charge_agree (p1 p2 : CriminalCheckProcessor) (charge : Charge.t)
  (cn : string) (clk : Clock) (t : nat) :
  agree p1 p2 ->
  _process_charge p1 charge cn clk t = _process_charge p2 charge cn clk t.
Proof.
  intros (Hy & Hc & Hr & Ht & Hd & Hth). rewrite !process_charge_eq.
  destruct (first_disposition_type charge) as [disp|e]; [|reflexivity].
  unfold spec_process_charge, verdict, verdict_reason, eligible_score,
    spec_charge_score, spec_severity_weight, spec_risk_impact, within_lookback,
    _is_charge_type_enabled, _is_disposition_enabled, _determine_risk_level.
  rewrite Hy, Hc, Ht, Hd, Hth. reflexivity.
Qed.

Lemma charge_body_agree (p1 p2 : CriminalCheckProcessor) (cn : string)
  (charge : Charge.t) (st : Buckets * bool) (clk : Clock) (t : nat) :
  agree p1 p2 ->
  charge_body p1 cn charge st clk t = charge_body p2 cn charge st clk t.
Proof.
  intros H. unfold charge_body. destruct st as [results any]. unfold bind.
  now rewrite (process_charge_agree p1 p2 charge cn clk t H).
Qed.

Lemma case_body_agree (p1 p2 : CriminalCheckProcessor) (case : Case.t)
  (st : Buckets * bool) (clk : Clock) (t : nat) :
  agree p1 p2 ->
  case_body p1 case st clk t = case_body p2 case st clk t.
Proof.
  intros H. unfold case_body. apply for_each_ext.
  intros a s clk0 t0. now apply charge_body_agree.
Qed.

Lemma result_body_agree (p1 p2 : CriminalCheckProcessor) (g : ResultGroup.t)
  (st : Buckets * bool) (clk : Clock) (t : nat) :
  agree p1 p2 ->
  result_body p1 g st clk t = result_body p2 g st clk t.
Proof.
  intros H. unfold result_body, _is_record_category_enabled.
  destruct H as (Hy & Hc & Hr & Hrest). rewrite Hr.
  destruct (_is_record_category_enabled_in _ _); [|reflexivity]. cbn [negb].
  apply for_each_ext. intros a s clk0 t0. apply case_body_agree.
  repeat split; tauto.
Qed.

(** Processors that agree on the lookback, the enablement rules, the
    severity weights, the risk impacts and the thresholds give the same
    outcome, result or exception, on every document. *)
Lemma process_criminal_check_agree (p1 p2 : CriminalCheckProcessor) (data : Document.t)
  (clk : Clock) (t : nat) :
  agree p1 p2 ->
  process_criminal_check p1 data clk t = process_criminal_check p2 data clk t.
Proof.
  intros H. unfold process_criminal_check.
  destruct (negb (truthy (get (Document.results data) []))); [reflexivity|].
  unfold bind.
  rewrite (for_each_ext (result_body p1) (result_body p2)); [reflexivity|].
  intros a s clk0 t0. now apply result_body_agree.
Qed.

(** C8. The outcome of [process_criminal_check] does not depend on the
    base weights of [risk_scoring.categories]: processors built at the same
    time from two configurations that differ only there return the same
    buckets, levels, scores and reasons on every document. *)
Theorem c8_base_weights_unused (c1 c2 : Config.t) (data : Document.t) (clk : Clock)
  (t : nat) :
  same_except_base_weights c1 c2 ->
  (self <- __init__ c1 ;; process_criminal_check self data) clk t
  = (self <- __init__ c2 ;; process_criminal_check self data) clk t.
Proof.
  intros (Hp & Hr & Ht & Hd & Hth & _).
  unfold __init__, bind, now, lift, ret. rewrite Hp.
  destruct (timedelta_days (Config.selected_period c2 * 365)) as [delta|e];
    [|reflexivity].
  destruct (datetime_sub (clk t) delta) as [cutoff|e]; [|reflexivity].
  apply process_criminal_check_agree. repeat split; assumption.
Qed.

Lemma c8_base_weights_unused_witness :
  (self <- __init__ sample_config ;; process_criminal_check self sample_data)
    sample_clock 0%nat
  = (self <- __init__ reweighted_config ;; process_criminal_check self sample_data)
      sample_clock 0%nat.
Proof.
  apply (c8_base_weights_unused sample_config reweighted_config sample_data
           sample_clock 0%nat).
  repeat split.
Defined.

(** The base weights do differ in the two configurations of the witness. *)
Example reweighted_config_differs :
  _get_risk_category_weight_in (Config.risk_categories sample_config) "violence" = 3%Q
  /\ _get_risk_category_weight_in (Config.risk_categories reweighted_config) "violence"
     = 0%Q.
Proof. split; reflexivity. Qed.

(** ** The eligibility checks of a readable charge *)

(** The three checks in their order, the first that fails deciding; a
    charge that passes all three is scored and marked for inclusion. *)
Lemma eligibility_checks_in_order (self : CriminalCheckProcessor) (charge : Charge.t)
  (cn : string) (clk : Clock) (t : nat) (disp : string) :
  first_disposition_type charge = Ok disp ->
  (within_lookback self (get (Charge.offense_date charge) "") = false ->
   _process_charge self charge cn clk t
   = (Ok (charge_case charge cn disp IGNORED 0
            ("Outside " ++ str_of_int (lookback_years self)
               ++ "-year lookback period")%string, false), t))
  /\
  (within_lookback self (get (Charge.offense_date charge) "") = true ->
   _is_charge_type_enabled self (get (Charge.type charge) "unknown") = false ->
   _process_charge self charge cn clk t
   = (Ok (charge_case charge cn disp IGNORED 0
            ("Charge type '" ++ get (Charge.type charge) "unknown"
               ++ "' not enabled in configuration")%string, false), t))
  /\
  (within_lookback self (get (Charge.offense_date charge) "") = true ->
   _is_charge_type_enabled self (get (Charge.type charge) "unknown") = true ->
   _is_disposition_enabled self disp = false ->
   _process_charge self charge cn clk t
   = (Ok (charge_case charge cn disp IGNORED 0
            ("Disposition '" ++ disp ++ "' not enabled in configuration")%string,
          false), t))
  /\
  (within_lookback self (get (Charge.offense_date charge) "") = true ->
   _is_charge_type_enabled self (get (Charge.type charge) "unknown") = true ->
   _is_disposition_enabled self disp = true ->
   exists pc,
     _process_charge self charge cn clk t = (Ok (pc, true), S t)
     /\ risk_level pc <> IGNORED
     /\ reason pc = "Processed successfully").
Proof.
  intros Hd. rewrite process_charge_eq, Hd. unfold spec_process_charge, verdict.
  repeat split.
  - intros ->. reflexivity.
  - intros -> ->. reflexivity.
  - intros -> -> ->. reflexivity.
  - intros -> -> ->. cbn [negb]. eexists. split; [reflexivity|].
    split; [|reflexivity]. cbn [charge_case risk_level].
    destruct (determine_risk_level_range self (eligible_score self charge disp (clk t))
                (get (Charge.category charge) "unclassified")) as [E|[E|E]];
      rewrite E; discriminate.
Qed.

(** The lookups of the filter do not see the letter case of the key, and
    a key that matches no configured entry is not enabled. *)
Lemma find_charge_type_lower (l : list ChargeType.t) (a b : string) :
  lower a = lower b -> find_charge_type l a = find_charge_type l b.
Proof.
  intros H. induction l as [|ct l IH]; [reflexivity|]. cbn. now rewrite H, IH.
Qed.

Lemma find_disposition_lower (l : list DispositionFilter.t) (a b : string) :
  lower a = lower b -> find_disposition l a = find_disposition l b.
Proof.
  intros H. induction l as [|d l IH]; [reflexivity|]. cbn. now rewrite H, IH.
Qed.

Lemma charge_type_unknown_not_enabled (self : CriminalCheckProcessor) (k : string) :
  (forall ct, In ct (Config.charge_types (config self)) ->
              lower (ChargeType.input_key ct) <> lower k) ->
  _is_charge_type_enabled self k = false.
Proof.
  unfold _is_charge_type_enabled. intros H.
  induction (Config.charge_types (config self)) as [|ct l IH]; [reflexivity|].
  cbn. destruct (String.eqb (lower (ChargeType.input_key ct)) (lower k)) eqn:E.
  - apply String.eqb_eq in E. exfalso. apply (H ct); [now left|exact E].
  - apply IH. intros ct' Hin. apply H. now right.
Qed.

Lemma disposition_unknown_not_enabled (self : CriminalCheckProcessor) (k : string) :
  (forall d, In d (Config.dispositions (config self)) ->
             lower (DispositionFilter.input_key d) <> lower k) ->
  _is_disposition_enabled self k = false.
Proof.
  unfold _is_disposition_enabled. intros H.
  induction (Config.dispositions (config self)) as [|d l IH]; [reflexivity|].
  cbn. destruct (String.eqb (lower (DispositionFilter.input_key d)) (lower k)) eqn:E.
  - apply String.eqb_eq in E. exfalso. apply (H d); [now left|exact E].
  - apply IH. intros d' Hin. apply H. now right.
Qed.

(** ** Charges whose dispositions cannot be indexed *)

(** A readable charge whose offense date does not parse, or is before the
    cutoff, gives an Ignored entry with score 0 and the lookback reason,
    whatever its type and disposition. *)
Lemma lookback_fails_closed (self : CriminalCheckProcessor) (charge : Charge.t)
  (cn : string) (clk : Clock) (t : nat) (disp : string) :
  first_disposition_type charge = Ok disp ->
  (strptime_Ymd (get (Charge.offense_date charge) "") = Raise ValueError
   \/ exists dt, strptime_Ymd (get (Charge.offense_date charge) "") = Ok dt
                 /\ dt < cutoff_date self) ->
  _process_charge self charge cn clk t
  = (Ok (charge_case charge cn disp IGNORED 0
           ("Outside " ++ str_of_int (lookback_years self)
              ++ "-year lookback period")%string, false), t).
Proof.
  intros Hd Hdate. rewrite process_charge_eq, Hd.
  assert (Hv : verdict self charge disp = OutsideLookback).
  { unfold verdict, within_lookback.
    destruct Hdate as [->|(dt & -> & Hlt)]; [reflexivity|].
    apply Z.leb_gt in Hlt. now rewrite Hlt. }
  unfold spec_process_charge. rewrite Hv. reflexivity.
Qed.

(** C2, at a charge from 1990 whose [dispositions] list is empty, filed
    under an enabled record category: its date is strictly before the
    cutoff, yet [_process_charge] raises [IndexError] before any check and
    gives no entry. *)
Theorem c2_old_charge_raises :
  strptime_Ymd (get (Charge.offense_date old_charge_no_dispositions) "")
  = Ok (datetime_of_ymd 1990 1 1)
  /\ datetime_of_ymd 1990 1 1 < cutoff_date sample_processor
  /\ _is_record_category_enabled sample_processor "Criminal/traffic" = true
  /\ _process_charge sample_processor old_charge_no_dispositions "1990-CR-1"
       sample_clock 0%nat
     = (Raise IndexError, 0%nat).
Proof. repeat split. Qed.

(** C6, at a document with one charge whose [dispositions] key is present
    with an empty list: [process_criminal_check] raises [IndexError]. *)
Theorem c6_empty_dispositions_raises :
  Charge.dispositions old_charge_no_dispositions = Some []
  /\ process_criminal_check sample_processor data_no_dispositions sample_clock 0%nat
     = (Raise IndexError, 0%nat).
Proof. split; reflexivity. Qed.

(** * Further properties *)

(** ** The summary *)

Lemma max2_spec (a b : Q) :
  (a <= max2 a b)%Q /\ (b <= max2 a b)%Q /\ (max2 a b = a \/ max2 a b = b).
Proof.
  unfold max2. destruct (Qlt_bool a b) eqn:E.
  - apply Qlt_bool_iff in E. repeat split; [now apply Qlt_le_weak|apply Qle_refl|now right].
  - assert (H : (b <= a)%Q).
    { apply Qnot_lt_le. intros H. apply Qlt_bool_iff in H. congruence. }
    repeat split; [apply Qle_refl|exact H|now left].
Qed.

Lemma max_of_spec (l : list Q) (x : Q) :
  (x <= max_of x l)%Q
  /\ (forall y, In y l -> (y <= max_of x l)%Q)
  /\ (max_of x l = x \/ In (max_of x l) l).
Proof.
  unfold max_of. revert x. induction l as [|a l IH]; intros x; cbn [fold_left].
  - repeat split; [apply Qle_refl|contradiction|now left].
  - destruct (IH (max2 x a)) as (H1 & H2 & H3).
    destruct (max2_spec x a) as (Hx & Ha & Hm).
    repeat split.
    + eapply Qle_trans; eauto.
    + intros y [<-|Hy]; [eapply Qle_trans; eauto|now apply H2].
    + destruct H3 as [H3|H3]; [|right; now right].
      rewrite H3. destruct Hm as [ -> | -> ]; [now left|right; now left].
Qed.

(** The highest score over any part of the mapping: it never goes down,
    it bounds every score seen, and it is the start value or a score seen. *)
Lemma summary_fold_highest (b : Buckets) (d : list (string * Z)) (h : Q)
  (d' : list (string * Z)) (h' : Q) :
  fold_left summary_step b (d, h) = (d', h') ->
  (h <= h')%Q
  /\ (forall k l pc, In (k, l) b -> In pc l -> (risk_score pc <= h')%Q)
  /\ (h' = h \/ exists k l pc, In (k, l) b /\ In pc l /\ h' = risk_score pc).
Proof.
  revert d h. induction b as [|[k l] b IH]; intros d h; cbn [fold_left].
  - intros H. injection H as _ <-. repeat split; [apply Qle_refl|contradiction|now left].
  - unfold summary_step at 2. destruct l as [|case rest].
    + intros H. destruct (IH _ _ H) as (H1 & H2 & H3). repeat split; [exact H1| |].
      * intros k0 l0 pc [E|Hin] Hpc; [injection E as <- <-; contradiction|].
        eapply H2; eauto.
      * destruct H3 as [H3|(k0 & l0 & pc & Hin & Hpc & E)]; [now left|].
        right. exists k0, l0, pc. split; [now right|]. now split.
    + intros H. destruct (IH _ _ H) as (H1 & H2 & H3).
      set (m := max_of (risk_score case) (map risk_score rest)) in *.
      destruct (max_of_spec (map risk_score rest) (risk_score case))
        as (Hc & Hr & Hm). fold m in Hc, Hr, Hm.
      destruct (max2_spec h m) as (Hh & Hm2 & Hsel).
      repeat split.
      * eapply Qle_trans; eauto.
      * intros k0 l0 pc [E|Hin] Hpc; [|eapply H2; eauto].
        injection E as <- <-. eapply Qle_trans; [|exact H1].
        eapply Qle_trans; [|exact Hm2].
        destruct Hpc as [<-|Hpc]; [exact Hc|].
        apply Hr. now apply in_map.
      * destruct H3 as [H3|(k0 & l0 & pc & Hin & Hpc & E)].
        -- rewrite H3. destruct Hsel as [ -> | -> ]; [now left|].
           right. destruct Hm as [ -> |Hm].
           ++ exists k, (case :: rest), case. split; [now left|]. split; [now left|reflexivity].
           ++ apply in_map_iff in Hm. destruct Hm as (pc & E & Hpc).
              exists k, (case :: rest), pc. split; [now left|]. split; [now right|now symmetry].
        -- right. exists k0, l0, pc. split; [now right|]. now split.
Qed.

Lemma get_summary_fields (b : Buckets) (s : Summary) :
  get_summary b = Ok s ->
  total_cases s = sum_len b
  /\ risk_distribution s = fst (fold_left summary_step b ([], 0%Q))
  /\ highest_risk_score s = snd (fold_left summary_step b ([], 0%Q))
  /\ exists high medium clean ignored,
       dict_get "High" b = Some high /\ dict_get "Medium" b = Some medium
       /\ dict_get "Clean" b = Some clean /\ dict_get "Ignored" b = Some ignored
       /\ recommendations s =
          (if truthy high then ["High-risk cases require immediate review"] else [])
          ++ (if truthy medium then ["Medium-risk cases should be evaluated"] else [])
          ++ (if truthy clean then ["No concerning criminal history found"] else [])
          ++ (if truthy ignored
              then [(str_of_int (len ignored) ++ " cases ignored due to filters")%string]
              else []).
Proof.
  unfold get_summary, getitem.
  destruct (fold_left summary_step b ([], 0%Q)) as [d h].
  destruct (dict_get "High" b) as [high|]; [|discriminate].
  destruct (dict_get "Medium" b) as [medium|]; [|discriminate].
  destruct (dict_get "Clean" b) as [clean|]; [|discriminate].
  destruct (dict_get "Ignored" b) as [ignored|]; [|discriminate].
  intros H. injection H as <-. cbn [total_cases risk_distribution highest_risk_score
                                     recommendations fst snd].
  repeat split. exists high, medium, clean, ignored. repeat split.
  destruct (truthy high), (truthy medium), (truthy clean), (truthy ignored); reflexivity.
Qed.

(** X1. [get_summary] reads the keys "High", "Medium", "Clean" and
    "Ignored" with [d[k]]: it returns when the four are there, whether or
    not "Low" is, and raises [KeyError] when one of them is missing. *)
Theorem get_summary_keys (b : Buckets) :
  (dict_get "High" b <> None -> dict_get "Medium" b <> None ->
   dict_get "Clean" b <> None -> dict_get "Ignored" b <> None ->
   exists s, get_summary b = Ok s)
  /\
  (dict_get "High" b = None \/ dict_get "Medium" b = None
   \/ dict_get "Clean" b = None \/ dict_get "Ignored" b = None ->
   get_summary b = Raise KeyError).
Proof.
  unfold get_summary, getitem.
  destruct (fold_left summary_step b ([], 0%Q)) as [d h].
  destruct (dict_get "High" b) as [high|];
    destruct (dict_get "Medium" b) as [medium|];
    destruct (dict_get "Clean" b) as [clean|];
    destruct (dict_get "Ignored" b) as [ignored|];
    split; intros; try (eexists; reflexivity); try reflexivity;
    try contradiction; intuition discriminate.
Qed.

Lemma get_summary_keys_witness :
  (exists s, get_summary [("High", []); ("Medium", []); ("Clean", []); ("Ignored", [])] = Ok s)
  /\ get_summary [("Low", [speeding_case]); ("High", []); ("Medium", [])] = Raise KeyError.
Proof.
  split.
  - apply (proj1 (get_summary_keys
                    [("High", []); ("Medium", []); ("Clean", []); ("Ignored", [])]));
      discriminate.
  - apply (proj2 (get_summary_keys [("Low", [speeding_case]); ("High", []); ("Medium", [])])).
    right. right. left. reflexivity.
Defined.

(** X2. The [highest_risk_score] of a summary is at least 0 and at least
    the score of every entry of the mapping, and it is 0 or the score of
    one of the entries: a negative score never shows, and a mapping
    without entries gives 0. *)
Theorem get_summary_highest (b : Buckets) (s : Summary) :
  get_summary b = Ok s ->
  (0 <= highest_risk_score s)%Q
  /\ (forall k l pc, In (k, l) b -> In pc l -> (risk_score pc <= highest_risk_score s)%Q)
  /\ (highest_risk_score s = 0%Q
      \/ exists k l pc, In (k, l) b /\ In pc l /\ highest_risk_score s = risk_score pc).
Proof.
  intros H. apply get_summary_fields in H. destruct H as (_ & _ & Hh & _).
  destruct (fold_left summary_step b ([], 0%Q)) as [d h] eqn:E. cbn [snd] in Hh.
  rewrite Hh. exact (summary_fold_highest b [] 0%Q d h E).
Qed.

Lemma get_summary_highest_witness :
  exists s,
    get_summary sample_results = Ok s
    /\ (0 <= highest_risk_score s)%Q
    /\ (forall k l pc, In (k, l) sample_results -> In pc l ->
                       (risk_score pc <= highest_risk_score s)%Q)
    /\ (highest_risk_score s = 0%Q
        \/ exists k l pc, In (k, l) sample_results /\ In pc l
                          /\ highest_risk_score s = risk_score pc).
Proof.
  eexists. split; [vm_compute; reflexivity|].
  eapply (get_summary_highest sample_results). vm_compute. reflexivity.
Defined.

Lemma str_of_int_head (n : Z) :
  exists c s, str_of_int n = String c s /\ (c = "-"%char \/ digit c <> None).
Proof.
  unfold str_of_int, NilZero.string_of_int.
  destruct (Z.to_int n) as [u|u].
  - destruct u; cbn; eexists _, _; (split; [reflexivity|right; discriminate]).
  - eexists _, _. split; [reflexivity|now left].
Qed.

(** The text that counts the ignored cases is none of the fixed ones. *)
Lemma ignored_message_fresh (n : Z) (m : string) :
  In m ["High-risk cases require immediate review";
        "Medium-risk cases should be evaluated";
        "No concerning criminal history found"] ->
  (str_of_int n ++ " cases ignored due to filters")%string <> m.
Proof.
  destruct (str_of_int_head n) as (c & s & -> & Hc). cbn [String.append].
  intros [<-|[<-|[<-|[]]]] H; injection H as -> _;
    destruct Hc as [Hc|Hc]; (discriminate Hc || (apply Hc; reflexivity)).
Qed.

Lemma truthy_nonempty (k : string) (b : Buckets) (l : list ProcessedCase) :
  dict_get k b = Some l -> (truthy l = true <-> bucket_nonempty k b).
Proof.
  intros H. unfold bucket_nonempty. rewrite H. destruct l as [|pc l]; cbn; split.
  - discriminate.
  - intros (pc & l & E). discriminate.
  - eauto.
  - reflexivity.
Qed.

Lemma summary_recommendations_of_buckets (b : Buckets) (s : Summary) :
  get_summary b = Ok s ->
  (In "High-risk cases require immediate review" (recommendations s)
   <-> bucket_nonempty "High" b)
  /\ (In "Medium-risk cases should be evaluated" (recommendations s)
      <-> bucket_nonempty "Medium" b)
  /\ (In "No concerning criminal history found" (recommendations s)
      <-> bucket_nonempty "Clean" b)
  /\ (forall pc l,
        dict_get "Ignored" b = Some (pc :: l) ->
        In (str_of_int (len (pc :: l)) ++ " cases ignored due to filters")%string
           (recommendations s))
  /\ (bucket_empty "High" b -> bucket_empty "Medium" b -> bucket_empty "Clean" b ->
      bucket_empty "Ignored" b -> recommendations s = []).
Proof.
  intros H. apply get_summary_fields in H.
  destruct H as (_ & _ & _ & high & medium & clean & ignored & Hh & Hm & Hc & Hi & ->).
  pose proof (ignored_message_fresh (len ignored)) as Hfresh.
  rewrite <- (truthy_nonempty _ _ _ Hh), <- (truthy_nonempty _ _ _ Hm),
    <- (truthy_nonempty _ _ _ Hc).
  repeat split.
  - rewrite !in_app_iff. intros [Hin|[Hin|[Hin|Hin]]];
      destruct (truthy high), (truthy medium), (truthy clean), (truthy ignored);
      cbn in Hin; try reflexivity; try contradiction;
      destruct Hin as [Hin|[]]; try discriminate;
      exfalso; refine (Hfresh _ _ Hin); cbn; auto.
  - intros ->. now left.
  - rewrite !in_app_iff. intros [Hin|[Hin|[Hin|Hin]]];
      destruct (truthy high), (truthy medium), (truthy clean), (truthy ignored);
      cbn in Hin; try reflexivity; try contradiction;
      destruct Hin as [Hin|[]]; try discriminate;
      exfalso; refine (Hfresh _ _ Hin); cbn; auto.
  - intros ->. rewrite !in_app_iff. right. left. now left.
  - rewrite !in_app_iff. intros [Hin|[Hin|[Hin|Hin]]];
      destruct (truthy high), (truthy medium), (truthy clean), (truthy ignored);
      cbn in Hin; try reflexivity; try contradiction;
      destruct Hin as [Hin|[]]; try discriminate;
      exfalso; refine (Hfresh _ _ Hin); cbn; auto.
  - intros ->. rewrite !in_app_iff. right. right. left. now left.
  - intros pc l Hi'. rewrite Hi in Hi'. injection Hi' as ->.
    rewrite !in_app_iff. right. right. right. now left.
  - intros [E|E] [E1|E1] [E2|E2] [E3|E3]; try congruence.
    assert (high = []) by congruence. assert (medium = []) by congruence.
    assert (clean = []) by congruence. assert (ignored = []) by congruence.
    subst. reflexivity.
Qed.

(** X3. The recommendations of a summary: the High, Medium and Clean
    texts are there exactly when the bucket of that name holds an entry,
    the count of ignored cases when the Ignored bucket does; the Low bucket
    gives none, so a mapping with Low entries only has no recommendation. *)
Theorem get_summary_recommendations (b : Buckets) (s : Summary) :
  get_summary b = Ok s ->
  (In "High-risk cases require immediate review" (recommendations s)
   <-> bucket_nonempty "High" b)
  /\ (In "Medium-risk cases should be evaluated" (recommendations s)
      <-> bucket_nonempty "Medium" b)
  /\ (In "No concerning criminal history found" (recommendations s)
      <-> bucket_nonempty "Clean" b)
  /\ (forall pc l,
        dict_get "Ignored" b = Some (pc :: l) ->
        In (str_of_int (len (pc :: l)) ++ " cases ignored due to filters")%string
           (recommendations s))
  /\ (bucket_empty "High" b -> bucket_empty "Medium" b -> bucket_empty "Clean" b ->
      bucket_empty "Ignored" b -> recommendations s = []).
Proof. exact (summary_recommendations_of_buckets b s). Qed.

Lemma get_summary_recommendations_witness :
  exists s,
    get_summary [("Ignored", []); ("Low", [speeding_case]); ("Medium", []); ("High", []);
                 ("Clean", [])] = Ok s
    /\ recommendations s = [].
Proof.
  destruct (get_summary [("Ignored", []); ("Low", [speeding_case]); ("Medium", []);
                         ("High", []); ("Clean", [])]) as [s|e] eqn:E;
    [|vm_compute in E; discriminate].
  exists s. split; [reflexivity|].
  destruct (get_summary_recommendations _ s E) as (_ & _ & _ & _ & H).
  apply H; right; reflexivity.
Defined.

Lemma dict_get_app {V} (k : string) (d1 d2 : list (string * V)) :
  dict_get k (d1 ++ d2)
  = match dict_get k d1 with Some v => Some v | None => dict_get k d2 end.
Proof.
  induction d1 as [|[k' v] d1 IH]; [reflexivity|]. cbn.
  destruct (String.eqb k' k); [reflexivity|exact IH].
Qed.

Lemma dict_get_not_key {V} (k : string) (d : list (string * V)) :
  ~ In k (keys d) -> dict_get k d = None.
Proof.
  induction d as [|[k' v] d IH]; [reflexivity|]. cbn. intros H.
  destruct (String.eqb k' k) eqn:E.
  - apply String.eqb_eq in E. exfalso. apply H. now left.
  - apply IH. intros Hin. apply H. now right.
Qed.

Lemma summary_fold_distribution (b : Buckets) (d : list (string * Z)) (h : Q) :
  NoDup (keys d ++ keys b) ->
  fst (fold_left summary_step b (d, h))
  = d ++ map (fun kv => (fst kv, len (snd kv))) b.
Proof.
  revert d h. induction b as [|[k l] b IH]; intros d h Hnd; cbn [fold_left map].
  - now rewrite app_nil_r.
  - assert (Hk : dict_get k d = None).
    { apply dict_get_not_key. cbn in Hnd. apply NoDup_remove_2 in Hnd.
      intros Hin. apply Hnd. apply in_or_app. now left. }
    assert (Hstep : exists h', summary_step (d, h) (k, l) = (d ++ [(k, len l)], h')).
    { unfold summary_step, dict_setitem. rewrite Hk. destruct l; eauto. }
    destruct Hstep as (h' & ->). rewrite IH.
    + now rewrite <- app_assoc.
    + unfold keys in *. rewrite map_app. cbn [map fst]. rewrite <- app_assoc. exact Hnd.
Qed.

Lemma sum_len_concat (b : Buckets) (a : Z) :
  fold_left (fun acc kv => acc + len (snd kv)) b a = a + len (List.concat (map snd b)).
Proof.
  revert a. induction b as [|[k l] b IH]; intros a; cbn [fold_left map List.concat snd].
  - unfold len. cbn. lia.
  - rewrite IH. unfold len. rewrite List.length_app. lia.
Qed.

Lemma sum_counts_concat (b : Buckets) :
  fold_right Z.add 0 (map snd (map (fun kv => (fst kv, len (snd kv))) b))
  = len (List.concat (map snd b)).
Proof.
  induction b as [|[k l] b IH]; [reflexivity|]. cbn [map fold_right List.concat snd fst].
  rewrite IH. unfold len. rewrite List.length_app. lia.
Qed.

Lemma summary_total_of_buckets (b : Buckets) (s : Summary) :
  get_summary b = Ok s -> total_cases s = len (List.concat (map snd b)).
Proof.
  intros H. apply get_summary_fields in H. destruct H as (Ht & _).
  rewrite Ht. unfold sum_len. rewrite sum_len_concat. lia.
Qed.

(** X4. For a mapping with distinct keys, [risk_distribution] lists the
    keys of the mapping in their order, each with the size of its bucket,
    and [total_cases] is the number of entries of the mapping, which is the
    sum of the sizes listed. *)
Theorem get_summary_counts (b : Buckets) (s : Summary) :
  NoDup (keys b) ->
  get_summary b = Ok s ->
  risk_distribution s = map (fun kv => (fst kv, len (snd kv))) b
  /\ total_cases s = len (List.concat (map snd b))
  /\ total_cases s = fold_right Z.add 0 (map snd (risk_distribution s)).
Proof.
  intros Hnd H. pose proof (summary_total_of_buckets b s H) as Ht'.
  apply get_summary_fields in H. destruct H as (_ & Hd & _).
  assert (Hd' : risk_distribution s = map (fun kv => (fst kv, len (snd kv))) b).
  { rewrite Hd. rewrite summary_fold_distribution; [reflexivity|exact Hnd]. }
  repeat split; [exact Hd'|exact Ht'|].
  rewrite Hd', Ht'. symmetry. apply sum_counts_concat.
Qed.

Lemma get_summary_counts_witness :
  exists s,
    get_summary sample_results = Ok s
    /\ risk_distribution s = map (fun kv => (fst kv, len (snd kv))) sample_results
    /\ total_cases s = len (List.concat (map snd sample_results))
    /\ total_cases s = fold_right Z.add 0 (map snd (risk_distribution s)).
Proof.
  eexists. split; [vm_compute; reflexivity|].
  eapply (get_summary_counts sample_results); [|vm_compute; reflexivity].
  repeat constructor; cbn; intuition discriminate.
Defined.

Lemma buckets_of_keys_NoDup (es clean : list ProcessedCase) :
  NoDup (keys (buckets_of es clean)).
Proof. repeat constructor; cbn; intuition discriminate. Qed.

Lemma emitted_count (self : CriminalCheckProcessor) (clk : Clock)
  (cs : list (Charge.t * string)) (es clean : list ProcessedCase) :
  Forall2 (emitted_from self clk) cs es ->
  len (charge_entries (buckets_of es clean)) = len cs.
Proof.
  intros HF. unfold len.
  rewrite (Permutation_length (charge_entries_perm _ _ _ _ clean HF)).
  now rewrite (Forall2_length HF).
Qed.

(** X5. The summary of a run that returns: [get_summary] does not raise
    on it; [total_cases] is the number of charges of the enabled groups,
    except that a run without any such charge counts its synthetic Clean
    entry as one case; and "No concerning criminal history found" is
    recommended exactly when there was no such charge. *)
Theorem summary_of_run (self : CriminalCheckProcessor) (data : Document.t)
  (clk : Clock) (t : nat) (r : Buckets) (t' : nat) :
  process_criminal_check self data clk t = (Ok r, t') ->
  exists s,
    get_summary r = Ok s
    /\ total_cases s
       = match enabled_charges self data with
         | [] => 1
         | _ :: _ => len (enabled_charges self data)
         end
    /\ (In "No concerning criminal history found" (recommendations s)
        <-> enabled_charges self data = []).
Proof.
  intros H. apply process_criminal_check_buckets in H.
  destruct H as (es & clean & HF & -> & Hclean).
  destruct (get_summary (buckets_of es clean)) as [s|e] eqn:E.
  2:{ exfalso. unfold get_summary, getitem in E.
      destruct (fold_left summary_step (buckets_of es clean) ([], 0%Q)) as [d h].
      cbn in E. discriminate. }
  exists s. split; [reflexivity|].
  pose proof (summary_total_of_buckets _ s E) as Ht.
  destruct (summary_recommendations_of_buckets _ s E) as (_ & _ & Hrec & _).
  pose proof (emitted_count _ _ _ _ clean HF) as Hn.
  assert (Htot : total_cases s = len (enabled_charges self data) + len clean).
  { rewrite Ht, <- Hn. unfold charge_entries, bucket, buckets_of, len.
    cbn [map snd List.concat dict_get get String.eqb Ascii.eqb Bool.eqb].
    rewrite !List.length_app. cbn [List.length]. lia. }
  assert (Hempty : es = [] <-> enabled_charges self data = []).
  { split; intros Hx; rewrite Hx in HF; inversion HF; reflexivity. }
  split.
  - rewrite Htot. destruct Hclean as [(-> & Hes)|(-> & Hcl)].
    + destruct (enabled_charges self data) as [|c cs] eqn:Ec.
      * exfalso. apply Hes. now apply Hempty.
      * unfold len. cbn [List.length]. lia.
    + rewrite (proj1 Hempty eq_refl). destruct Hcl as [ -> | -> ]; reflexivity.
  - rewrite Hrec, <- Hempty. unfold bucket_nonempty, buckets_of.
    cbn [dict_get String.eqb Ascii.eqb Bool.eqb]. split.
    + intros (pc & l & Hc). injection Hc as ->.
      destruct Hclean as [(Hc & _)|(He & _)]; [discriminate|exact He].
    + intros ->. destruct Hclean as [(_ & Hes)|(_ & [ -> | -> ])];
        [now exfalso|eauto|eauto].
Qed.

Lemma summary_of_run_witness :
  exists s,
    get_summary sample_results = Ok s
    /\ total_cases s
       = match enabled_charges sample_processor sample_data with
         | [] => 1
         | _ :: _ => len (enabled_charges sample_processor sample_data)
         end
    /\ (In "No concerning criminal history found" (recommendations s)
        <-> enabled_charges sample_processor sample_data = []).
Proof.
  apply (summary_of_run sample_processor sample_data sample_clock 0%nat
           sample_results 2%nat).
  vm_compute. reflexivity.
Defined.

(** ** The recommendation *)

Lemma generate_recommendation_opens (level : RiskLevel) (b : Buckets) :
  opens_with (decision_of level) (_generate_recommendation level b).
Proof.
  unfold opens_with, _generate_recommendation.
  destruct level; cbn [RiskLevel_eqb]; try reflexivity.
  destruct (0 <? count_of "Ignored" b); reflexivity.
Qed.

(** A recommendation opens with the words of one decision only. *)
Lemma opens_with_iff (d : Decision) (level : RiskLevel) (b : Buckets) :
  opens_with d (_generate_recommendation level b) <-> d = decision_of level.
Proof.
  split; [|intros ->; apply generate_recommendation_opens].
  unfold opens_with, _generate_recommendation.
  destruct level; cbn [RiskLevel_eqb];
    try destruct (0 <? count_of "Ignored" b);
    destruct d; cbn; intros H; (reflexivity || discriminate).
Qed.

Lemma calculate_overall_risk_cases (b : Buckets) :
  _calculate_overall_risk b
  = if get_truthy "High" b then HIGH
    else if get_truthy "Medium" b then MEDIUM
    else if get_truthy "Low" b then LOW
    else CLEAN.
Proof.
  unfold _calculate_overall_risk.
  destruct (get_truthy "High" b); [reflexivity|].
  destruct (get_truthy "Medium" b); [reflexivity|].
  destruct (get_truthy "Low" b); [reflexivity|].
  now destruct (get_truthy "Ignored" b && _), (get_truthy "Clean" b).
Qed.

(** X6. The recommendation the engine derives from a mapping, that is
    [_generate_recommendation] at the level of [_calculate_overall_risk]:
    it opens with REJECT exactly when the High bucket holds an entry, with
    REVIEW REQUIRED exactly when High is empty and Medium is not, with
    CONDITIONAL APPROVAL exactly when both are empty and Low is not, with
    APPROVE exactly when the three are empty, and never with MANUAL REVIEW,
    which [_generate_recommendation] keeps for the level Ignored alone. *)
Theorem recommendation_of_overall_risk (b : Buckets) :
  (opens_with Reject (_generate_recommendation (_calculate_overall_risk b) b)
   <-> bucket_nonempty "High" b)
  /\ (opens_with ReviewRequired (_generate_recommendation (_calculate_overall_risk b) b)
      <-> bucket_empty "High" b /\ bucket_nonempty "Medium" b)
  /\ (opens_with ConditionalApproval
        (_generate_recommendation (_calculate_overall_risk b) b)
      <-> bucket_empty "High" b /\ bucket_empty "Medium" b /\ bucket_nonempty "Low" b)
  /\ (opens_with Approve (_generate_recommendation (_calculate_overall_risk b) b)
      <-> bucket_empty "High" b /\ bucket_empty "Medium" b /\ bucket_empty "Low" b)
  /\ ~ opens_with ManualReview (_generate_recommendation (_calculate_overall_risk b) b)
  /\ (forall level, opens_with ManualReview (_generate_recommendation level b)
                    <-> level = IGNORED).
Proof.
  rewrite <- !get_truthy_nonempty, <- !get_truthy_empty.
  assert (Hl : forall level, opens_with ManualReview (_generate_recommendation level b)
                             <-> level = IGNORED).
  { intros level. rewrite opens_with_iff.
    destruct level; cbn; split; intros H; (reflexivity || discriminate). }
  rewrite !opens_with_iff, calculate_overall_risk_cases.
  destruct (get_truthy "High" b), (get_truthy "Medium" b), (get_truthy "Low" b);
    cbn [decision_of]; repeat split; intros; try tauto; try discriminate;
    try reflexivity; try apply Hl; try (apply Hl; assumption);
    intuition discriminate.
Qed.

Lemma get_truthy_buckets_of (es clean : list ProcessedCase) :
  get_truthy "High" (buckets_of es clean) = truthy (filter (has_level HIGH) es)
  /\ get_truthy "Medium" (buckets_of es clean) = truthy (filter (has_level MEDIUM) es)
  /\ get_truthy "Low" (buckets_of es clean) = truthy (filter (has_level LOW) es).
Proof. repeat split. Qed.

(** X7. When a run returns with nothing in Low, Medium and High, the
    engine's recommendation is an approval: it reads that no concerning
    record was found when the enabled groups hold no charge, and else it
    counts every charge of the enabled groups as outside the criteria. *)
Theorem recommendation_of_filtered_run (self : CriminalCheckProcessor)
  (data : Document.t) (clk : Clock) (t : nat) (r : Buckets) (t' : nat) :
  process_criminal_check self data clk t = (Ok r, t') ->
  bucket "Low" r = [] -> bucket "Medium" r = [] -> bucket "High" r = [] ->
  _generate_recommendation (_calculate_overall_risk r) r
  = match enabled_charges self data with
    | [] => "APPROVE - Clean background check with no concerning records found."
    | _ :: _ =>
        ("APPROVE - Clean background check. "
           ++ str_of_int (len (enabled_charges self data))
           ++ " case(s) were outside assessment criteria.")%string
    end.
Proof.
  intros H. apply process_criminal_check_buckets in H.
  destruct H as (es & clean & HF & -> & _).
  change (bucket "Low" (buckets_of es clean)) with (filter (has_level LOW) es).
  change (bucket "Medium" (buckets_of es clean)) with (filter (has_level MEDIUM) es).
  change (bucket "High" (buckets_of es clean)) with (filter (has_level HIGH) es).
  intros HL HM HH.
  pose proof (emitted_count _ _ _ _ clean HF) as Hn.
  rewrite charge_entries_buckets_of, HL, HM, HH, !app_nil_r in Hn.
  rewrite calculate_overall_risk_cases.
  destruct (get_truthy_buckets_of es clean) as (-> & -> & ->).
  rewrite HL, HM, HH. cbn [truthy].
  unfold _generate_recommendation. cbn [RiskLevel_eqb].
  change (count_of "Ignored" (buckets_of es clean))
    with (len (filter (has_level IGNORED) es)).
  rewrite Hn. destruct (enabled_charges self data) as [|c cs]; [reflexivity|].
  assert (Hpos : (0 <? len (c :: cs)) = true).
  { apply Z.ltb_lt. unfold len. cbn [List.length]. lia. }
  now rewrite Hpos.
Qed.

Lemma recommendation_of_filtered_run_witness :
  _generate_recommendation
    (_calculate_overall_risk (buckets_of [unclassified_case] []))
    (buckets_of [unclassified_case] [])
  = "APPROVE - Clean background check. 1 case(s) were outside assessment criteria.".
Proof.
  apply (recommendation_of_filtered_run sample_processor
           {| Document.results :=
                Some [ mk_group "Criminal/traffic" "16-2016-CT-009299-AXXX-MA"
                         [unclassified_charge] ] |}
           sample_clock 0%nat (buckets_of [unclassified_case] []) 0%nat);
    vm_compute; reflexivity.
Defined.

(** ** More on the scorer *)

Lemma pair_get_In {V} (k : string * string) (d : list ((string * string) * V)) (v : V) :
  pair_get k d = Some v -> In v (map snd d).
Proof.
  induction d as [|[[c s] v'] d IH]; [discriminate|]. cbn.
  destruct (String.eqb c (fst k) && String.eqb s (snd k)).
  - intros H. injection H as ->. now left.
  - intros H. right. now apply IH.
Qed.

Lemma spec_tier_scored (category subcategory : string) :
  spec_tier category subcategory <> TierUnscored.
Proof.
  unfold spec_tier.
  destruct (pair_get (lower category, lower subcategory) tier_table) as [t|] eqn:E1.
  - apply pair_get_In in E1. cbn in E1. intuition (subst; discriminate).
  - destruct (pair_get (lower category, "") tier_table) as [t|] eqn:E2; [|discriminate].
    apply pair_get_In in E2. cbn in E2. intuition (subst; discriminate).
Qed.

(** X8. [_get_csv_risk_score] answers "High", "Med" or "Low" and nothing
    else, so the base score read from [risk_base_scores] is 30, 15 or 5:
    the entry "Unscored" (10) and the default of the lookup are never
    used. *)
Theorem get_csv_risk_score_range (category subcategory : string) :
  (_get_csv_risk_score category subcategory = "High"
   \/ _get_csv_risk_score category subcategory = "Med"
   \/ _get_csv_risk_score category subcategory = "Low")
  /\ exists v,
       dict_get (_get_csv_risk_score category subcategory) risk_base_scores = Some v
       /\ (v = 30 \/ v = 15 \/ v = 5).
Proof.
  rewrite get_csv_risk_score_tier.
  pose proof (spec_tier_scored category subcategory) as H.
  destruct (spec_tier category subcategory); cbn; try contradiction;
    (split; [tauto|eexists; split; [reflexivity|tauto]]).
Qed.

Lemma round_half_even_mono (x y : Q) :
  (x <= y)%Q -> round_half_even x <= round_half_even y.
Proof.
  intros Hxy. pose proof (Qfloor_resp_le _ _ Hxy) as Hf.
  unfold round_half_even.
  destruct (Z.eq_dec (Qfloor x) (Qfloor y)) as [E|E].
  - rewrite <- E.
    destruct (Qcompare_spec (x - inject_Z (Qfloor x)) (1 # 2)) as [Hx|Hx|Hx];
      destruct (Qcompare_spec (y - inject_Z (Qfloor x)) (1 # 2)) as [Hy|Hy|Hy];
      try destruct (Z.even (Qfloor x)); try lia; exfalso; lra.
  - destruct (x - inject_Z (Qfloor x) ?= 1 # 2)%Q;
      destruct (y - inject_Z (Qfloor y) ?= 1 # 2)%Q;
      try destruct (Z.even (Qfloor x)); try destruct (Z.even (Qfloor y)); lia.
Qed.

(** Rounding keeps the order. *)
Lemma round2_mono (x y : Q) : (x <= y)%Q -> (round2 x <= round2 y)%Q.
Proof.
  intros H. unfold round2. rewrite !Qred_correct.
  assert (Hm : (x * 100 <= y * 100)%Q) by (apply Qmult_le_compat_r; [exact H|discriminate]).
  apply round_half_even_mono in Hm. unfold Qle. cbn. lia.
Qed.

Lemma round2_inject_Z (n : Z) : (round2 (inject_Z n) == inject_Z n)%Q.
Proof.
  unfold round2. rewrite Qred_correct.
  rewrite (round_half_even_Z (n * 100)).
  - unfold Qeq. cbn. lia.
  - unfold Qeq. cbn. lia.
Qed.

Lemma spec_base_score_bounds (category subcategory : string) :
  5 <= spec_base_score category subcategory <= 35.
Proof.
  unfold spec_base_score. destruct (String.eqb (lower category) "unclassified"); [lia|].
  destruct (spec_tier category subcategory); cbn; lia.
Qed.

Lemma spec_disposition_multiplier_bounds (impact : string) :
  (1 # 2 <= spec_disposition_multiplier impact <= 3 # 2)%Q.
Proof.
  unfold spec_disposition_multiplier.
  repeat match goal with
         | |- context [if ?b then _ else _] => destruct b
         end; split; discriminate.
Qed.

Lemma spec_recency_multiplier_bounds (d : Z) :
  (4 # 5 <= spec_recency_multiplier d <= 3 # 2)%Q.
Proof.
  unfold spec_recency_multiplier.
  repeat match goal with
         | |- context [if ?b then _ else _] => destruct b
         end; split; discriminate.
Qed.

(** The product under the rounding, between the weight and 39.375 times
    the weight. *)
Lemma score_product_bounds (base w : Z) (dm rm : Q) :
  5 <= base <= 35 -> 0 <= w ->
  (1 # 2 <= dm <= 3 # 2)%Q -> (4 # 5 <= rm <= 3 # 2)%Q ->
  (inject_Z w <= inject_Z base * (inject_Z w / 2) * dm * rm
   <= (315 # 8) * inject_Z w)%Q.
Proof.
  intros [Hb1 Hb2] Hw [Hd1 Hd2] [Hr1 Hr2].
  assert (Hw' : (0 <= inject_Z w / 2)%Q).
  { apply Qmult_le_0_compat; [|discriminate].
    change 0%Q with (inject_Z 0). now rewrite <- Zle_Qle. }
  assert (HB1 : (5 <= inject_Z base)%Q)
    by (change 5%Q with (inject_Z 5); now rewrite <- Zle_Qle).
  assert (HB2 : (inject_Z base <= 35)%Q)
    by (change 35%Q with (inject_Z 35); now rewrite <- Zle_Qle).
  split.
  - setoid_replace (inject_Z w) with (5 * (inject_Z w / 2) * (1 # 2) * (4 # 5))%Q at 1
      by field.
    apply Qmult_le_compat_nonneg; [|split; [discriminate|exact Hr1]].
    split.
    + apply Qmult_le_0_compat; [|discriminate].
      apply Qmult_le_0_compat; [discriminate|exact Hw'].
    + apply Qmult_le_compat_nonneg; [|split; [discriminate|exact Hd1]].
      split; [apply Qmult_le_0_compat; [discriminate|exact Hw']|].
      apply Qmult_le_compat_r; [exact HB1|exact Hw'].
  - setoid_replace ((315 # 8) * inject_Z w)%Q
      with (35 * (inject_Z w / 2) * (3 # 2) * (3 # 2))%Q by field.
    assert (H0 : (0 <= inject_Z base * (inject_Z w / 2))%Q).
    { apply Qmult_le_0_compat; [|exact Hw'].
      eapply Qle_trans; [|exact HB1]. discriminate. }
    apply Qmult_le_compat_nonneg; [|split; [|exact Hr2]].
    + split.
      * apply Qmult_le_0_compat; [exact H0|]. eapply Qle_trans; [|exact Hd1]. discriminate.
      * apply Qmult_le_compat_nonneg; [|split; [|exact Hd2]].
        -- split; [exact H0|]. apply Qmult_le_compat_r; [exact HB2|exact Hw'].
        -- eapply Qle_trans; [|exact Hd1]. discriminate.
    + eapply Qle_trans; [|exact Hr1]. discriminate.
Qed.

(** The shape of what [_process_charge] returns for an accepted charge. *)
Lemma process_charge_accepted (self : CriminalCheckProcessor) (charge : Charge.t)
  (cn : string) (clk : Clock) (t : nat) (pc : ProcessedCase) (t' : nat) :
  _process_charge self charge cn clk t = (Ok (pc, true), t') ->
  exists disp,
    first_disposition_type charge = Ok disp
    /\ pc = charge_case charge cn disp
              (_determine_risk_level self (eligible_score self charge disp (clk t))
                 (get (Charge.category charge) "unclassified"))
              (eligible_score self charge disp (clk t)) "Processed successfully".
Proof.
  rewrite process_charge_eq.
  destruct (first_disposition_type charge) as [disp|e]; [|discriminate].
  unfold spec_process_charge.
  destruct (verdict self charge disp); intros H; try discriminate H.
  injection H as Hpc _. exists disp. split; [reflexivity|now symmetry].
Qed.

Lemma accepted_score_bounds_aux (self : CriminalCheckProcessor) (charge : Charge.t)
  (cn : string) (clk : Clock) (t : nat) (pc : ProcessedCase) (t' : nat) :
  _process_charge self charge cn clk t = (Ok (pc, true), t') ->
  0 <= _get_charge_type_weight self (charge_type pc) ->
  (inject_Z (_get_charge_type_weight self (charge_type pc)) <= risk_score pc
   <= round2 ((315 # 8) * inject_Z (_get_charge_type_weight self (charge_type pc))))%Q.
Proof.
  intros H. apply process_charge_accepted in H. destruct H as (disp & _ & ->).
  cbn [charge_case charge_type risk_score]. intros Hw.
  unfold eligible_score, spec_charge_score, spec_risk_score.
  change (spec_severity_weight (config self) (get (Charge.type charge) "unknown"))
    with (_get_charge_type_weight self (get (Charge.type charge) "unknown")).
  set (w := _get_charge_type_weight self (get (Charge.type charge) "unknown")) in *.
  destruct (score_product_bounds
              (spec_base_score (get (Charge.category charge) "unclassified")
                               (get (Charge.subcategory charge) ""))
              w
              (spec_disposition_multiplier (spec_risk_impact (config self) disp))
              (spec_recency_multiplier
                 (days_between (clk t) (offense_datetime charge)))
              (spec_base_score_bounds _ _) Hw
              (spec_disposition_multiplier_bounds _)
              (spec_recency_multiplier_bounds _)) as [Hlo Hhi].
  split.
  - rewrite <- (round2_inject_Z w) at 1. now apply round2_mono.
  - now apply round2_mono.
Qed.

(** X9. The score of an accepted charge whose severity weight [w] is not
    negative lies between [w] and 39.375 [w] rounded to two decimals: the
    least product of the factors is 5 * (w/2) * 0.5 * 0.8 and the greatest
    35 * (w/2) * 1.5 * 1.5. *)
Theorem accepted_score_bounds (self : CriminalCheckProcessor) (charge : Charge.t)
  (cn : string) (clk : Clock) (t : nat) (pc : ProcessedCase) (t' : nat) :
  _process_charge self charge cn clk t = (Ok (pc, true), t') ->
  0 <= _get_charge_type_weight self (charge_type pc) ->
  (inject_Z (_get_charge_type_weight self (charge_type pc)) <= risk_score pc
   <= round2 ((315 # 8) * inject_Z (_get_charge_type_weight self (charge_type pc))))%Q.
Proof. exact (accepted_score_bounds_aux self charge cn clk t pc t'). Qed.

Lemma accepted_score_bounds_witness :
  (inject_Z (_get_charge_type_weight sample_processor (charge_type speeding_case))
   <= risk_score speeding_case
   <= round2 ((315 # 8)
              * inject_Z (_get_charge_type_weight sample_processor
                            (charge_type speeding_case))))%Q.
Proof.
  apply (accepted_score_bounds sample_processor speeding_charge "2022TR030504 A"
           sample_clock 0%nat speeding_case 1%nat).
  - vm_compute. reflexivity.
  - vm_compute. discriminate.
Defined.

(** X10. An accepted charge of category "unclassified", in any letter
    case, is High whenever the severity weight of its type is at least 1,
    whatever the thresholds.  With a severity weight of 0 every accepted
    charge scores 0, the rule for "unclassified" does not apply, and under
    thresholds that are all positive the charge is Low. *)
Theorem accepted_unclassified_high (self : CriminalCheckProcessor) (charge : Charge.t)
  (cn : string) (clk : Clock) (t : nat) (pc : ProcessedCase) (t' : nat) :
  _process_charge self charge cn clk t = (Ok (pc, true), t') ->
  (lower (category pc) = "unclassified" ->
   1 <= _get_charge_type_weight self (charge_type pc) ->
   risk_level pc = HIGH)
  /\
  (_get_charge_type_weight self (charge_type pc) = 0 ->
   risk_score pc = 0%Q
   /\ ((0 < Thresholds.critical_risk_min (Config.thresholds (config self)))%Q ->
       (0 < Thresholds.high_risk_min (Config.thresholds (config self)))%Q ->
       (0 < Thresholds.medium_risk_min (Config.thresholds (config self)))%Q ->
       risk_level pc = LOW)).
Proof.
  intros H. split.
  - intros Hc Hw.
    assert (Hw0 : 0 <= _get_charge_type_weight self (charge_type pc)) by lia.
    destruct (accepted_score_bounds_aux self charge cn clk t pc t' H Hw0) as [Hlo _].
    apply process_charge_accepted in H. destruct H as (disp & _ & ->).
    cbn [charge_case category charge_type risk_level risk_score] in *.
    unfold _determine_risk_level. rewrite Hc.
    assert (Hpos : Qlt_bool 0 (eligible_score self charge disp (clk t)) = true).
    { apply Qlt_bool_iff. eapply Qlt_le_trans; [|exact Hlo].
      change 0%Q with (inject_Z 0). rewrite <- Zlt_Qlt. lia. }
    now rewrite Hpos.
  - intros Hw. apply process_charge_accepted in H. destruct H as (disp & _ & ->).
    cbn [charge_case charge_type risk_score risk_level] in *.
    assert (Hs : eligible_score self charge disp (clk t) = 0%Q).
    { unfold eligible_score, spec_charge_score, spec_risk_score.
      change (spec_severity_weight (config self) (get (Charge.type charge) "unknown"))
        with (_get_charge_type_weight self (get (Charge.type charge) "unknown")).
      rewrite Hw. unfold round2. rewrite (round_half_even_Z 0); [reflexivity|].
      change (inject_Z 0) with 0%Q. field. }
    rewrite Hs. split; [reflexivity|]. intros H1 H2 H3.
    apply Qle_bool_false_iff in H1, H2, H3.
    unfold _determine_risk_level. rewrite H1, H2, H3, andb_false_r.
    destruct (Qle_bool (Thresholds.low_risk_min (Config.thresholds (config self))) 0);
      reflexivity.
Qed.

Lemma accepted_unclassified_high_witness : risk_level unclassified_petty_case = HIGH.
Proof.
  apply (proj1 (accepted_unclassified_high sample_processor unclassified_petty_charge
                  "2022-CR-9" sample_clock 0%nat unclassified_petty_case 1%nat
                  ltac:(vm_compute; reflexivity))).
  - reflexivity.
  - vm_compute. discriminate.
Defined.

(** ** More on the entries of a run *)

(** X11. The buckets keep the order of the document: the entries of a
    run that returns are those of the charges of the enabled groups taken
    in document order, and each of Ignored, Low, Medium and High holds the
    entries of its level in that order. *)
Theorem buckets_in_document_order (self : CriminalCheckProcessor) (data : Document.t)
  (clk : Clock) (t : nat) (r : Buckets) (t' : nat) :
  process_criminal_check self data clk t = (Ok r, t') ->
  exists es,
    Forall2 (emitted_from self clk) (enabled_charges self data) es
    /\ bucket "Ignored" r = filter (has_level IGNORED) es
    /\ bucket "Low" r = filter (has_level LOW) es
    /\ bucket "Medium" r = filter (has_level MEDIUM) es
    /\ bucket "High" r = filter (has_level HIGH) es.
Proof.
  intros H. apply process_criminal_check_buckets in H.
  destruct H as (es & clean & HF & -> & _). exists es. repeat split. exact HF.
Qed.

Lemma buckets_in_document_order_witness :
  exists es,
    Forall2 (emitted_from sample_processor sample_clock)
            (enabled_charges sample_processor sample_data) es
    /\ bucket "Ignored" sample_results = filter (has_level IGNORED) es
    /\ bucket "Low" sample_results = filter (has_level LOW) es
    /\ bucket "Medium" sample_results = filter (has_level MEDIUM) es
    /\ bucket "High" sample_results = filter (has_level HIGH) es.
Proof.
  apply (buckets_in_document_order sample_processor sample_data sample_clock 0%nat
           sample_results 2%nat).
  vm_compute. reflexivity.
Defined.

Lemma charge_entries_In (es clean : list ProcessedCase) (pc : ProcessedCase) :
  In pc (charge_entries (buckets_of es clean)) -> In pc es.
Proof.
  rewrite charge_entries_buckets_of, !in_app_iff, !filter_In. tauto.
Qed.

Lemma emitted_fields (self : CriminalCheckProcessor) (clk : Clock)
  (c : Charge.t * string) (pc : ProcessedCase) :
  emitted_from self clk c pc ->
  exists disp level score why,
    first_disposition_type (fst c) = Ok disp
    /\ pc = charge_case (fst c) (snd c) disp level score why
    /\ ((level = IGNORED
         /\ (why = ("Outside " ++ str_of_int (lookback_years self)
                      ++ "-year lookback period")%string
             \/ why = ("Charge type '" ++ get (Charge.type (fst c)) "unknown"
                         ++ "' not enabled in configuration")%string
             \/ why = ("Disposition '" ++ disp
                         ++ "' not enabled in configuration")%string))
        \/ (level <> IGNORED /\ why = "Processed successfully")).
Proof.
  intros (t & inc & t' & H). rewrite process_charge_eq in H.
  destruct (first_disposition_type (fst c)) as [disp|e]; [|discriminate].
  unfold spec_process_charge in H. exists disp.
  destruct (verdict self (fst c) disp); injection H as Hpc _ _; subst pc;
    do 3 eexists; (split; [reflexivity|split; [reflexivity|]]);
    try (left; split; [reflexivity|cbn [verdict_reason]; tauto]).
  right. split; [|reflexivity].
  destruct (determine_risk_level_range self (eligible_score self (fst c) disp (clk t))
              (get (Charge.category (fst c)) "unclassified")) as [E|[E|E]];
    rewrite E; discriminate.
Qed.

(** X12. Every entry a run files under Ignored, Low, Medium or High
    comes from a charge of an enabled group and carries that charge's data:
    the case number of its case, and the description, offense date, type,
    category and subcategory of the charge, each with the default of its
    missing key, and the type of the charge's first disposition. *)
Theorem entry_carries_charge (self : CriminalCheckProcessor) (data : Document.t)
  (clk : Clock) (t : nat) (r : Buckets) (t' : nat) (pc : ProcessedCase) :
  process_criminal_check self data clk t = (Ok r, t') ->
  In pc (charge_entries r) ->
  exists charge cn,
    In (charge, cn) (enabled_charges self data)
    /\ case_number pc = cn
    /\ charge_description pc = get (Charge.description charge) ""
    /\ offense_date pc = get (Charge.offense_date charge) ""
    /\ charge_type pc = get (Charge.type charge) "unknown"
    /\ category pc = get (Charge.category charge) "unclassified"
    /\ subcategory pc = get (Charge.subcategory charge) ""
    /\ first_disposition_type charge = Ok (disposition pc).
Proof.
  intros H Hin. apply process_criminal_check_buckets in H.
  destruct H as (es & clean & HF & -> & _). apply charge_entries_In in Hin.
  destruct (Forall2_In_r _ _ _ _ HF Hin) as ([charge cn] & Hc & Hem).
  apply emitted_fields in Hem. destruct Hem as (disp & level & score & why & Hd & -> & _).
  exists charge, cn. cbn [fst snd] in *. repeat split; assumption.
Qed.

Lemma entry_carries_charge_witness :
  exists charge cn,
    In (charge, cn) (enabled_charges sample_processor sample_data)
    /\ case_number license_case = cn
    /\ charge_description license_case = get (Charge.description charge) ""
    /\ offense_date license_case = get (Charge.offense_date charge) ""
    /\ charge_type license_case = get (Charge.type charge) "unknown"
    /\ category license_case = get (Charge.category charge) "unclassified"
    /\ subcategory license_case = get (Charge.subcategory charge) ""
    /\ first_disposition_type charge = Ok (disposition license_case).
Proof.
  apply (entry_carries_charge sample_processor sample_data sample_clock 0%nat
           sample_results 2%nat license_case).
  - vm_compute. reflexivity.
  - right. right. left. reflexivity.
Defined.

(** X13. The reason of an entry filed under Ignored, Low, Medium or
    High is one of four texts: the lookback text with the configured number
    of years, the text naming the entry's charge type, the text naming its
    disposition, or "Processed successfully"; and the entry is Ignored
    exactly when its reason is not "Processed successfully". *)
Theorem entry_reason (self : CriminalCheckProcessor) (data : Document.t)
  (clk : Clock) (t : nat) (r : Buckets) (t' : nat) (pc : ProcessedCase) :
  process_criminal_check self data clk t = (Ok r, t') ->
  In pc (charge_entries r) ->
  (reason pc = ("Outside " ++ str_of_int (lookback_years self)
                  ++ "-year lookback period")%string
   \/ reason pc = ("Charge type '" ++ charge_type pc
                     ++ "' not enabled in configuration")%string
   \/ reason pc = ("Disposition '" ++ disposition pc
                     ++ "' not enabled in configuration")%string
   \/ reason pc = "Processed successfully")
  /\ (risk_level pc = IGNORED <-> reason pc <> "Processed successfully").
Proof.
  intros H Hin. apply process_criminal_check_buckets in H.
  destruct H as (es & clean & HF & -> & _). apply charge_entries_In in Hin.
  destruct (Forall2_In_r _ _ _ _ HF Hin) as (c & _ & Hem).
  apply emitted_fields in Hem.
  destruct Hem as (disp & level & score & why & _ & -> & Hwhy).
  cbn [charge_case reason charge_type disposition risk_level].
  destruct Hwhy as [(-> & [ -> |[ -> | -> ]])|(Hl & ->)].
  - split; [tauto|]. split; [intros _; discriminate|reflexivity].
  - split; [tauto|]. split; [intros _; discriminate|reflexivity].
  - split; [tauto|]. split; [intros _; discriminate|reflexivity].
  - split; [tauto|]. split; [contradiction|intros H; now exfalso].
Qed.

Lemma entry_reason_witness :
  (reason unclassified_case
   = ("Outside " ++ str_of_int (lookback_years sample_processor)
        ++ "-year lookback period")%string
   \/ reason unclassified_case
      = ("Charge type '" ++ charge_type unclassified_case
           ++ "' not enabled in configuration")%string
   \/ reason unclassified_case
      = ("Disposition '" ++ disposition unclassified_case
           ++ "' not enabled in configuration")%string
   \/ reason unclassified_case = "Processed successfully")
  /\ (risk_level unclassified_case = IGNORED
      <-> reason unclassified_case <> "Processed successfully").
Proof.
  apply (entry_reason sample_processor sample_data sample_clock 0%nat
           sample_results 2%nat unclassified_case).
  - vm_compute. reflexivity.
  - left. reflexivity.
Defined.

(** ** The lookback window *)

Lemma strptime_midnight (s : string) (dt : datetime) :
  strptime_Ymd s = Ok dt -> dt mod us_per_day = 0.
Proof.
  unfold strptime_Ymd.
  destruct (re_match_Ymd s) as [[[[y m] d] [|a r]]|]; try discriminate.
  destruct ((1 <=? y) && (d <=? days_in_month y m)); [|discriminate].
  intros H. injection H as <-. unfold datetime_of_ymd. apply Z_mod_mult.
Qed.

(** Against a date at midnight the cutoff counts by calendar day, and
    its own day only when it stands at midnight too. *)
Lemma cutoff_by_day (cutoff dt : Z) :
  dt mod us_per_day = 0 ->
  (cutoff <= dt
   <-> cutoff / us_per_day < dt / us_per_day
       \/ (cutoff / us_per_day = dt / us_per_day /\ cutoff mod us_per_day = 0)).
Proof.
  intros Hdt.
  assert (HD : 0 < us_per_day) by reflexivity.
  pose proof (Z.div_mod cutoff us_per_day ltac:(lia)) as Hc.
  pose proof (Z.div_mod dt us_per_day ltac:(lia)) as Hd.
  pose proof (Z.mod_pos_bound cutoff us_per_day HD) as Hb.
  rewrite Hdt in Hd.
  set (q := cutoff / us_per_day) in *. set (k := dt / us_per_day) in *.
  set (rm := cutoff mod us_per_day) in *.
  unfold us_per_day in *. lia.
Qed.

(** X14. The lookback window of a processor built at the clock reading
    [n] for [Y] years: the check itself never raises, and a charge whose
    offense date parses is within the window exactly when its calendar day
    is later than the day of [n] less 365 [Y] days, or is that very day and
    [n] is midnight.  Years count as 365 days, leap days not added. *)
Theorem lookback_window (cfg : Config.t) (clk : Clock) (t : nat)
  (self : CriminalCheckProcessor) (t' : nat) (s : string) :
  __init__ cfg clk t = (Ok self, t') ->
  (exists b, _is_within_lookback self s = Ok b)
  /\ (_is_within_lookback self s = Ok true
      <-> exists dt,
            _parse_date s = Ok dt
            /\ (clk t / us_per_day - 365 * Config.selected_period cfg < dt / us_per_day
                \/ (clk t / us_per_day - 365 * Config.selected_period cfg
                    = dt / us_per_day
                    /\ clk t mod us_per_day = 0))).
Proof.
  intros Hinit.
  assert (Hcut : cutoff_date self
                 = clk t - Config.selected_period cfg * 365 * us_per_day).
  { unfold __init__, bind, now, lift, ret, timedelta_days, datetime_sub in Hinit.
    destruct ((-999999999 <=? Config.selected_period cfg * 365)
              && (Config.selected_period cfg * 365 <=? 999999999)); [|discriminate].
    destruct ((0 <=? clk t - Config.selected_period cfg * 365 * us_per_day)
              && (clk t - Config.selected_period cfg * 365 * us_per_day
                  <=? datetime_max)); [|discriminate].
    injection Hinit as <- _. reflexivity. }
  assert (Hdiv : cutoff_date self / us_per_day
                 = clk t / us_per_day - 365 * Config.selected_period cfg).
  { rewrite Hcut.
    replace (clk t - Config.selected_period cfg * 365 * us_per_day)
      with (clk t + (- (365 * Config.selected_period cfg)) * us_per_day) by ring.
    rewrite Z.div_add by discriminate. ring. }
  assert (Hmod : cutoff_date self mod us_per_day = clk t mod us_per_day).
  { rewrite Hcut.
    replace (clk t - Config.selected_period cfg * 365 * us_per_day)
      with (clk t + (- (365 * Config.selected_period cfg)) * us_per_day) by ring.
    now rewrite Z.mod_add by discriminate. }
  rewrite is_within_lookback_eq, parse_date_eq. split; [eauto|].
  unfold within_lookback. rewrite <- Hdiv, <- Hmod.
  destruct (strptime_Ymd s) as [dt|e] eqn:E.
  - pose proof (cutoff_by_day (cutoff_date self) dt (strptime_midnight s dt E)) as Hday.
    split.
    + intros H. injection H as H. apply Z.leb_le in H. exists dt. split; [reflexivity|].
      now apply Hday.
    + intros (dt' & Hdt & H). injection Hdt as <-. apply Hday in H.
      apply Z.leb_le in H. now rewrite H.
  - split; [discriminate|]. intros (dt & Hdt & _). discriminate.
Qed.

Lemma lookback_window_witness :
  (exists b, _is_within_lookback sample_processor "20160602" = Ok b)
  /\ (_is_within_lookback sample_processor "20160602" = Ok true
      <-> exists dt,
            _parse_date "20160602" = Ok dt
            /\ (sample_clock 0%nat / us_per_day - 365 * Config.selected_period sample_config
                < dt / us_per_day
                \/ (sample_clock 0%nat / us_per_day
                    - 365 * Config.selected_period sample_config
                    = dt / us_per_day
                    /\ sample_clock 0%nat mod us_per_day = 0))).
Proof.
  apply (lookback_window sample_config sample_clock 0%nat sample_processor 1%nat).
  reflexivity.
Defined.

(** The day the sample's window opens: 2016-06-02, seven times 365 days
    before 2023-06-01, is within it because the sample clock starts at
    midnight; seven calendar years back, 2016-06-01, is outside. *)
Example lookback_window_edge :
  _is_within_lookback sample_processor "20160602" = Ok true
  /\ _is_within_lookback sample_processor "20160601" = Ok false.
Proof. split; reflexivity. Qed.

(** ** Letter case of the keys *)

Lemma record_category_lower (l : list RecordCategory.t) (a b : string) :
  lower a = lower b ->
  _is_record_category_enabled_in l a = _is_record_category_enabled_in l b.
Proof.
  intros H. induction l as [|c l IH]; [reflexivity|]. cbn. now rewrite H, IH.
Qed.

Lemma risk_category_weight_lower (l : list RiskCategory.t) (a b : string) :
  lower a = lower b ->
  _get_risk_category_weight_in l a = _get_risk_category_weight_in l b.
Proof.
  intros H. induction l as [|c l IH]; [reflexivity|]. cbn. now rewrite H, IH.
Qed.

(** X15. No lookup of the processor sees the letter case of its key: two
    keys with the same lower-case form get the same answer from the three
    enablement checks, the two weight lookups and the risk impact lookup,
    and categories and subcategories that differ in case only get the same
    tier. *)
Theorem lookups_ignore_case (self : CriminalCheckProcessor) (a b : string) :
  lower a = lower b ->
  _is_record_category_enabled self a = _is_record_category_enabled self b
  /\ _is_charge_type_enabled self a = _is_charge_type_enabled self b
  /\ _is_disposition_enabled self a = _is_disposition_enabled self b
  /\ _get_charge_type_weight self a = _get_charge_type_weight self b
  /\ _get_disposition_risk_impact self a = _get_disposition_risk_impact self b
  /\ _get_risk_category_weight self a = _get_risk_category_weight self b
  /\ (forall s s', lower s = lower s' ->
                   _get_csv_risk_score a s = _get_csv_risk_score b s').
Proof.
  intros H.
  unfold _is_record_category_enabled, _is_charge_type_enabled, _is_disposition_enabled,
    _get_charge_type_weight, _get_disposition_risk_impact, _get_risk_category_weight.
  rewrite (record_category_lower _ a b H), (find_charge_type_lower _ a b H),
    (find_disposition_lower _ a b H), (risk_category_weight_lower _ a b H).
  repeat split. intros s s' Hs. unfold _get_csv_risk_score. now rewrite H, Hs.
Qed.

Lemma lookups_ignore_case_witness :
  _is_record_category_enabled sample_processor "CRIMINAL/TRAFFIC"
  = _is_record_category_enabled sample_processor "criminal/Traffic"
  /\ _is_charge_type_enabled sample_processor "CRIMINAL/TRAFFIC"
     = _is_charge_type_enabled sample_processor "criminal/Traffic"
  /\ _is_disposition_enabled sample_processor "CRIMINAL/TRAFFIC"
     = _is_disposition_enabled sample_processor "criminal/Traffic"
  /\ _get_charge_type_weight sample_processor "CRIMINAL/TRAFFIC"
     = _get_charge_type_weight sample_processor "criminal/Traffic"
  /\ _get_disposition_risk_impact sample_processor "CRIMINAL/TRAFFIC"
     = _get_disposition_risk_impact sample_processor "criminal/Traffic"
  /\ _get_risk_category_weight sample_processor "CRIMINAL/TRAFFIC"
     = _get_risk_category_weight sample_processor "criminal/Traffic"
  /\ (forall s s', lower s = lower s' ->
                   _get_csv_risk_score "CRIMINAL/TRAFFIC" s
                   = _get_csv_risk_score "criminal/Traffic" s').
Proof.
  apply (lookups_ignore_case sample_processor "CRIMINAL/TRAFFIC" "criminal/Traffic").
  reflexivity.
Defined.

(** ** Dates sent to the record service *)

Lemma digit_range (a : ascii) (k : Z) : digit a = Some k -> 0 <= k <= 9.
Proof.
  unfold digit.
  destruct ((48 <=? nat_of_ascii a)%nat && (nat_of_ascii a <=? 57)%nat) eqn:E;
    [|discriminate].
  apply andb_true_iff in E. destruct E as [E1 E2].
  apply Nat.leb_le in E1, E2. intros H. injection H as <-. lia.
Qed.

Lemma digit_in_range (lo hi : Z) (a : ascii) (k : Z) :
  digit_in lo hi a = Some k -> lo <= k <= hi.
Proof.
  unfold digit_in. destruct (digit a) as [d|]; [|discriminate].
  destruct ((lo <=? d) && (d <=? hi)) eqn:E; [|discriminate].
  apply andb_true_iff in E. destruct E as [E1 E2].
  apply Z.leb_le in E1, E2. intros H. injection H as <-. lia.
Qed.

Lemma two_digits_range (lo1 hi1 lo2 hi2 : Z) (s : string) (v : Z) (r : string) :
  In (v, r) (two_digits lo1 hi1 lo2 hi2 s) ->
  10 * lo1 + lo2 <= v <= 10 * hi1 + hi2.
Proof.
  unfold two_digits. destruct s as [|a [|b rest]]; try contradiction.
  destruct (digit_in lo1 hi1 a) as [x|] eqn:Ea; [|contradiction].
  destruct (digit_in lo2 hi2 b) as [y|] eqn:Eb; [|contradiction].
  apply digit_in_range in Ea, Eb. intros [H|[]].
  apply (f_equal fst) in H. cbn [fst] in H. lia.
Qed.

Lemma one_digit_range (lo hi : Z) (s : string) (v : Z) (r : string) :
  In (v, r) (one_digit lo hi s) -> lo <= v <= hi.
Proof.
  unfold one_digit. destruct s as [|a rest]; [contradiction|].
  destruct (digit_in lo hi a) as [x|] eqn:Ea; [|contradiction].
  apply digit_in_range in Ea. intros [H|[]].
  apply (f_equal fst) in H. cbn [fst] in H. lia.
Qed.

Lemma re_month_range (s : string) (m : Z) (r : string) :
  In (m, r) (re_month s) -> 1 <= m <= 12.
Proof.
  unfold re_month. rewrite !in_app_iff. intros [H|[H|H]].
  - apply two_digits_range in H. lia.
  - apply two_digits_range in H. lia.
  - apply one_digit_range in H. lia.
Qed.

Lemma re_day_range (s : string) (d : Z) (r : string) :
  In (d, r) (re_day s) -> 1 <= d <= 31.
Proof.
  unfold re_day. rewrite !in_app_iff. intros [H|[H|[H|[H|H]]]].
  - apply two_digits_range in H. lia.
  - apply two_digits_range in H. lia.
  - apply two_digits_range in H. lia.
  - apply one_digit_range in H. lia.
  - unfold space_digit in H. destruct s as [|a rest]; [contradiction|].
    destruct (Ascii.eqb a " ") eqn:E.
    + apply Ascii.eqb_eq in E. subst a. apply one_digit_range in H. lia.
    + destruct a as [[] [] [] [] [] [] [] []]; try contradiction; discriminate.
Qed.

Lemma re_year_range (s : string) (y : Z) (r : string) :
  re_year s = Some (y, r) -> 0 <= y <= 9999.
Proof.
  unfold re_year. destruct s as [|a [|b [|c [|d rest]]]]; try discriminate.
  destruct (digit a) as [a'|] eqn:Ea; [|discriminate].
  destruct (digit b) as [b'|] eqn:Eb; [|discriminate].
  destruct (digit c) as [c'|] eqn:Ec; [|discriminate].
  destruct (digit d) as [d'|] eqn:Ed; [|discriminate].
  apply digit_range in Ea, Eb, Ec, Ed. intros H.
  assert (Hy : 1000 * a' + 100 * b' + 10 * c' + d' = y) by congruence. lia.
Qed.

Lemma hd_error_In {A} (l : list A) (x : A) : hd_error l = Some x -> In x l.
Proof. destruct l; [discriminate|]. intros H. injection H as ->. now left. Qed.

(** What [strptime] accepts for ["%Y-%m-%d"] is a calendar date. *)
Lemma strptime_Y_m_d_valid (s : string) (y m d : Z) :
  strptime_Y_m_d s = Ok (y, m, d) -> valid_date y m d.
Proof.
  unfold strptime_Y_m_d, re_match_Y_m_d.
  destruct (re_year s) as [[y0 s1]|] eqn:Ey; [|discriminate].
  apply re_year_range in Ey.
  match goal with
  | |- context [hd_error ?l] => destruct (hd_error l) as [[[[y1 m1] d1] r]|] eqn:E
  end; [|discriminate].
  apply hd_error_In in E. apply in_flat_map in E. destruct E as (s2 & _ & E).
  apply in_flat_map in E. destruct E as ([m2 s3] & Hm & E).
  apply in_flat_map in E. destruct E as (s4 & _ & E).
  apply in_map_iff in E. destruct E as ([d2 s5] & E & Hd).
  injection E as <- <- <- <-.
  apply re_month_range in Hm. apply re_day_range in Hd.
  destruct s5; [|discriminate].
  destruct ((1 <=? y0) && (d2 <=? days_in_month y0 m2)) eqn:Ev; [|discriminate].
  apply andb_true_iff in Ev. destruct Ev as [E1 E2].
  apply Z.leb_le in E1, E2. intros H. injection H as <- <- <-.
  unfold valid_date. lia.
Qed.

(** X16. What [_format_date] lets through: the empty text, as the empty
    text; any text of eight digits, unchanged and unchecked, a date or
    not; and otherwise only a calendar date of the years 1 to 9999 written
    year-month-day, which it writes back as digits.  Anything else raises
    [ValueError], and nothing else is raised. *)
Theorem format_date_outcomes (small_year : Z -> string) (s : string) :
  _format_date small_year "" = Ok ""
  /\ (String.length s = 8%nat -> isdigit s = true -> _format_date small_year s = Ok s)
  /\ (forall e, _format_date small_year s = Raise e -> e = ValueError)
  /\ (forall out,
        _format_date small_year s = Ok out ->
        (s = "" /\ out = "")
        \/ (String.length s = 8%nat /\ isdigit s = true /\ out = s)
        \/ (exists y m d,
              valid_date y m d /\ strptime_Y_m_d s = Ok (y, m, d)
              /\ out = strftime_Ymd small_year (y, m, d))).
Proof.
  split; [reflexivity|]. unfold _format_date. split; [|split].
  - intros Hl Hd. destruct s as [|a r]; [discriminate|]. cbn [str_truthy negb].
    now rewrite Hl, Hd.
  - intros e. destruct (negb (str_truthy s)); [discriminate|].
    destruct ((String.length s =? 8)%nat && isdigit s); [discriminate|].
    destruct (strptime_Y_m_d s) as [[[y m] d]|e'] eqn:E; [discriminate|].
    assert (e' = ValueError).
    { unfold strptime_Y_m_d in E.
      destruct (re_match_Y_m_d s) as [[[[y m] d] [|a r]]|]; try congruence.
      destruct ((1 <=? y) && (d <=? days_in_month y m)); congruence. }
    subst e'. congruence.
  - intros out. destruct s as [|a r]; cbn [str_truthy negb].
    + intros H. injection H as <-. now left.
    + destruct ((String.length (String a r) =? 8)%nat && isdigit (String a r)) eqn:E8.
      * intros H. injection H as <-. right. left.
        apply andb_true_iff in E8. destruct E8 as [E1 E2].
        apply Nat.eqb_eq in E1. auto.
      * destruct (strptime_Y_m_d (String a r)) as [[[y m] d]|e'] eqn:E.
        -- intros H. injection H as <-. right. right. exists y, m, d.
           split; [now apply strptime_Y_m_d_valid in E|]. split; reflexivity.
        -- destruct e'; discriminate.
Qed.

Lemma format_date_outcomes_witness :
  _format_date str_of_int "99999999" = Ok "99999999".
Proof.
  apply (proj1 (proj2 (format_date_outcomes str_of_int "99999999"))); reflexivity.
Defined.

(** A few texts: a padded and an unpadded date, eight digits that are no
    date, other separators, a day the month does not have, seven digits. *)
Example format_date_examples :
  _format_date str_of_int "2023-01-05" = Ok "20230105"
  /\ _format_date str_of_int "2023-1-5" = Ok "20230105"
  /\ _format_date str_of_int "20231345" = Ok "20231345"
  /\ _format_date str_of_int "2023/01/05" = Raise ValueError
  /\ _format_date str_of_int "2023-02-30" = Raise ValueError
  /\ _format_date str_of_int "2023015" = Raise ValueError.
Proof. repeat split. Qed.

(** Case analysis on an integer known to lie between 1 and [n]. *)
Ltac cases_upto z n :=
  match n with
  | O => exfalso; lia
  | S ?k =>
      let v := eval compute in (Z.of_nat n) in
      destruct (Z.eq_dec z v) as [->|?]; [|cases_upto z k]
  end.

Lemma digit_digit_char (k : Z) : 0 <= k <= 9 -> digit (digit_char k) = Some k.
Proof.
  intros H. destruct (Z.eq_dec k 0) as [->|?]; [reflexivity|].
  cases_upto k 9%nat; reflexivity.
Qed.

Lemma four_digit_value (y : Z) :
  0 <= y <= 9999 ->
  0 <= y / 1000 <= 9 /\ 0 <= y / 100 mod 10 <= 9 /\ 0 <= y / 10 mod 10 <= 9
  /\ 0 <= y mod 10 <= 9
  /\ 1000 * (y / 1000) + 100 * (y / 100 mod 10) + 10 * (y / 10 mod 10) + y mod 10 = y.
Proof. intros H. Z.div_mod_to_equations. lia. Qed.

Lemma re_year_four (y : Z) (tail : string) :
  0 <= y <= 9999 -> re_year (four_digit_str y ++ tail) = Some (y, tail).
Proof.
  intros H. destruct (four_digit_value y H) as (H1 & H2 & H3 & H4 & Hy).
  unfold four_digit_str. cbn [String.append]. unfold re_year.
  rewrite !digit_digit_char by assumption. now rewrite Hy.
Qed.

Lemma days_in_month_le_31 (y m : Z) : days_in_month y m <= 31.
Proof.
  unfold days_in_month. destruct ((m =? 2) && is_leap y); [lia|].
  destruct (Z.to_nat m) as [|[|[|[|[|[|[|[|[|[|[|[|[|[|n]]]]]]]]]]]]]]; cbn; lia.
Qed.

Lemma strptime_iso_date (y m d : Z) :
  valid_date y m d -> strptime_Y_m_d (iso_date y m d) = Ok (y, m, d).
Proof.
  intros (Hy & Hm & Hd). pose proof (days_in_month_le_31 y m) as H31.
  unfold strptime_Y_m_d, re_match_Y_m_d, iso_date.
  rewrite re_year_four by lia.
  assert (Hv : (1 <=? y) && (d <=? days_in_month y m) = true).
  { apply andb_true_iff. split; apply Z.leb_le; lia. }
  match goal with
  | |- context [hd_error ?l] =>
      assert (Hh : hd_error l = Some (y, m, d, EmptyString))
  end.
  { clear Hv Hy. cases_upto m 12%nat; cases_upto d 31%nat; vm_compute; reflexivity. }
  now rewrite Hh, Hv.
Qed.

Lemma strptime_compact_date (y m d : Z) :
  valid_date y m d -> strptime_Ymd (compact_date y m d) = Ok (datetime_of_ymd y m d).
Proof.
  intros (Hy & Hm & Hd). pose proof (days_in_month_le_31 y m) as H31.
  unfold strptime_Ymd, re_match_Ymd, compact_date.
  rewrite re_year_four by lia.
  assert (Hv : (1 <=? y) && (d <=? days_in_month y m) = true).
  { apply andb_true_iff. split; apply Z.leb_le; lia. }
  match goal with
  | |- context [hd_error ?l] =>
      assert (Hh : hd_error l = Some (y, m, d, EmptyString))
  end.
  { clear Hv Hy. cases_upto m 12%nat; cases_upto d 31%nat; vm_compute; reflexivity. }
  now rewrite Hh, Hv.
Qed.

Lemma compact_date_digits (y m d : Z) :
  valid_date y m d ->
  String.length (compact_date y m d) = 8%nat /\ isdigit (compact_date y m d) = true.
Proof.
  intros (Hy & Hm & Hd). pose proof (days_in_month_le_31 y m) as H31.
  split; [reflexivity|].
  destruct (four_digit_value y ltac:(lia)) as (H1 & H2 & H3 & H4 & _).
  unfold compact_date, four_digit_str, two_digit_str. cbn [String.append isdigit all_digits].
  rewrite !digit_digit_char; try assumption; try reflexivity;
    Z.div_mod_to_equations; lia.
Qed.

(** X17. A calendar date of the years 1000 to 9999 written
    [YYYY-MM-DD] comes out of [_format_date] as [YYYYMMDD]; the result
    goes through [_format_date] again unchanged, and
    [CriminalCheckProcessor._parse_date] reads it back as the same day. *)
Theorem format_date_round_trip (small_year : Z -> string) (y m d : Z) :
  valid_date y m d ->
  1000 <= y ->
  _format_date small_year (iso_date y m d) = Ok (compact_date y m d)
  /\ _format_date small_year (compact_date y m d) = Ok (compact_date y m d)
  /\ _parse_date (compact_date y m d) = Ok (datetime_of_ymd y m d).
Proof.
  intros Hv Hy. split; [|split].
  - unfold _format_date. rewrite (strptime_iso_date y m d Hv).
    unfold strftime_Ymd, strftime_Y.
    assert (H1000 : (1000 <=? y) = true) by (apply Z.leb_le; lia).
    rewrite H1000. reflexivity.
  - unfold _format_date. destruct (compact_date_digits y m d Hv) as [Hl Hd].
    rewrite Hl, Hd. reflexivity.
  - rewrite parse_date_eq. now apply strptime_compact_date.
Qed.

Lemma format_date_round_trip_witness :
  _format_date str_of_int (iso_date 2024 2 29) = Ok (compact_date 2024 2 29)
  /\ _format_date str_of_int (compact_date 2024 2 29) = Ok (compact_date 2024 2 29)
  /\ _parse_date (compact_date 2024 2 29) = Ok (datetime_of_ymd 2024 2 29).
Proof.
  apply (format_date_round_trip str_of_int 2024 2 29).
  - unfold valid_date. vm_compute. intuition discriminate.
  - lia.
Defined.

(** ** The access token *)

(** X18. A token that [__post_init__] stamps at the reading [n0] is
    reported expired by [is_token_expired] at a reading [n] exactly when
    more than [expires_in - 300] seconds lie between the two, provided the
    expiry time is a date of the years 1 to 9999; from then on it stays
    expired at every reading that is not earlier, and a token of at most
    300 seconds is expired as soon as the clock has moved. *)
Theorem token_expiry (cfg : CheckrConfig.t) (clk : Clock) (t0 : nat)
  (self : CheckrConfig.t) (t1 t : nat) :
  CheckrConfig.token_issued_at cfg = None ->
  CheckrConfig.__post_init__ cfg clk t0 = (Ok self, t1) ->
  -999999999 <= (CheckrConfig.expires_in cfg - 300) / 86400 <= 999999999 ->
  0 <= clk t0 + (CheckrConfig.expires_in cfg - 300) * 1000000 <= datetime_max ->
  exists b,
    CheckrConfig.is_token_expired self clk t = (Ok b, S t)
    /\ (b = true <-> (CheckrConfig.expires_in cfg - 300) * 1000000 < clk t - clk t0)
    /\ (b = true ->
        forall t2, clk t <= clk t2 ->
                   CheckrConfig.is_token_expired self clk t2 = (Ok true, S t2))
    /\ (CheckrConfig.expires_in cfg <= 300 -> clk t0 < clk t -> b = true).
Proof.
  intros Hnone Hinit Hd Hr.
  unfold CheckrConfig.__post_init__ in Hinit. rewrite Hnone in Hinit.
  unfold bind, now, ret in Hinit. injection Hinit as <- _.
  unfold CheckrConfig.is_token_expired, bind, lift, now, ret,
    timedelta_seconds, datetime_add.
  cbn [CheckrConfig.token_issued_at CheckrConfig.expires_in].
  assert (H1 : (-999999999 <=? (CheckrConfig.expires_in cfg - 300) / 86400)
               && ((CheckrConfig.expires_in cfg - 300) / 86400 <=? 999999999) = true).
  { apply andb_true_iff. split; apply Z.leb_le; lia. }
  assert (H2 : (0 <=? clk t0 + (CheckrConfig.expires_in cfg - 300) * 1000000)
               && (clk t0 + (CheckrConfig.expires_in cfg - 300) * 1000000
                   <=? datetime_max) = true).
  { apply andb_true_iff. split; apply Z.leb_le; lia. }
  rewrite H1, H2. eexists. split; [reflexivity|]. split; [|split].
  - rewrite Z.ltb_lt. lia.
  - intros Hb t2 Ht2. apply Z.ltb_lt in Hb.
    assert (H3 : (clk t0 + (CheckrConfig.expires_in cfg - 300) * 1000000 <? clk t2) = true)
      by (apply Z.ltb_lt; lia).
    now rewrite H3.
  - intros Hs Hlt. apply Z.ltb_lt. lia.
Qed.

Lemma token_expiry_witness :
  exists b,
    CheckrConfig.is_token_expired
      {| CheckrConfig.access_token := "token";
         CheckrConfig.expires_in := 3600;
         CheckrConfig.token_type := "Bearer";
         CheckrConfig.base_url := "https://api.checkrtrust.com";
         CheckrConfig.token_endpoint := "/v1/accounts/token";
         CheckrConfig.client_id := None;
         CheckrConfig.client_secret := None;
         CheckrConfig.token_issued_at := Some (minute_clock 0%nat) |}
      minute_clock 56%nat = (Ok b, 57%nat)
    /\ (b = true <-> (CheckrConfig.expires_in sample_token - 300) * 1000000
                     < minute_clock 56%nat - minute_clock 0%nat)
    /\ (b = true ->
        forall t2, minute_clock 56%nat <= minute_clock t2 ->
                   CheckrConfig.is_token_expired
                     {| CheckrConfig.access_token := "token";
                        CheckrConfig.expires_in := 3600;
                        CheckrConfig.token_type := "Bearer";
                        CheckrConfig.base_url := "https://api.checkrtrust.com";
                        CheckrConfig.token_endpoint := "/v1/accounts/token";
                        CheckrConfig.client_id := None;
                        CheckrConfig.client_secret := None;
                        CheckrConfig.token_issued_at := Some (minute_clock 0%nat) |}
                     minute_clock t2 = (Ok true, S t2))
    /\ (CheckrConfig.expires_in sample_token <= 300 ->
        minute_clock 0%nat < minute_clock 56%nat -> b = true).
Proof.
  apply (token_expiry sample_token minute_clock 0%nat _ 1%nat 56%nat).
  - reflexivity.
  - reflexivity.
  - vm_compute. split; discriminate.
  - vm_compute. split; discriminate.
Defined.

(** An hour's token read once a minute: good at the 55th minute, expired
    at the 56th, five minutes before the hour. *)
Example token_expiry_example :
  (self <- CheckrConfig.__post_init__ sample_token ;; CheckrConfig.is_token_expired self)
    minute_clock 0%nat = (Ok false, 2%nat)
  /\ (self <- CheckrConfig.__post_init__ sample_token ;;
      CheckrConfig.is_token_expired self)
       (fun n => minute_clock (n * 55)%nat) 0%nat = (Ok false, 2%nat)
  /\ (self <- CheckrConfig.__post_init__ sample_token ;;
      CheckrConfig.is_token_expired self)
       (fun n => minute_clock (n * 56)%nat) 0%nat = (Ok true, 2%nat).
Proof. repeat split. Qed.

(** ** The clock in the scores *)

Lemma offense_datetime_midnight (charge : Charge.t) :
  offense_datetime charge mod us_per_day = 0.
Proof.
  unfold offense_datetime.
  destruct (strptime_Ymd (get (Charge.offense_date charge) "")) as [dt|e] eqn:E;
    [|reflexivity].
  now apply strptime_midnight in E.
Qed.

Lemma days_between_midnight (n dt : Z) :
  dt mod us_per_day = 0 -> days_between n dt = n / us_per_day - dt / us_per_day.
Proof.
  intros H. unfold days_between.
  assert (Hdt : dt = dt / us_per_day * us_per_day).
  { pose proof (Z.div_mod dt us_per_day ltac:(discriminate)) as Hd.
    rewrite H in Hd. lia. }
  rewrite Hdt at 1.
  replace (n - dt / us_per_day * us_per_day)
    with (n + (- (dt / us_per_day)) * us_per_day) by ring.
  rewrite Z.div_add by discriminate. ring.
Qed.

Lemma process_charge_clock (self : CriminalCheckProcessor) (charge : Charge.t)
  (cn : string) (clk1 clk2 : Clock) (t : nat) :
  clk1 t / us_per_day = clk2 t / us_per_day ->
  _process_charge self charge cn clk1 t = _process_charge self charge cn clk2 t.
Proof.
  intros H. rewrite !process_charge_eq.
  destruct (first_disposition_type charge) as [disp|e]; [|reflexivity].
  unfold spec_process_charge, eligible_score.
  rewrite !(days_between_midnight _ _ (offense_datetime_midnight charge)), H.
  reflexivity.
Qed.

Lemma for_each_clock {A S} (body : A -> S -> M S) (clk1 clk2 : Clock) :
  (forall a s t, body a s clk1 t = body a s clk2 t) ->
  forall l s t, for_each l body s clk1 t = for_each l body s clk2 t.
Proof.
  intros H. induction l as [|a l IH]; intros s t; [reflexivity|].
  cbn [for_each]. unfold bind. rewrite H.
  destruct (body a s clk2 t) as [[s'|e] t']; [apply IH|reflexivity].
Qed.

(** X19. A run sees the clock by calendar day only: under two clocks
    whose readings fall on the same days, whatever the times of day,
    [process_criminal_check] gives the same outcome on every document. *)
Theorem run_depends_on_days (self : CriminalCheckProcessor) (data : Document.t)
  (clk1 clk2 : Clock) (t : nat) :
  (forall n, clk1 n / us_per_day = clk2 n / us_per_day) ->
  process_criminal_check self data clk1 t = process_criminal_check self data clk2 t.
Proof.
  intros H. unfold process_criminal_check.
  destruct (negb (truthy (get (Document.results data) []))); [reflexivity|].
  unfold bind.
  rewrite (for_each_clock (result_body self) clk1 clk2).
  { destruct (for_each (get (Document.results data) []) (result_body self)
                (empty_results, false) clk2 t) as [[[results any]|e] t']; [|reflexivity].
    unfold ret, lift. destruct any; [reflexivity|].
    destruct (any_bucket results ["Low"; "Medium"; "High"]) as [[|]|e]; try reflexivity.
    cbn [negb]. destruct (getitem "Ignored" results) as [l|e]; [|reflexivity].
    destruct (truthy l); cbn [negb]; [reflexivity|].
    destruct (append_to "Clean" no_qualifying_case results); reflexivity. }
  intros g s t0. unfold result_body.
  destruct (negb (_is_record_category_enabled self (get (ResultGroup.category g) "")));
    [reflexivity|].
  apply for_each_clock. intros case s0 t1. unfold case_body.
  apply for_each_clock. intros charge [results any] t2. unfold charge_body, bind.
  rewrite (process_charge_clock self charge _ clk1 clk2 t2 (H t2)).
  destruct (_process_charge self charge (get (Case.case_number case) "unknown") clk2 t2)
    as [[[pc inc]|e] t3]; [|reflexivity].
  unfold lift, ret. destruct (RiskLevel_eqb (risk_level pc) IGNORED); reflexivity.
Qed.

Lemma run_depends_on_days_witness :
  process_criminal_check sample_processor sample_data sample_clock 0%nat
  = process_criminal_check sample_processor sample_data
      (fun n => sample_clock n + 500000) 0%nat.
Proof.
  apply (run_depends_on_days sample_processor sample_data sample_clock
           (fun n => sample_clock n + 500000) 0%nat).
  intros n. unfold sample_clock, datetime_of_ymd.
  change (ymd2ord 2023 6 1 - 1) with 738671. unfold us_per_day.
  Z.div_mod_to_equations. lia.
Defined.

Lemma spec_recency_multiplier_decreasing (d1 d2 : Z) :
  d1 <= d2 -> (spec_recency_multiplier d2 <= spec_recency_multiplier d1)%Q.
Proof.
  intros H. unfold spec_recency_multiplier.
  destruct (d1 <=? 365) eqn:A1; destruct (d2 <=? 365) eqn:A2;
    destruct (d1 <=? 3 * 365) eqn:B1; destruct (d2 <=? 3 * 365) eqn:B2;
    destruct (d1 <=? 5 * 365) eqn:C1; destruct (d2 <=? 5 * 365) eqn:C2;
    try discriminate;
    rewrite ?Z.leb_le, ?Z.leb_gt in *; exfalso; lia.
Qed.

Lemma calculate_risk_score_raises (self : CriminalCheckProcessor) (charge : Charge.t)
  (od : string) (clk : Clock) (t : nat) (e : exn) :
  first_disposition_type charge = Raise e ->
  _calculate_risk_score self charge od clk t = (Raise e, t).
Proof.
  intros H. unfold _calculate_risk_score, bind, lift. now rewrite H.
Qed.

(** X20. Time never raises a score: when [_calculate_risk_score] scores
    the same charge at two clock readings and the severity weight of its
    type is not negative, the score at the later reading is at most the
    score at the earlier one. *)
Theorem score_never_rises (self : CriminalCheckProcessor) (charge : Charge.t)
  (od : string) (clk1 clk2 : Clock) (t1 t2 : nat) (s1 s2 : Q) (t1' t2' : nat) :
  _calculate_risk_score self charge od clk1 t1 = (Ok s1, t1') ->
  _calculate_risk_score self charge od clk2 t2 = (Ok s2, t2') ->
  0 <= _get_charge_type_weight self (get (Charge.type charge) "unknown") ->
  clk1 t1 <= clk2 t2 ->
  (s2 <= s1)%Q.
Proof.
  intros H1 H2 Hw Hclk.
  destruct (first_disposition_type charge) as [disp|e] eqn:Hd.
  2:{ rewrite (calculate_risk_score_raises _ _ _ _ _ e Hd) in H1. discriminate. }
  rewrite (calculate_risk_score_spec _ _ _ disp _ _ Hd) in H1.
  rewrite (calculate_risk_score_spec _ _ _ disp _ _ Hd) in H2.
  destruct (strptime_Ymd od) as [dt|e] eqn:Hp.
  - injection H1 as <- _. injection H2 as <- _.
    unfold spec_charge_score, spec_risk_score. apply round2_mono.
    assert (Hpos : (0 <= inject_Z (spec_base_score (get (Charge.category charge) "unclassified")
                                      (get (Charge.subcategory charge) ""))
                         * (inject_Z (spec_severity_weight (config self)
                                        (get (Charge.type charge) "unknown")) / 2)
                         * spec_disposition_multiplier (spec_risk_impact (config self) disp))%Q).
    { apply Qmult_le_0_compat; [|apply spec_disposition_multiplier_pos].
      apply Qmult_le_0_compat.
      - change 0%Q with (inject_Z 0). rewrite <- Zle_Qle. apply spec_base_score_nonneg.
      - apply Qmult_le_0_compat; [|discriminate].
        change 0%Q with (inject_Z 0). rewrite <- Zle_Qle.
        revert Hw. unfold spec_severity_weight, _get_charge_type_weight. exact (fun H => H). }
    rewrite !(Qmult_comm _ (spec_recency_multiplier _)).
    apply Qmult_le_compat_r; [|exact Hpos].
    apply spec_recency_multiplier_decreasing. unfold days_between.
    apply Z.div_le_mono; [reflexivity|lia].
  - injection H1 as <- _. injection H2 as <- _. apply Qle_refl.
Qed.

Lemma score_never_rises_witness :
  ((9 # 2) <= (281 # 50))%Q.
Proof.
  apply (score_never_rises sample_processor speeding_charge "20221201"
           sample_clock (fun n => sample_clock n + 365 * us_per_day)
           0%nat 0%nat (281 # 50) (9 # 2) 1%nat 1%nat);
    try reflexivity; vm_compute; discriminate.
Defined.
